(** * NearInitializationModule (pynpoint/readwrite/near.py)

    A shallow embedding of the reading module for chopped and nodded VISIR
    data: the header composition and nod inference of [open_fit], the
    chop classification and trimming of the frames, the three attribute
    collectors and the driver [run], together with the properties of the
    written specification that concern them.

    Python values are a small tagged union, FITS headers are ordered lists of
    cards, the four output ports are records held in the module state, and
    the methods are written in a state-and-exception monad: a raised
    exception keeps the state reached so far, as a Python object keeps its
    mutations when a method raises. *)

From Stdlib Require Import ZArith String List DecimalString Lia.
From stdpp Require Import base option list strings gmap.

Open Scope string_scope.
Open Scope list_scope.

(** ** Python values *)

Module Py.

Inductive value :=
| VStr (s : string)
| VInt (z : Z)
| VBool (b : bool)
| VNone.

#[global] Instance value_eq_dec : EqDecision value.
Proof. solve_decision. Defined.

Definition bool_int (b : bool) : Z := if b then 1%Z else 0%Z.

(** Python's [==]: [True == 1] and [False == 0] hold, values of different
    kinds are otherwise different. *)
Definition eqb (a b : value) : bool :=
  match a, b with
  | VStr s, VStr t => String.eqb s t
  | VInt x, VInt y => Z.eqb x y
  | VBool x, VBool y => Bool.eqb x y
  | VBool x, VInt y => Z.eqb (bool_int x) y
  | VInt x, VBool y => Z.eqb x (bool_int y)
  | VNone, VNone => true
  | _, _ => false
  end.

(** [str(v)] *)
Definition str (v : value) : string :=
  match v with
  | VStr s => s
  | VInt z => NilZero.string_of_int (Z.to_int z)
  | VBool true => "True"
  | VBool false => "False"
  | VNone => "None"
  end.

(** [isinstance(v, bool)] *)
Definition is_bool (v : value) : bool :=
  match v with VBool _ => true | _ => false end.

(** The truth value taken by [if v:]. *)
Definition truthy (v : value) : bool :=
  match v with
  | VStr s => negb (String.eqb s "")
  | VInt z => negb (Z.eqb z 0)
  | VBool b => b
  | VNone => false
  end.

Inductive exn :=
| ValueError (msg : string)
| KeyError (key : string)
| IndexError
| TypeError
| AssertionError (msg : string)
| AttributeError (name : string)
| UnboundLocalError (name : string).

(** [int(v)]: the decimal reading of a string is the plain one, an optional
    minus sign followed by digits. *)
Definition int (v : value) : exn + Z :=
  match v with
  | VInt z => inr z
  | VBool b => inr (bool_int b)
  | VStr s =>
      match NilZero.int_of_string s with
      | Some d => inr (Z.of_int d)
      | None => inl (ValueError "invalid literal for int()")
      end
  | VNone => inl TypeError
  end.

(** [s.endswith(suffix)] *)
Definition endswith (s suffix : string) : bool :=
  let n := String.length s in
  let k := String.length suffix in
  (k <=? n)%nat && String.eqb (substring (n - k) k s) suffix.

(** Insertion of [x] into the sorted list [l], the step of [list.sort] on
    strings (code-point order). *)
Fixpoint insert_sorted (x : string) (l : list string) : list string :=
  match l with
  | [] => [x]
  | y :: l' => if String.leb x y then x :: l else y :: insert_sorted x l'
  end.

Definition sort (l : list string) : list string :=
  foldr insert_sorted [] l.

(** [l.insert(i, x)] for [0 <= i]. *)
Definition list_insert_at {A} (i : nat) (x : A) (l : list A) : list A :=
  take i l ++ x :: drop i l.

End Py.

Import Py.

(** ** FITS headers and HDU lists (astropy.io.fits)

    A header is the ordered list of its cards. Looking a keyword up returns
    the first card that carries it; keywords are compared as they are
    written. *)

Module Fits.

Definition header := list (string * value).

Fixpoint lookup (k : string) (h : header) : option value :=
  match h with
  | [] => None
  | (k', v) :: h' => if String.eqb k k' then Some v else lookup k h'
  end.

(** [k in h] *)
Definition mem (k : string) (h : header) : bool :=
  match lookup k h with Some _ => true | None => false end.

(** [h[k] = v]: the first card with keyword [k] takes the value, a new card
    is appended when there is none. *)
Fixpoint set (k : string) (v : value) (h : header) : header :=
  match h with
  | [] => [(k, v)]
  | (k', v') :: h' =>
      if String.eqb k k' then (k', v) :: h' else (k', v') :: set k v h'
  end.

(** [h.update(other)] *)
Definition update (h other : header) : header :=
  fold_left (fun acc '(k, v) => set k v acc) other h.

(** [h.insert(i, (k, v))] *)
Definition insert (i : nat) (k : string) (v : value) (h : header) : header :=
  list_insert_at i (k, v) h.

(** An image plane is the list of its rows. Pixel values are integers, as
    the integer pixel types of a FITS file hold them (at most 64 bits); a
    plane that the code stores in one of its arrays holds the values as that
    array's float type keeps them, which are integers again. *)
Definition image := list (list Z).

Definition shape (d : image) : nat * nat :=
  (length d, length (default [] (head d))).

(** The integer [x] as a binary float with a significand of [prec] bits
    keeps it: rounded to [prec] significant bits, ties to even. An integer of
    64 bits is far inside the exponent range of both float types, so there
    is no overflow to take care of. *)
Definition round_to (prec : Z) (x : Z) : Z :=
  let a := Z.abs x in
  let dropped := (Z.log2 a + 1 - prec)%Z in
  if (dropped <=? 0)%Z then x
  else
    let unit := (2 ^ dropped)%Z in
    let q := (a / unit)%Z in
    let r := (a mod unit)%Z in
    let q := if (2 * r <? unit)%Z then q
             else if (unit <? 2 * r)%Z then (q + 1)%Z
             else if Z.even q then q else (q + 1)%Z in
    (Z.sgn x * (q * unit))%Z.

(** [np.float64(x)] and [np.float32(x)] *)
Definition float64 : Z -> Z := round_to 53.
Definition float32 : Z -> Z := round_to 24.

(** The plane [d] in an array of the float type [f]. *)
Definition cast (f : Z -> Z) (d : image) : image := map (map f) d.

(** numpy's rule for storing along one axis: the source is as long as the
    target, or it has length 1 and is repeated. *)
Definition stretch {A} (n : nat) (l : list A) : option (list A) :=
  if (length l =? n)%nat then Some l
  else match l with
       | [x] => Some (replicate n x)
       | _ => None
       end.

(** The plane that [target[:, :] = d] stores in a target of shape [slot]:
    [d] stretched along both axes, if it can be. *)
Definition broadcast (slot : nat * nat) (d : image) : option image :=
  rows ← mapM (stretch (snd slot)) d; stretch (fst slot) rows.

(** [np.zeros((h, w))] *)
Definition zeros (h w : nat) : image := replicate h (replicate w 0%Z).

(** [d[0, 0]] *)
Definition corner (d : image) : option Z :=
  match d with
  | (x :: _) :: _ => Some x
  | _ => None
  end.

Record hdu := HDU {
  hdu_header : header;
  hdu_data : option image
}.

Definition hdulist := list hdu.

End Fits.

Import Fits.

(** ** Output ports *)

Module Port.

(** Modelled from the spec: the output port of the pipeline framework (class
    [OutputPort] of pynpoint.core.dataio, not among the sources). A stream
    "owns its accumulated frame stack and its Static/NonStatic/Extra
    attributes", is flushed after a file and closed with a provenance label.
    The frame stack is absent until something was appended: that is the state
    in which the collector below catches [KeyError] from
    [check_static_attribute] and reports the tag as empty, and in which
    [add_attribute] only warns, which is why the collector silences warnings
    around it. *)
Record port := Build {
  data : option (list image);
  static : gmap string value;
  nonstatic : gmap string (list value);
  flushed : nat;
  history : list (string * string);
  closed : bool
}.

Definition empty : port :=
  {| data := None; static := ∅; nonstatic := ∅; flushed := 0;
     history := []; closed := false |}.

(** The frames held by the port. *)
Definition frames (p : port) : list image := default [] (data p).

(** The values recorded so far for the non-static attribute [name]. *)
Definition series (p : port) (name : string) : list value :=
  default [] (nonstatic p !! name).

(** [port.append(stack, data_dim=3)] *)
Definition append (stack : list image) (p : port) : port :=
  {| data := Some (frames p ++ stack); static := static p;
     nonstatic := nonstatic p; flushed := flushed p;
     history := history p; closed := closed p |}.

(** [port.del_all_data()] *)
Definition del_all_data (p : port) : port :=
  {| data := None; static := static p;
     nonstatic := nonstatic p; flushed := flushed p;
     history := history p; closed := closed p |}.

(** [port.del_all_attributes()] *)
Definition del_all_attributes (p : port) : port :=
  {| data := data p; static := ∅;
     nonstatic := ∅; flushed := flushed p;
     history := history p; closed := closed p |}.

(** [port.check_static_attribute(name, v)]: 1 when the attribute is not
    recorded, 0 when it is recorded with an equal value, -1 when it is
    recorded with another value; [KeyError] when the port holds no data. *)
Definition check_static_attribute (name : string) (v : value) (p : port)
  : exn + Z :=
  match data p with
  | None => inl (KeyError name)
  | Some _ =>
      match static p !! name with
      | None => inr 1%Z
      | Some old => if Py.eqb old v then inr 0%Z else inr (-1)%Z
      end
  end.

(** [port.add_attribute(name, v, static=True)]: the boolean tells whether the
    port warned that it holds no data to attach the attribute to. *)
Definition add_attribute (name : string) (v : value) (p : port)
  : port * bool :=
  match data p with
  | None => (p, true)
  | Some _ =>
      ({| data := data p; static := <[name := v]> (static p);
          nonstatic := nonstatic p; flushed := flushed p;
          history := history p; closed := closed p |}, false)
  end.

(** [port.append_attribute_data(name, v)] *)
Definition append_attribute_data (name : string) (v : value) (p : port)
  : port :=
  {| data := data p; static := static p;
     nonstatic := <[name := series p name ++ [v]]> (nonstatic p);
     flushed := flushed p; history := history p; closed := closed p |}.

(** [port.flush()] *)
Definition flush (p : port) : port :=
  {| data := data p; static := static p;
     nonstatic := nonstatic p; flushed := S (flushed p);
     history := history p; closed := closed p |}.

(** [port.add_history(module, text)]: the entry is attached to the data of
    the port as an attribute is, so a port that holds no data stores nothing
    and warns, like [add_attribute]; the boolean tells that it warned. *)
Definition add_history (module text : string) (p : port) : port * bool :=
  match data p with
  | None => (p, true)
  | Some _ =>
      ({| data := data p; static := static p;
          nonstatic := nonstatic p; flushed := flushed p;
          history := history p ++ [(module, text)]; closed := closed p |},
       false)
  end.

(** [port.close_port()] *)
Definition close_port (p : port) : port :=
  {| data := data p; static := static p;
     nonstatic := nonstatic p; flushed := flushed p;
     history := history p; closed := true |}.

End Port.

(** ** Module state and the monad of its methods *)

(** Calls to [warnings.warn], in the order they are made. *)
Inductive warning :=
| NodposMissing (scheme : value)
| ChoppingDisabled
| CyclesSkipped (n : Z)
| FramesAveraged
| ChopUnknown (iteration : nat)
| ChopUnequal
| StaticChanged (fitskey fits_file tag : string)
| StaticNotFound (item fitskey : string)
| NodNotAB
| CannotStore (name : string).

#[global] Instance warning_eq_dec : EqDecision warning.
Proof. solve_decision. Defined.

(** What the module writes on standard output. *)
Inductive message :=
| Running
| EmptyTag (tag : string) (position : string)
| Finished.

Inductive port_id := P1 | P2 | P3 | P4.

#[global] Instance port_id_eq_dec : EqDecision port_id.
Proof. solve_decision. Defined.

(** The part of the world that the module changes: its four output ports,
    its frame counter, and what it leaves behind for the operator (warnings,
    standard output), together with the files it opened and the header dumps
    it stored. Once [_initialize] has passed the four tags are pairwise
    different, so the four ports are four different entries of the database
    and are kept as four fields. *)
Record state := State {
  m_image_out_port_1 : Port.port;
  m_image_out_port_2 : Port.port;
  m_image_out_port_3 : Port.port;
  m_image_out_port_4 : Port.port;
  m_count : nat;
  warned : list warning;
  stdout : list message;
  opened : list string;
  header_ports : list (string * list string)
}.

Definition get_port (k : port_id) (st : state) : Port.port :=
  match k with
  | P1 => m_image_out_port_1 st
  | P2 => m_image_out_port_2 st
  | P3 => m_image_out_port_3 st
  | P4 => m_image_out_port_4 st
  end.

Definition set_port (k : port_id) (p : Port.port) (st : state) : state :=
  match k with
  | P1 => State p (m_image_out_port_2 st) (m_image_out_port_3 st)
            (m_image_out_port_4 st) (m_count st) (warned st) (stdout st)
            (opened st) (header_ports st)
  | P2 => State (m_image_out_port_1 st) p (m_image_out_port_3 st)
            (m_image_out_port_4 st) (m_count st) (warned st) (stdout st)
            (opened st) (header_ports st)
  | P3 => State (m_image_out_port_1 st) (m_image_out_port_2 st) p
            (m_image_out_port_4 st) (m_count st) (warned st) (stdout st)
            (opened st) (header_ports st)
  | P4 => State (m_image_out_port_1 st) (m_image_out_port_2 st)
            (m_image_out_port_3 st) p (m_count st) (warned st) (stdout st)
            (opened st) (header_ports st)
  end.

Definition set_count (n : nat) (st : state) : state :=
  State (m_image_out_port_1 st) (m_image_out_port_2 st)
    (m_image_out_port_3 st) (m_image_out_port_4 st) n (warned st)
    (stdout st) (opened st) (header_ports st).

Definition add_warning (w : warning) (st : state) : state :=
  State (m_image_out_port_1 st) (m_image_out_port_2 st)
    (m_image_out_port_3 st) (m_image_out_port_4 st) (m_count st)
    (warned st ++ [w]) (stdout st) (opened st) (header_ports st).

Definition add_message (msg : message) (st : state) : state :=
  State (m_image_out_port_1 st) (m_image_out_port_2 st)
    (m_image_out_port_3 st) (m_image_out_port_4 st) (m_count st)
    (warned st) (stdout st ++ [msg]) (opened st) (header_ports st).

Definition add_opened (path : string) (st : state) : state :=
  State (m_image_out_port_1 st) (m_image_out_port_2 st)
    (m_image_out_port_3 st) (m_image_out_port_4 st) (m_count st)
    (warned st) (stdout st) (opened st ++ [path]) (header_ports st).

Definition add_header_port (tag : string) (lines : list string) (st : state)
  : state :=
  State (m_image_out_port_1 st) (m_image_out_port_2 st)
    (m_image_out_port_3 st) (m_image_out_port_4 st) (m_count st)
    (warned st) (stdout st) (opened st) (header_ports st ++ [(tag, lines)]).

(** The state before anything ran: four ports of a fresh database. *)
Definition fresh : state :=
  State Port.empty Port.empty Port.empty Port.empty 0 [] [] [] [].

Inductive result (A : Type) :=
| Ok (a : A)
| Raise (e : exn).

Arguments Ok {A} a.
Arguments Raise {A} e.

Definition M (A : Type) : Type := state -> result A * state.

Definition ret {A} (a : A) : M A := fun st => (Ok a, st).

Definition raise {A} (e : exn) : M A := fun st => (Raise e, st).

Definition bind {A B} (m : M A) (k : A -> M B) : M B :=
  fun st =>
    match m st with
    | (Ok a, st') => k a st'
    | (Raise e, st') => (Raise e, st')
    end.

Definition modify (f : state -> state) : M unit := fun st => (Ok tt, f st).

Definition gets {A} (f : state -> A) : M A := fun st => (Ok (f st), st).

Definition lift {A} (r : exn + A) : M A :=
  match r with
  | inl e => raise e
  | inr a => ret a
  end.

Notation "'let*' x ':=' m 'in' k" := (bind m (fun x => k))
  (at level 10, x name, m at level 100, k at level 200, only parsing).
Notation "'let*' ' p ':=' m 'in' k" := (bind m (fun p => k))
  (at level 10, p strict pattern, m at level 100, k at level 200,
   only parsing).
Notation "m1 ';;;' m2" := (bind m1 (fun _ => m2))
  (at level 100, m2 at level 200, right associativity, only parsing).

(** [warnings.warn(w)] *)
Definition warn (w : warning) : M unit := modify (add_warning w).

(** [sys.stdout.write(msg)] *)
Definition write (msg : message) : M unit := modify (add_message msg).

(** A method of one port, applied to the port held in field [k]. *)
Definition on_port (k : port_id) (f : Port.port -> Port.port) : M unit :=
  modify (fun st => set_port k (f (get_port k st)) st).

(** [h[k]], raising [KeyError] when the keyword is absent. *)
Definition getitem (k : string) (h : header) : M value :=
  match Fits.lookup k h with
  | Some v => ret v
  | None => raise (KeyError k)
  end.

(** [for x in l: body(x)] *)
Fixpoint for_each {A} (l : list A) (body : A -> M unit) : M unit :=
  match l with
  | [] => ret tt
  | x :: l' => body x ;;; for_each l' body
  end.

(** ** The reading module *)

Module Near.

(** One entry of the attribute table returned by [get_attributes()]:
    [value["config"]] and [value["attribute"]]. *)
Record attribute := Attribute {
  config : string;
  kind : string
}.

(** The fields of [self] that the methods read. The attribute table, the
    configuration port ([get_attribute] for the FITS keyword of an attribute,
    [pixscale] for PIXSCALE) and [output_tag] come from the framework:
    [output_tag] stands for [self.output.tag], which the changed-attribute
    warning formats; this class defines no [output], so the field is [None]
    unless the base class provides one. *)
Record self := Self {
  tag_1 : string;
  tag_2 : string;
  tag_3 : string;
  tag_4 : string;
  m_im_dir : string;
  m_scheme : value;
  m_check : value;
  m_overwrite : value;
  m_attributes : list (string * attribute);
  get_attribute : string -> string;
  pixscale : value;
  output_tag : option string
}.

(** [__init__]: the static attributes are those read from the header. *)
Definition m_static (m : self) : list string :=
  map fst
    (List.filter
       (fun e => String.eqb (config (snd e)) "header"
                 && String.eqb (kind (snd e)) "static")
       (m_attributes m)).

Definition m_non_static (m : self) : list string :=
  map fst
    (List.filter (fun e => String.eqb (kind (snd e)) "non-static")
       (m_attributes m)).

(** [self.m_attributes[item]] *)
Fixpoint attribute_of (item : string) (table : list (string * attribute))
  : option attribute :=
  match table with
  | [] => None
  | (k, a) :: table' =>
      if String.eqb item k then Some a else attribute_of item table'
  end.

Definition tag_of (m : self) (k : port_id) : string :=
  match k with
  | P1 => tag_1 m
  | P2 => tag_2 m
  | P3 => tag_3 m
  | P4 => tag_4 m
  end.

(** *** _initialize *)

(** The loop over the four tags with the set [seen]. *)
Fixpoint check_tags (tags : list string) (seen : gset string) : M unit :=
  match tags with
  | [] => ret tt
  | i :: tags' =>
      if bool_decide (i ∈ seen)
      then raise (ValueError "Output ports should have different tags")
      else check_tags tags' ({[ i ]} ∪ seen)
  end.

(** [port.del_all_data(); port.del_all_attributes()]; the guard
    [port is not None] before them always holds, [add_output_port] returned
    the port. *)
Definition clear_port (k : port_id) : M unit :=
  on_port k Port.del_all_data ;;;
  on_port k Port.del_all_attributes.

(** The method reads [m_overwrite] in the type check and nowhere else. *)
Definition _initialize (m : self) : M unit :=
  check_tags [tag_1 m; tag_2 m; tag_3 m; tag_4 m] ∅ ;;;
  (if negb (Py.eqb (m_scheme m) (VStr "ABBA"))
      && negb (Py.eqb (m_scheme m) (VStr "ABAB"))
   then raise (ValueError "Scheme keyword should be set to 'ABBA' or 'ABAB'")
   else ret tt) ;;;
  (if negb (Py.is_bool (m_check m))
   then raise (ValueError "Check port should be set to 'True' or 'False'")
   else ret tt) ;;;
  (if negb (Py.is_bool (m_overwrite m))
   then raise (ValueError "Overwrite port should be set to 'True' or 'False'")
   else ret tt) ;;;
  clear_port P1 ;;;
  clear_port P2 ;;;
  clear_port P3 ;;;
  clear_port P4.

(** *** _static_attributes *)

(** The local variables of the method that outlive one round of its loop:
    [status] is unbound until a check returned, and [a], [b], [c], [d] tell
    that the empty-tag message for port 1, 2, 3, 4 was written. *)
Record locals := Locals {
  status : option Z;
  a : nat;
  b : nat;
  c : nat;
  d : nat
}.

Definition reported (k : port_id) (l : locals) : nat :=
  match k with
  | P1 => a l
  | P2 => b l
  | P3 => c l
  | P4 => d l
  end.

Definition set_reported (k : port_id) (l : locals) : locals :=
  match k with
  | P1 => Locals (status l) 1 (b l) (c l) (d l)
  | P2 => Locals (status l) (a l) 1 (c l) (d l)
  | P3 => Locals (status l) (a l) (b l) 1 (d l)
  | P4 => Locals (status l) (a l) (b l) (c l) 1
  end.

Definition set_status (s : Z) (l : locals) : locals :=
  Locals (Some s) (a l) (b l) (c l) (d l).

(** The nodding position named in the empty-tag message of a port. *)
Definition position_of (k : port_id) : string :=
  match k with
  | P1 | P2 => "A"
  | P3 | P4 => "B"
  end.

(** One of the four [try: status = port.check_static_attribute(...)]
    blocks with its [except KeyError] handler. *)
Definition try_check (m : self) (k : port_id) (item : string) (v : value)
    (iteration end_ : nat) (l : locals) : M locals :=
  let* p := gets (get_port k) in
  match Port.check_static_attribute item v p with
  | inr s => ret (set_status s l)
  | inl (KeyError _) =>
      if (iteration =? end_)%nat && (reported k l =? 0)%nat
      then write (EmptyTag (tag_of m k) (position_of k)) ;;;
           ret (set_reported k l)
      else ret l
  | inl e => raise e
  end.

(** [port.add_attribute(item, v, static=True)] under
    [warnings.simplefilter("ignore")]. *)
Definition add_attribute_quiet (k : port_id) (item : string) (v : value)
  : M unit :=
  on_port k (fun p => fst (Port.add_attribute item v p)).

(** The body of the loop for one [item]. *)
Definition static_item (m : self) (fits_file : string) (header : Fits.header)
    (iteration end_ : nat) (item : string) (l : locals) : M locals :=
  if Py.truthy (m_check m) then
    let fitskey := get_attribute m item in
    if negb (String.eqb fitskey "None") then
      match Fits.lookup fitskey header with
      | Some v =>
          let* l := try_check m P1 item v iteration end_ l in
          let* l := try_check m P2 item v iteration end_ l in
          let* l := try_check m P3 item v iteration end_ l in
          let* l := try_check m P4 item v iteration end_ l in
          match status l with
          | None => raise (UnboundLocalError "status")
          | Some s =>
              (if (s =? 1)%Z
               then add_attribute_quiet P1 item v ;;;
                    add_attribute_quiet P2 item v ;;;
                    add_attribute_quiet P3 item v ;;;
                    add_attribute_quiet P4 item v
               else ret tt) ;;;
              (if (s =? -1)%Z
               then match output_tag m with
                    | Some tag => warn (StaticChanged fitskey fits_file tag)
                    | None => raise (AttributeError "output")
                    end
               else ret tt) ;;;
              ret l
          end
      | None => warn (StaticNotFound item fitskey) ;;; ret l
      end
    else ret l
  else ret l.

Fixpoint static_loop (m : self) (fits_file : string) (header : Fits.header)
    (iteration end_ : nat) (items : list string) (l : locals) : M unit :=
  match items with
  | [] => ret tt
  | item :: items' =>
      let* l := static_item m fits_file header iteration end_ item l in
      static_loop m fits_file header iteration end_ items' l
  end.

Definition _static_attributes (m : self) (fits_file : string)
    (header : Fits.header) (iteration end_ : nat) : M unit :=
  static_loop m fits_file header iteration end_ (m_static m)
    (Locals None 0 0 0 0).

(** *** _non_static_attributes *)

Definition append_all (item : string) (v : value) : M unit :=
  on_port P1 (Port.append_attribute_data item v) ;;;
  on_port P2 (Port.append_attribute_data item v) ;;;
  on_port P3 (Port.append_attribute_data item v) ;;;
  on_port P4 (Port.append_attribute_data item v).

Definition non_static_item (m : self) (header : Fits.header) (item : string)
  : M unit :=
  if Py.truthy (m_check m) then
    match Fits.lookup item header with
    | Some v => append_all item v
    | None =>
        match attribute_of item (m_attributes m) with
        | None => raise (KeyError item)
        | Some entry =>
            if String.eqb (config entry) "header" then
              let fitskey := get_attribute m item in
              if negb (String.eqb fitskey "None") then
                match Fits.lookup fitskey header with
                | Some v => append_all item v
                | None => ret tt
                end
              else ret tt
            else ret tt
        end
    end
  else ret tt.

Definition _non_static_attributes (m : self) (header : Fits.header)
  : M unit :=
  for_each (m_non_static m) (non_static_item m header).

(** *** _extra_attributes *)

(** [nimages] as the method takes it from [shape]; the name stays unbound
    for a shape of any other length. *)
Definition nimages_of (shape : list nat) : option nat :=
  if (length shape =? 2)%nat then Some 1
  else if (length shape =? 3)%nat then head shape
  else None.

Definition index_item (nod : value) (item : nat) : M unit :=
  if Py.eqb nod (VStr "A") then
    on_port P1 (Port.append_attribute_data "INDEX" (VInt (Z.of_nat item))) ;;;
    on_port P2 (Port.append_attribute_data "INDEX" (VInt (Z.of_nat item)))
  else if Py.eqb nod (VStr "B") then
    on_port P3 (Port.append_attribute_data "INDEX" (VInt (Z.of_nat item))) ;;;
    on_port P4 (Port.append_attribute_data "INDEX" (VInt (Z.of_nat item)))
  else ret tt.

(** [port.add_attribute(name, v, static=True)] with its warning shown. *)
Definition add_attribute (k : port_id) (name : string) (v : value)
  : M unit :=
  let* p := gets (get_port k) in
  modify (set_port k (fst (Port.add_attribute name v p))) ;;;
  if snd (Port.add_attribute name v p) then warn (CannotStore name)
  else ret tt.

Definition _extra_attributes (m : self) (fits_file location : string)
    (shape : list nat) (nod : value) : M unit :=
  let pixscale := pixscale m in
  match nimages_of shape with
  | None => raise (UnboundLocalError "nimages")
  | Some nimages =>
      let* count := gets m_count in
      let index := seq count nimages in
      for_each index (index_item nod) ;;;
      (if Py.eqb nod (VStr "A") then
         on_port P1
           (Port.append_attribute_data "FILES"
              (VStr (String.append location fits_file))) ;;;
         on_port P2
           (Port.append_attribute_data "FILES"
              (VStr (String.append location fits_file))) ;;;
         add_attribute P1 "PIXSCALE" pixscale ;;;
         add_attribute P2 "PIXSCALE" pixscale
       else if Py.eqb nod (VStr "B") then
         on_port P3
           (Port.append_attribute_data "FILES"
              (VStr (String.append location fits_file))) ;;;
         on_port P4
           (Port.append_attribute_data "FILES"
              (VStr (String.append location fits_file))) ;;;
         add_attribute P3 "PIXSCALE" pixscale ;;;
         add_attribute P4 "PIXSCALE" pixscale
       else warn NodNotAB) ;;;
      let* count := gets m_count in
      modify (set_count (count + nimages))
  end.

(** *** check_header *)

Definition check_header (head : Fits.header) : M unit :=
  let* v := getitem "ESO DET CHOP ST" head in
  let chop_enabled := Py.str v in
  (if String.eqb chop_enabled "F" then warn ChoppingDisabled else ret tt) ;;;
  let* v := getitem "ESO DET CHOP CYCSKIP" head in
  let* skipped := lift (Py.int v) in
  (if negb (skipped =? 0)%Z then warn (CyclesSkipped skipped) else ret tt) ;;;
  let* v := getitem "ESO DET CHOP CYCSUM" head in
  let half_cycle := Py.str v in
  if String.eqb half_cycle "T" then warn FramesAveraged else ret tt.

(** *** open_fit *)

(** [hdulist[i]] *)
Definition hdu_at (hdul : hdulist) (i : nat) : M hdu :=
  match hdul !! i with
  | Some h => ret h
  | None => raise IndexError
  end.

(** [hdulist[i].data.byteswap().newbyteorder()]: the same pixel values in
    native byte order. *)
Definition data_of (h : hdu) : M image :=
  match hdu_data h with
  | Some d => ret d
  | None => raise (AttributeError "byteswap")
  end.

(** The nod position when the keyword is missing: the two [if]s of each
    scheme, one after the other; [None] is the unbound name. *)
Definition infer_nod (scheme : value) (number : nat) : option value :=
  if Py.eqb scheme (VStr "ABBA") then
    let nod :=
      if (number mod 4 =? 0)%nat || (number mod 4 =? 3)%nat
      then Some (VStr "A") else None in
    if (number mod 4 =? 1)%nat || (number mod 4 =? 2)%nat
    then Some (VStr "B") else nod
  else if Py.eqb scheme (VStr "ABAB") then
    let nod := if (number mod 2 =? 0)%nat then Some (VStr "A") else None in
    if (number mod 2 =? 1)%nat then Some (VStr "B") else nod
  else None.

Definition nod_of (m : self) (header : Fits.header) (number : nat)
  : M (option value) :=
  match Fits.lookup "ESO SEQ NODPOS" header with
  | Some nod => ret (Some nod)
  | None =>
      (if (number =? 0)%nat then warn (NodposMissing (m_scheme m))
       else ret tt) ;;;
      ret (infer_nod (m_scheme m) number)
  end.

(** The loop [images[i - 1, :, :] = hdulist[i].data...] for
    [i = first, first + 1, ...], [count] rounds. [images] is an array of
    64-bit floats with slots of shape [slot]: the assignment stretches the
    plane to the slot where numpy's rule allows it, raises [ValueError]
    where it does not, and stores the pixel values as 64-bit floats. *)
Fixpoint read_images (hdul : hdulist) (slot : nat * nat) (first count : nat)
  : M (list image) :=
  match count with
  | O => ret []
  | S count' =>
      let* h := hdu_at hdul first in
      let* d := data_of h in
      match Fits.broadcast slot d with
      | Some wide =>
          let* rest := read_images hdul slot (S first) count' in
          ret (Fits.cast Fits.float64 wide :: rest)
      | None => raise (ValueError "could not broadcast input array")
      end
  end.

(** The state of the classification loop. *)
Record buffers := Buffers {
  chopa : list image;
  chopb : list image;
  count_im_1 : nat;
  count_im_2 : nat
}.

(** One round of the classification loop, for frame [i]. The two chop
    buffers are arrays of 32-bit floats: a plane copied into one of them is
    stored as such. *)
Definition classify_frame (hdul : hdulist) (images : list image) (i : nat)
    (bufs : buffers) : M buffers :=
  let* h := hdu_at hdul (i + 1) in
  let* cycle := getitem "HIERARCH ESO DET FRAM TYPE" (hdu_header h) in
  let* plane :=
    match images !! i with
    | Some d => ret (Fits.cast Fits.float32 d)
    | None => raise IndexError
    end in
  if Py.eqb cycle (VStr "HCYCLE1") then
    ret (Buffers (<[count_im_1 bufs := plane]> (chopa bufs)) (chopb bufs)
           (count_im_1 bufs + 1) (count_im_2 bufs))
  else if Py.eqb cycle (VStr "HCYCLE2") then
    ret (Buffers (chopa bufs) (<[count_im_2 bufs := plane]> (chopb bufs))
           (count_im_1 bufs) (count_im_2 bufs + 1))
  else
    warn (ChopUnknown i) ;;; ret bufs.

(** [for i in range(first, first + count)] *)
Fixpoint classify (hdul : hdulist) (images : list image) (first count : nat)
    (bufs : buffers) : M buffers :=
  match count with
  | O => ret bufs
  | S count' =>
      let* bufs := classify_frame hdul images first bufs in
      classify hdul images (S first) count' bufs
  end.

(** [buf[buf[:, 0, 0] != 0, :, :]] for planes of shape [slot]. *)
Definition trim (slot : nat * nat) (buf : list image) : M (list image) :=
  if (fst slot =? 0)%nat || (snd slot =? 0)%nat then raise IndexError
  else ret (List.filter
              (fun d => negb (bool_decide (Fits.corner d = Some 0%Z))) buf).

(** The lines of the header dump: a line per card, with the value found
    under the card's keyword. *)
Definition dump (header : Fits.header) : list string :=
  map (fun card =>
         String.append (fst card)
           (String.append " = "
              (Py.str (default VNone (Fits.lookup (fst card) header)))))
    header.

Definition open_fit (m : self) (location image_file : string)
    (hdul : hdulist) (number : nat)
  : M (list image * list image * value * Fits.header * list nat) :=
  modify (add_opened (String.append location image_file)) ;;;
  let* hdu1 := hdu_at hdul 1 in
  let* image := data_of hdu1 in
  let nimages := length hdul - 2 in
  let* hdu0 := hdu_at hdul 0 in
  let head := hdu_header hdu0 in
  let head_small := hdu_header hdu1 in
  let header := Fits.update head head_small in
  let header := Fits.insert 3 "NAXIS" (VInt 3) header in
  let* v := getitem "NAXIS1" head_small in
  let* naxis1 := lift (Py.int v) in
  let header := Fits.insert 4 "NAXIS1" (VInt naxis1) header in
  let* v := getitem "NAXIS2" head_small in
  let* naxis2 := lift (Py.int v) in
  let header := Fits.insert 4 "NAXIS2" (VInt naxis2) header in
  let header := Fits.insert 5 "NAXIS3" (VInt (Z.of_nat nimages)) header in
  let* nod := nod_of m header number in
  check_header header ;;;
  let slot := Fits.shape image in
  let zero := Fits.zeros (fst slot) (snd slot) in
  let* images := read_images hdul slot 1 nimages in
  let* bufs :=
    classify hdul images 0 nimages
      (Buffers (replicate nimages zero) (replicate nimages zero) 0 0) in
  let* chopa := trim slot (chopa bufs) in
  let* chopb := trim slot (chopb bufs) in
  (if negb (length chopa =? length chopb)%nat then warn ChopUnequal
   else ret tt) ;;;
  modify (add_header_port (String.append "fits_header/" image_file)
            (dump header)) ;;;
  match nod with
  | None => raise (UnboundLocalError "nod")
  | Some nod => ret (chopa, chopb, nod, header, [nimages; fst slot; snd slot])
  end.

(** *** run *)

(** [os.path.join(directory, '')] *)
Definition join_empty (directory : string) : string :=
  if String.eqb directory "" then ""
  else if Py.endswith directory "/" then directory
  else String.append directory "/".

(** A directory: the names it lists in the order of [os.listdir], each with
    the HDU list that [fits.open] reads from it. *)
Definition directory := list (string * hdulist).

Fixpoint content (name : string) (dir : directory) : hdulist :=
  match dir with
  | [] => []
  | (n, hdul) :: dir' => if String.eqb name n then hdul else content name dir'
  end.

(** Everything the loop of [run] does after [open_fit] returned. *)
Definition collect (m : self) (location : string) (end_ i : nat)
    (im : string)
    (opened : list image * list image * value * Fits.header * list nat)
  : M unit :=
  let '(chopa, chopb, nod, header, shape) := opened in
  (if Py.eqb nod (VStr "A") then
     on_port P1 (Port.append chopa) ;;;
     on_port P2 (Port.append chopb)
   else ret tt) ;;;
  (if Py.eqb nod (VStr "B") then
     on_port P3 (Port.append chopa) ;;;
     on_port P4 (Port.append chopb)
   else ret tt) ;;;
  _static_attributes m im header i end_ ;;;
  _non_static_attributes m header ;;;
  _extra_attributes m im location shape nod ;;;
  (if Py.eqb nod (VStr "A") then
     on_port P1 Port.flush ;;;
     on_port P2 Port.flush
   else ret tt) ;;;
  (if Py.eqb nod (VStr "B") then
     on_port P3 Port.flush ;;;
     on_port P4 Port.flush
   else ret tt).

(** One round of the loop of [run], for file [im] at position [i]. *)
Definition process_file (m : self) (dir : directory) (location : string)
    (end_ i : nat) (im : string) : M unit :=
  let* opened := open_fit m location im (content im dir) i in
  collect m location end_ i im opened.

(** [for i, im in enumerate(files)], from position [i] on. *)
Fixpoint process_files (m : self) (dir : directory) (location : string)
    (end_ i : nat) (files : list string) : M unit :=
  match files with
  | [] => ret tt
  | im :: files' =>
      process_file m dir location end_ i im ;;;
      process_files m dir location end_ (S i) files'
  end.

(** The sorted list of the names that end in [.fits]. *)
Definition fits_files (dir : directory) : list string :=
  Py.sort (List.filter (fun name => Py.endswith name ".fits") (map fst dir)).

(** [port.add_history(module, text)] with its warning shown. *)
Definition add_history (k : port_id) (module text : string) : M unit :=
  let* p := gets (get_port k) in
  modify (set_port k (fst (Port.add_history module text p))) ;;;
  if snd (Port.add_history module text p)
  then warn (CannotStore (String.append "History: " module))
  else ret tt.

(** [run], on the directory as it is listed once [uncompress] returned:
    [uncompress] only rewrites the [.fits.Z] entries through external
    commands, and the progress bar is not recorded. *)
Definition run (m : self) (dir : directory) : M unit :=
  _initialize m ;;;
  write Running ;;;
  let location := join_empty (m_im_dir m) in
  let files := fits_files dir in
  (match files with
   | [] => raise (AssertionError "No FITS files found")
   | _ => ret tt
   end) ;;;
  process_files m dir location (length files - 1) 0 files ;;;
  write Finished ;;;
  add_history P1 "NearInitializationModule" "Nod A, Chop A" ;;;
  add_history P2 "NearInitializationModule" "Nod A, Chop B" ;;;
  add_history P3 "NearInitializationModule" "Nod B, Chop A" ;;;
  add_history P4 "NearInitializationModule" "Nod B, Chop B" ;;;
  on_port P1 Port.close_port ;;;
  on_port P2 Port.close_port ;;;
  on_port P3 Port.close_port ;;;
  on_port P4 Port.close_port.

End Near.

Import Near.

(** ** Vocabulary of the statements *)

(** [m] moves every state to a state related to it by [R], whether it
    returns or raises. *)
Definition steps (R : state -> state -> Prop) {A} (m : M A) : Prop :=
  forall st, R st (snd (m st)).

(** [m] leaves the observation [f] of the state as it was. *)
Definition keeps {X A} (f : state -> X) (m : M A) : Prop :=
  steps (fun st st' => f st' = f st) m.

(** The number of frame sections of a file: [len(hdulist) - 2]. *)
Definition frame_count (hdul : hdulist) : nat := length hdul - 2.

(** The frame sections of a file, without the primary section and the
    trailing average. *)
Definition frame_sections (hdul : hdulist) : list hdu :=
  take (frame_count hdul) (drop 1 hdul).

Definition has_cycle (cycle : string) (h : hdu) : bool :=
  match Fits.lookup "HIERARCH ESO DET FRAM TYPE" (hdu_header h) with
  | Some v => Py.eqb v (VStr cycle)
  | None => false
  end.

(** The frames of a file that carry one of the two chop tags. *)
Definition classified (hdul : hdulist) : nat :=
  length (List.filter (fun h => has_cycle "HCYCLE1" h || has_cycle "HCYCLE2" h)
            (frame_sections hdul)).

(** A plane that the trimming keeps: its first pixel is not zero. *)
Definition lit (d : image) : bool :=
  negb (bool_decide (Fits.corner d = Some 0%Z)).

(** Of the planes [planes] read from the sections [sections], those whose
    section carries the chop tag [cycle]. *)
Definition pick (cycle : string) (sections : list hdu) (planes : list image)
  : list image :=
  omap (fun hd : hdu * image =>
          if has_cycle cycle (fst hd) then Some (snd hd) else None)
    (zip sections planes).

(** The planes of the frame sections of a file that carry the chop tag
    [cycle], in the order of the file. *)
Definition tagged (cycle : string) (hdul : hdulist) : list image :=
  omap (fun h => if has_cycle cycle h then hdu_data h else None)
    (frame_sections hdul).

(** The shape of the slots that [open_fit] makes for a file: that of the
    plane of its first frame section. *)
Definition slot_of (hdul : hdulist) : nat * nat :=
  match hdul !! 1 ≫= hdu_data with
  | Some d => Fits.shape d
  | None => (0, 0)
  end.

(** The plane of the section [h] as the array [images] holds it in a slot of
    shape [slot]. *)
Definition read (slot : nat * nat) (h : hdu) : option image :=
  d ← hdu_data h; Fits.cast Fits.float64 <$> Fits.broadcast slot d.

(** The plane of the section [h] as a chop buffer holds it. *)
Definition held (slot : nat * nat) (h : hdu) : option image :=
  Fits.cast Fits.float32 <$> read slot h.

(** The planes of the frame sections of a file that carry the chop tag
    [cycle] as a chop buffer holds them, in the order of the file. *)
Definition stored (cycle : string) (hdul : hdulist) : list image :=
  omap (fun h => if has_cycle cycle h then held (slot_of hdul) h else None)
    (frame_sections hdul).

Definition total_frames (dir : directory) (files : list string) : nat :=
  sum_list (map (fun im => frame_count (content im dir)) files).

Definition total_classified (dir : directory) (files : list string) : nat :=
  sum_list (map (fun im => classified (content im dir)) files).

(** The frames held by the four ports together. *)
Definition stored_frames (st : state) : nat :=
  length (Port.frames (m_image_out_port_1 st))
  + length (Port.frames (m_image_out_port_2 st))
  + length (Port.frames (m_image_out_port_3 st))
  + length (Port.frames (m_image_out_port_4 st)).

(** The warnings made so far that satisfy [P], in the order they were
    made. *)
Definition warned_of (P : warning -> bool) (st : state) : list warning :=
  List.filter P (warned st).

(** The warnings that [open_fit] makes while it reads the frames. *)
Definition reading_warning (w : warning) : bool :=
  match w with
  | ChoppingDisabled | CyclesSkipped _ | FramesAveraged
  | ChopUnknown _ | ChopUnequal => true
  | _ => false
  end.

(** The warnings of the static collector. *)
Definition static_warning (w : warning) : bool :=
  match w with
  | StaticChanged _ _ _ | StaticNotFound _ _ => true
  | _ => false
  end.

Definition is_nodpos_missing (w : warning) : bool :=
  match w with NodposMissing _ => true | _ => false end.

Definition is_static_not_found (w : warning) : bool :=
  match w with StaticNotFound _ _ => true | _ => false end.

(** The value that the non-static collector takes from [header] for [item],
    if any. *)
Definition non_static_value (m : self) (header : Fits.header) (item : string)
  : option value :=
  if Py.truthy (m_check m) then
    match Fits.lookup item header with
    | Some v => Some v
    | None =>
        match attribute_of item (m_attributes m) with
        | Some entry =>
            if String.eqb (config entry) "header"
               && negb (String.eqb (get_attribute m item) "None")
            then Fits.lookup (get_attribute m item) header
            else None
        | None => None
        end
    end
  else None.

(** The values that one call of the non-static collector adds to the series
    [name] of a port. *)
Definition appended (m : self) (header : Fits.header) (name : string)
  : list value :=
  flat_map
    (fun item =>
       if String.eqb item name
       then option_list (non_static_value m header item) else [])
    (m_non_static m).

(** The warnings for the static attributes whose keyword is configured and
    absent from [header], as the static collector makes them when the check
    flag is set. *)
Definition not_found (m : self) (header : Fits.header) : list warning :=
  flat_map
    (fun item =>
       if Py.truthy (m_check m)
          && negb (String.eqb (get_attribute m item) "None")
          && negb (Fits.mem (get_attribute m item) header)
       then [StaticNotFound item (get_attribute m item)] else [])
    (m_static m).

(** A static attribute that the collector checks against the ports: the
    check flag is set and the configured keyword is in [header]. *)
Definition present (m : self) (header : Fits.header) (item : string) : bool :=
  Py.truthy (m_check m)
  && negb (String.eqb (get_attribute m item) "None")
  && Fits.mem (get_attribute m item) header.

(** The empty-tag message that port [k] is due under the locals [l]: the
    port holds no data and was not reported yet. *)
Definition due (m : self) (st : state) (l : locals) (k : port_id)
  : list message :=
  match Port.data (get_port k st) with
  | None =>
      if (reported k l =? 0)%nat
      then [EmptyTag (tag_of m k) (position_of k)] else []
  | Some _ => []
  end.

(** The empty-tag messages of the ports that hold no data, in the order of
    the ports. *)
Definition empty_tags (m : self) (st : state) : list message :=
  flat_map (due m st (Locals None 0 0 0 0)) [P1; P2; P3; P4].

Definition is_static_changed (w : warning) : bool :=
  match w with StaticChanged _ _ _ => true | _ => false end.

Definition is_nod_not_ab (w : warning) : bool :=
  match w with NodNotAB => true | _ => false end.

(** A port as [_initialize] leaves it. *)
Definition cleared (p : Port.port) : Prop :=
  Port.data p = None /\ Port.static p = ∅ /\ Port.nonstatic p = ∅.

(** ** Sample data *)

Module Sample.

(** The general header of a file, with the three keywords that
    [check_header] reads. *)
Definition general : Fits.header :=
  [("SIMPLE", VBool true);
   ("ESO DET CHOP ST", VStr "T");
   ("ESO DET CHOP CYCSKIP", VInt 0);
   ("ESO DET CHOP CYCSUM", VStr "F")].

(** The header of a frame section of one row and two columns. *)
Definition small (cycle : string) : Fits.header :=
  [("NAXIS1", VInt 2);
   ("NAXIS2", VInt 1);
   ("HIERARCH ESO DET FRAM TYPE", VStr cycle)].

Definition frame (cycle : string) (x y : Z) : hdu :=
  HDU (small cycle) (Some [[x; y]]).

Definition primary (cards : Fits.header) : hdu := HDU (general ++ cards) None.

Definition average : hdu := HDU [] (Some [[0%Z; 0%Z]]).

Definition nodpos (nod : string) : Fits.header :=
  [("ESO SEQ NODPOS", VStr nod)].

Definition instrume (name : string) : Fits.header :=
  [("INSTRUME", VStr name)].

Definition table : list (string * attribute) :=
  [("INSTRUMENT", Attribute "header" "static");
   ("DITHER_X", Attribute "header" "non-static");
   ("INDEX", Attribute "None" "non-static");
   ("FILES", Attribute "None" "non-static")].

Definition keyword (item : string) : string :=
  if String.eqb item "INSTRUMENT" then "INSTRUME"
  else if String.eqb item "DITHER_X" then "ESO SEQ CUMOFFSETX"
  else "None".

Definition near (scheme check overwrite : value) (output : option string)
  : self :=
  Self "noda_chopa" "noda_chopb" "nodb_chopa" "nodb_chopb" "im_in"
    scheme check overwrite table keyword (VInt 45) output.

(** The module built with the default arguments of the constructor. *)
Definition default_near : self :=
  near (VStr "ABBA") (VBool true) (VBool true) None.

(** Two ports given the same tag. *)
Definition same_tags : self :=
  Self "chop" "chop" "nodb_chopa" "nodb_chopb" "im_in"
    (VStr "ABBA") (VBool true) (VBool true) table keyword (VInt 45) None.

(** A port left by an earlier run: one frame, one static attribute and one
    index. *)
Definition used_port : Port.port :=
  Port.Build (Some [[[1%Z; 2%Z]]]) {[ "INSTRUMENT" := VStr "NACO" ]}
    {[ "INDEX" := [VInt 0] ]} 1 [] false.

Definition used : state :=
  State used_port Port.empty Port.empty Port.empty 0 [] [] [] [].

(** The two nod-A ports hold a frame each, and no attribute yet. *)
Definition loaded_port : Port.port :=
  Port.Build (Some [[[1%Z; 2%Z]]]) ∅ ∅ 0 [] false.

Definition loaded : state :=
  State loaded_port loaded_port Port.empty Port.empty 0 [] [] [] [].

(** A composite header that carries the keyword of every configured
    attribute. *)
Definition full_header : Fits.header :=
  general ++ [("INSTRUME", VStr "VISIR"); ("ESO SEQ CUMOFFSETX", VInt 3);
              ("ESO SEQ NODPOS", VStr "A")].

(** A file: the primary section, the frame sections and the trailing
    average. *)
Definition burst (cards : Fits.header) (sections : list hdu) : hdulist :=
  primary cards :: sections ++ [average].

(** A file with one frame of each chop position and no nod keyword. *)
Definition plain : hdulist :=
  burst [] [frame "HCYCLE1" 1 2; frame "HCYCLE2" 3 4].

(** Four such files. *)
Definition four_files : directory :=
  [("a.fits", plain); ("b.fits", plain); ("c.fits", plain);
   ("d.fits", plain)].

(** One nod-A file whose second frame carries an unknown chop tag. *)
Definition odd_tag : directory :=
  [("a.fits", burst (nodpos "A") [frame "HCYCLE1" 1 2; frame "OTHER" 5 6])].

(** One nod-A file with two chop-A frames and one chop-B frame, whose header
    carries the keyword of the non-static attribute DITHER_X. *)
Definition dithered : directory :=
  [("a.fits",
    burst (("ESO SEQ CUMOFFSETX", VInt 3) :: nodpos "A")
      [frame "HCYCLE1" 1 2; frame "HCYCLE2" 3 4; frame "HCYCLE1" 5 6])].

(** A nod-A file followed by a file whose nod keyword holds 'C'; both name
    the same instrument. *)
Definition stray_nod : directory :=
  [("a.fits",
    burst (instrume "VISIR" ++ nodpos "A")
      [frame "HCYCLE1" 1 2; frame "HCYCLE2" 3 4]);
   ("b.fits",
    burst (instrume "VISIR" ++ nodpos "C")
      [frame "HCYCLE1" 5 6; frame "HCYCLE2" 7 8])].

(** The same, the second file naming another instrument. *)
Definition stray_nod_changed : directory :=
  [("a.fits",
    burst (instrume "VISIR" ++ nodpos "A")
      [frame "HCYCLE1" 1 2; frame "HCYCLE2" 3 4]);
   ("b.fits",
    burst (instrume "NACO" ++ nodpos "C")
      [frame "HCYCLE1" 5 6; frame "HCYCLE2" 7 8])].

(** Two nod-A files that name different instruments. *)
Definition changed : directory :=
  [("a.fits",
    burst (instrume "VISIR" ++ nodpos "A")
      [frame "HCYCLE1" 1 2; frame "HCYCLE2" 3 4]);
   ("b.fits",
    burst (instrume "NACO" ++ nodpos "A")
      [frame "HCYCLE1" 5 6; frame "HCYCLE2" 7 8])].

(** A nod-B file followed by a nod-A file of the same instrument. *)
Definition nod_b_first : directory :=
  [("a.fits",
    burst (instrume "VISIR" ++ nodpos "B")
      [frame "HCYCLE1" 1 2; frame "HCYCLE2" 3 4]);
   ("b.fits",
    burst (instrume "VISIR" ++ nodpos "A")
      [frame "HCYCLE1" 5 6; frame "HCYCLE2" 7 8])].

(** A nod-A file whose chop-A frame has the pixel values 0 and 7: its
    first pixel is zero, the frame is not. *)
Definition dark_corner : hdulist :=
  burst (nodpos "A") [frame "HCYCLE1" 0 7; frame "HCYCLE2" 3 4].

(** A module whose [self.output.tag] is defined. *)
Definition near_with_output : self :=
  near (VStr "ABBA") (VBool true) (VBool true) (Some "noda_chopa").

End Sample.

(** ** Decompression of the input files *)

Module Uncompress.

(** [os.path.join(location, f)] *)
Definition path_join (location f : string) : string :=
  if String.prefix "/" f then f
  else if String.eqb location "" then f
  else if Py.endswith location "/" then String.append location f
  else String.append location (String.append "/" f).

(** [l[start:stop]]: a negative bound counts from the end, and both bounds
    are brought into the list. *)
Definition slice {A} (l : list A) (start stop : Z) : list A :=
  let n := Z.of_nat (length l) in
  let clamp x := if (x <? 0)%Z then Z.max (x + n) 0 else Z.min x n in
  take (Z.to_nat (clamp stop - clamp start)) (drop (Z.to_nat (clamp start)) l).

(** [math.ceil(n / c)] for [c <> 0]. *)
Definition ceil_div (n c : Z) : Z := (- ((- n) / c))%Z.

(** [range(k)] *)
Definition range (k : Z) : list Z := map Z.of_nat (seq 0 (Z.to_nat k)).

(** What [uncompress] does, in order: the two lines written before the
    first batch, the progress bar shown for a batch, and a batch itself: a
    thread per file running [_uncompress_multi], all started and then all
    joined. *)
Inductive event :=
| Announce
| Progress (i total : Z)
| Batch (files : list string).

Inductive outcome :=
| Returned (events : list event)
| ZeroDivisionError (events : list event).

(** The compressed files of the listing, with the directory in front. *)
Definition files_compressed (location : string) (listing : list string)
  : list string :=
  map (path_join location)
    (List.filter (fun f => Py.endswith f ".fits.Z") listing).

(** [min(cpu * (i + 1), no_files + 1 - (cpu * i), no_files)] *)
Definition last_file (cpu no_files i : Z) : Z :=
  Z.min (cpu * (i + 1)) (Z.min (no_files + 1 - cpu * i) no_files).

(** [files_compressed[cpu * i:last_file]] *)
Definition chunk (cpu : Z) (files : list string) (i : Z) : list string :=
  slice files (cpu * i) (last_file cpu (Z.of_nat (length files)) i).

(** [uncompress], for the number of workers [cpu] that the configuration
    port holds and the names that [os.listdir] returns. *)
Definition uncompress (cpu : Z) (im_dir : string) (listing : list string)
  : outcome :=
  let location := join_empty im_dir in
  let files := files_compressed location listing in
  match files with
  | [] => Returned []
  | _ =>
      let no_files := Z.of_nat (length files) in
      if (cpu =? 0)%Z then ZeroDivisionError [Announce]
      else
        Returned
          (Announce
           :: flat_map
                (fun i => [Progress i (ceil_div no_files cpu);
                           Batch (chunk cpu files i)])
                (range (ceil_div no_files cpu)))
  end.

(** The batches among the events. *)
Definition batches_of (events : list event) : list (list string) :=
  omap (fun e => match e with Batch files => Some files | _ => None end)
    events.

(** The batches that [uncompress] hands to the workers. *)
Definition batches (cpu : Z) (im_dir : string) (listing : list string)
  : list (list string) :=
  match uncompress cpu im_dir listing with
  | Returned events | ZeroDivisionError events => batches_of events
  end.

End Uncompress.

(** ** More vocabulary *)

Definition is_chop_unknown (w : warning) : bool :=
  match w with ChopUnknown _ => true | _ => false end.

Definition is_chop_unequal (w : warning) : bool :=
  match w with ChopUnequal => true | _ => false end.

(** A frame section whose chop tag is neither of the two half cycles. *)
Definition other_tag (h : hdu) : bool :=
  negb (has_cycle "HCYCLE1" h) && negb (has_cycle "HCYCLE2" h).

(** The positions, counted from [i], of the sections that satisfy [P]. *)
Fixpoint positions_where (P : hdu -> bool) (i : nat) (sections : list hdu)
  : list nat :=
  match sections with
  | [] => []
  | h :: sections' =>
      (if P h then [i] else []) ++ positions_where P (S i) sections'
  end.

(** The two ports that receive the chop-A and the chop-B planes of a file
    of nod [nod], if any. *)
Definition routes (nod : value) : option (port_id * port_id) :=
  if Py.eqb nod (VStr "A") then Some (P1, P2)
  else if Py.eqb nod (VStr "B") then Some (P3, P4)
  else None.

(** Whether a file of nod [nod] is routed to port [k]. *)
Definition is_routed (nod : value) (k : port_id) : bool :=
  match routes nod with
  | Some (ka, kb) => bool_decide (k = ka) || bool_decide (k = kb)
  | None => false
  end.

(** The port with the numbers [l] appended to its INDEX series. *)
Definition indexed (l : list nat) (p : Port.port) : Port.port :=
  fold_left
    (fun p i => Port.append_attribute_data "INDEX" (VInt (Z.of_nat i)) p) l p.

(** The values that [_extra_attributes] adds to the series [name] of port
    [k] for a file of nod [nod] and path [path] with [n] frame sections,
    called when the counter holds [count]: on the two ports of the nod, the
    index values for INDEX and the path for FILES. *)
Definition computed (nod : value) (path : string) (count n : nat)
    (k : port_id) (name : string) : list value :=
  if is_routed nod k then
    (if String.eqb "INDEX" name
     then map (fun i => VInt (Z.of_nat i)) (seq count n) else [])
    ++ (if String.eqb "FILES" name then [VStr path] else [])
  else [].

(** The text that [run] adds to the history of a port. *)
Definition label (k : port_id) : string :=
  match k with
  | P1 => "Nod A, Chop A"
  | P2 => "Nod A, Chop B"
  | P3 => "Nod B, Chop A"
  | P4 => "Nod B, Chop B"
  end.

(** The configuration that [_initialize] accepts. *)
Definition well_configured (m : self) : Prop :=
  NoDup [tag_1 m; tag_2 m; tag_3 m; tag_4 m]
  /\ (m_scheme m = VStr "ABBA" \/ m_scheme m = VStr "ABAB")
  /\ Py.is_bool (m_check m) = true
  /\ Py.is_bool (m_overwrite m) = true.

(** The state with the data and the attributes of the four ports deleted. *)
Definition initialized (st : state) : state :=
  State
    (Port.del_all_attributes (Port.del_all_data (m_image_out_port_1 st)))
    (Port.del_all_attributes (Port.del_all_data (m_image_out_port_2 st)))
    (Port.del_all_attributes (Port.del_all_data (m_image_out_port_3 st)))
    (Port.del_all_attributes (Port.del_all_data (m_image_out_port_4 st)))
    (m_count st) (warned st) (stdout st) (opened st) (header_ports st).

(** The state with the warnings [ws] made in turn. *)
Definition warn_all (ws : list warning) (st : state) : state :=
  fold_left (fun s w => add_warning w s) ws st.

(** The three keywords that [check_header] reads. *)
Definition chop_keywords : list string :=
  ["ESO DET CHOP ST"; "ESO DET CHOP CYCSKIP"; "ESO DET CHOP CYCSUM"].

(** The warnings of [check_header] for the values of the three keywords. *)
Definition header_warnings (st_ cycsum : value) (skipped : Z) : list warning :=
  (if String.eqb (Py.str st_) "F" then [ChoppingDisabled] else [])
  ++ (if negb (skipped =? 0)%Z then [CyclesSkipped skipped] else [])
  ++ (if String.eqb (Py.str cycsum) "T" then [FramesAveraged] else []).

(** A list of strings in ascending order: each string is at most the next
    one. *)
Fixpoint ascending (l : list string) : bool :=
  match l with
  | x :: (y :: _) as rest => String.leb x y && ascending rest
  | _ => true
  end.

(** [run] up to the end of its loop: the checks, the listing of the files
    and the rounds. *)
Definition loop (m : self) (dir : directory) : M unit :=
  _initialize m ;;;
  write Running ;;;
  (match fits_files dir with
   | [] => raise (AssertionError "No FITS files found")
   | _ => ret tt
   end) ;;;
  process_files m dir (join_empty (m_im_dir m))
    (length (fits_files dir) - 1) 0 (fits_files dir).

(** The last lines of [run]. *)
Definition finalise : M unit :=
  write Finished ;;;
  add_history P1 "NearInitializationModule" "Nod A, Chop A" ;;;
  add_history P2 "NearInitializationModule" "Nod A, Chop B" ;;;
  add_history P3 "NearInitializationModule" "Nod B, Chop A" ;;;
  add_history P4 "NearInitializationModule" "Nod B, Chop B" ;;;
  on_port P1 Port.close_port ;;;
  on_port P2 Port.close_port ;;;
  on_port P3 Port.close_port ;;;
  on_port P4 Port.close_port.

Module Sample2.

(** A listing with three compressed files among others. *)
Definition listing : list string :=
  ["a.fits.Z"; "notes.txt"; "b.fits.Z"; "c.fits"; "d.fits.Z"].

(** A nod-B file with a frame of unknown tag between two known ones. *)
Definition mixed : hdulist :=
  Sample.burst (Sample.instrume "VISIR" ++ Sample.nodpos "B")
    [Sample.frame "HCYCLE1" 1 2; Sample.frame "OTHER" 9 9;
     Sample.frame "HCYCLE2" 3 4].

Definition mixed_dir : directory := [("m.fits", mixed)].

(** The composite header that [open_fit] builds for it. *)
Definition mixed_header : Fits.header :=
  Eval vm_compute in
    match fst (open_fit Sample.default_near "im_in/" "m.fits" mixed 0 fresh)
    with
    | Ok (_, _, _, header, _) => header
    | Raise _ => []
    end.

(** The state in which [open_fit] leaves a fresh module after reading it. *)
Definition mixed_read : state :=
  snd (open_fit Sample.default_near "im_in/" "m.fits" mixed 0 fresh).

(** The first port holds a frame, the others hold nothing. *)
Definition half_loaded : state :=
  State Sample.loaded_port Port.empty Port.empty Port.empty 0 [] [] [] [].

(** All four ports hold a frame. *)
Definition all_loaded : state :=
  State Sample.loaded_port Sample.loaded_port Sample.loaded_port
    Sample.loaded_port 0 [] [] [] [].

(** The composite header that [open_fit] builds for the file of
    [Sample.dithered]. *)
Definition dithered_header : Fits.header :=
  Eval vm_compute in
    match fst (open_fit Sample.default_near "im_in/" "a.fits"
                 (content "a.fits" Sample.dithered) 0 fresh)
    with
    | Ok (_, _, _, header, _) => header
    | Raise _ => []
    end.

(** A directory whose only file carries the nod 'C'. *)
Definition stray_first : directory :=
  [("a.fits",
    Sample.burst (Sample.instrume "VISIR" ++ Sample.nodpos "C")
      [Sample.frame "HCYCLE1" 5 6; Sample.frame "HCYCLE2" 7 8])].

(** A nod-A file whose second frame is a single pixel, and whose first
    frame holds a value that a 32-bit float does not keep. *)
Definition stretched : hdulist :=
  Sample.burst (Sample.instrume "VISIR" ++ Sample.nodpos "A")
    [Sample.frame "HCYCLE1" 16777217 2;
     HDU (Sample.small "HCYCLE2") (Some [[7%Z]])].

Definition stretched_dir : directory := [("s.fits", stretched)].

End Sample2.

(** ** The monad *)

Lemma bind_ok {A B} (m : M A) (k : A -> M B) st b st' :
  bind m k st = (Ok b, st') ->
  exists a st1, m st = (Ok a, st1) /\ k a st1 = (Ok b, st').
Proof.
  unfold bind. destruct (m st) as [[a|e] st1]; [eauto | discriminate].
Qed.

Lemma bind_eq {A B} (m : M A) (k : A -> M B) st a st1 :
  m st = (Ok a, st1) -> bind m k st = k a st1.
Proof. unfold bind. intros ->. reflexivity. Qed.

Lemma bind_raise {A B} (m : M A) (k : A -> M B) st e st1 :
  m st = (Raise e, st1) -> bind m k st = (Raise e, st1).
Proof. unfold bind. intros ->. reflexivity. Qed.

Lemma bind_assoc {A B C} (m : M A) (k : A -> M B) (h : B -> M C) st :
  bind (bind m k) h st = bind m (fun x => bind (k x) h) st.
Proof. unfold bind. destruct (m st) as [[x|e] st1]; reflexivity. Qed.

Lemma bind_ext {A B} (m : M A) (k k' : A -> M B) st :
  (forall x st1, k x st1 = k' x st1) -> bind m k st = bind m k' st.
Proof.
  intros H. unfold bind. destruct (m st) as [[x|e] st1]; [apply H|reflexivity].
Qed.

Lemma getitem_ok k h st v st' :
  getitem k h st = (Ok v, st') -> Fits.lookup k h = Some v /\ st' = st.
Proof.
  unfold getitem. destruct (Fits.lookup k h); cbn; intros [= <- <-]; auto.
Qed.

Lemma lift_ok {A} (r : exn + A) st a st' :
  lift r st = (Ok a, st') -> r = inr a /\ st' = st.
Proof. destruct r; cbn; intros [= <- <-]; auto. Qed.

Lemma py_eqb_str v s : Py.eqb v (VStr s) = true <-> v = VStr s.
Proof.
  destruct v; cbn; try (split; [discriminate | intros [=]]).
  rewrite String.eqb_eq. split; [intros -> | intros [= ->]]; reflexivity.
Qed.

Lemma py_eqb_str_false v s : Py.eqb v (VStr s) = false <-> v <> VStr s.
Proof.
  rewrite <- py_eqb_str. destruct (Py.eqb v (VStr s)); split; congruence.
Qed.

(** ** Effects that stay within a relation *)

Section Steps.
Context (R : state -> state -> Prop).
Context (R_refl : forall st, R st st).
Context (R_trans : forall st1 st2 st3, R st1 st2 -> R st2 st3 -> R st1 st3).

Lemma steps_ret {A} (x : A) : steps R (ret x).
Proof. intros st. apply R_refl. Qed.

Lemma steps_raise {A} e : steps R (@raise A e).
Proof. intros st. apply R_refl. Qed.

Lemma steps_gets {A} (f : state -> A) : steps R (gets f).
Proof. intros st. apply R_refl. Qed.

Lemma steps_lift {A} (r : exn + A) : steps R (lift r).
Proof. destruct r; [apply steps_raise | apply steps_ret]. Qed.

Lemma steps_getitem k h : steps R (getitem k h).
Proof.
  unfold getitem. destruct (Fits.lookup k h);
    [apply steps_ret | apply steps_raise].
Qed.

Lemma steps_modify f : (forall st, R st (f st)) -> steps R (modify f).
Proof. intros H st. apply H. Qed.

Lemma steps_bind {A B} (m : M A) (k : A -> M B) :
  steps R m -> (forall x, steps R (k x)) -> steps R (bind m k).
Proof.
  intros Hm Hk st. unfold bind. specialize (Hm st).
  destruct (m st) as [[x|e] st1]; cbn in *; [|assumption].
  eapply R_trans; [eassumption | apply Hk].
Qed.

Lemma steps_for_each {A} (l : list A) body :
  (forall x, steps R (body x)) -> steps R (for_each l body).
Proof.
  intros H. induction l as [|x l IH]; cbn.
  - apply steps_ret.
  - apply steps_bind; auto.
Qed.

Lemma steps_hdu_at hdul i : steps R (hdu_at hdul i).
Proof.
  unfold hdu_at. destruct (hdul !! i); [apply steps_ret | apply steps_raise].
Qed.

Lemma steps_data_of h : steps R (data_of h).
Proof.
  unfold data_of. destruct (hdu_data h);
    [apply steps_ret | apply steps_raise].
Qed.
End Steps.

(** Breaks a goal [steps R m] down along the structure of [m]; [side] proves
    that [R] is reflexive and transitive. What remains are the state changes
    themselves. *)
Ltac steps_split side :=
  unfold on_port, warn, write;
  repeat first
    [ match goal with |- forall _, _ => intro end
    | match goal with
      | |- steps _ (ret _) => apply steps_ret; solve [side]
      | |- steps _ (raise _) => apply steps_raise; solve [side]
      | |- steps _ (gets _) => apply steps_gets; solve [side]
      | |- steps _ (lift _) => apply steps_lift; solve [side]
      | |- steps _ (getitem _ _) => apply steps_getitem; solve [side]
      | |- steps _ (hdu_at _ _) => apply steps_hdu_at; solve [side]
      | |- steps _ (data_of _) => apply steps_data_of; solve [side]
      | |- steps _ (bind _ _) => apply steps_bind; [solve [side] | |]
      | |- steps _ (for_each _ _) =>
          apply steps_for_each; [solve [side] | solve [side] |]
      | |- steps _ (modify _) => apply steps_modify
      | |- steps _ (match ?x with _ => _ end) => destruct x
      end ].

Lemma steps_elim R {A} (m : M A) st r st' :
  steps R m -> m st = (r, st') -> R st st'.
Proof. intros H E. specialize (H st). rewrite E in H. exact H. Qed.

Lemma keeps_elim {X A} (f : state -> X) (m : M A) st r st' :
  keeps f m -> m st = (r, st') -> f st' = f st.
Proof. apply steps_elim. Qed.

(** Proves [keeps f m] for a method [m] written without recursion, when no
    state change of [m] touches [f]. *)
Ltac keeps_auto :=
  unfold keeps;
  steps_split ltac:(cbn; intros; congruence);
  try solve [ cbn; congruence
            | cbn; reflexivity
            | match goal with k : port_id |- _ => destruct k end;
              cbn; reflexivity ].

(** ** Initialisation (C7, C9) *)

Lemma keeps_on_port {X} (f : state -> X) k g :
  (forall p st, f (set_port k p st) = f st) -> keeps f (on_port k g).
Proof. intros H st. cbn. apply H. Qed.

Lemma check_tags_ok tags seen st :
  NoDup tags -> (forall t, t ∈ tags -> t ∉ seen) ->
  check_tags tags seen st = (Ok tt, st).
Proof.
  revert seen. induction tags as [|t tags IH]; intros seen Hnd Hseen; cbn.
  - reflexivity.
  - rewrite bool_decide_eq_false_2 by (apply Hseen; left).
    apply NoDup_cons in Hnd as [Hnotin Hnd].
    apply IH; [assumption|].
    intros u Hu. rewrite elem_of_union, elem_of_singleton.
    intros [->|Hin]; [contradiction|].
    eapply Hseen; [right; eassumption | assumption].
Qed.

Lemma check_tags_dup tags seen st :
  ~ (NoDup tags /\ forall t, t ∈ tags -> t ∉ seen) ->
  check_tags tags seen st
  = (Raise (ValueError "Output ports should have different tags"), st).
Proof.
  revert seen. induction tags as [|t tags IH]; intros seen Hbad; cbn.
  - exfalso. apply Hbad. split; [constructor | intros t Ht; inversion Ht].
  - destruct (bool_decide (t ∈ seen)) eqn:E; [reflexivity|].
    apply bool_decide_eq_false in E.
    apply IH. intros [Hnd Hseen]. apply Hbad. split.
    + apply NoDup_cons. split; [|assumption].
      intros Hin. apply (Hseen t Hin). apply elem_of_union_l.
      apply elem_of_singleton. reflexivity.
    + intros u Hu. apply elem_of_cons in Hu as [->|Hu]; [assumption|].
      intros Hin. apply (Hseen u Hu). apply elem_of_union_r. assumption.
Qed.

Lemma same_tag_not_distinct (m : self) :
  (exists j k, j <> k /\ tag_of m j = tag_of m k) ->
  ~ NoDup [tag_1 m; tag_2 m; tag_3 m; tag_4 m].
Proof.
  intros (j & k & Hjk & E) Hnd.
  repeat (apply NoDup_cons in Hnd as [? Hnd]).
  destruct j, k; cbn in E; try congruence; set_solver.
Qed.

Lemma initialize_fault (m : self) st :
  (exists j k, j <> k /\ tag_of m j = tag_of m k)
  \/ (m_scheme m <> VStr "ABBA" /\ m_scheme m <> VStr "ABAB")
  \/ Py.is_bool (m_check m) = false
  \/ Py.is_bool (m_overwrite m) = false ->
  exists msg, _initialize m st = (Raise (ValueError msg), st).
Proof.
  intros H. unfold _initialize.
  destruct (decide (NoDup [tag_1 m; tag_2 m; tag_3 m; tag_4 m])) as [Hnd|Hnd].
  2:{ eexists. apply bind_raise, check_tags_dup. tauto. }
  rewrite (bind_eq _ _ _ _ _ (check_tags_ok _ ∅ st Hnd ltac:(set_solver))).
  destruct H as [H|H]; [apply same_tag_not_distinct in H; contradiction|].
  destruct (negb (Py.eqb (m_scheme m) (VStr "ABBA"))
            && negb (Py.eqb (m_scheme m) (VStr "ABAB"))) eqn:Es.
  { eexists. reflexivity. }
  destruct H as [[H1 H2]|H].
  { apply py_eqb_str_false in H1, H2. rewrite H1, H2 in Es. discriminate. }
  cbn [bind ret].
  destruct (Py.is_bool (m_check m)) eqn:Ec; cbn.
  2:{ eexists. reflexivity. }
  destruct H as [H|H]; [discriminate|]. rewrite H. cbn.
  eexists. reflexivity.
Qed.

Lemma initialize_keeps_opened (m : self) : keeps opened (_initialize m).
Proof.
  unfold _initialize, clear_port.
  assert (forall tags seen, keeps opened (check_tags tags seen)) as Htags.
  { induction tags as [|t tags IH]; intros seen; cbn; keeps_auto; apply IH. }
  keeps_auto; apply Htags.
Qed.

Lemma check_tags_state tags seen st r st' :
  check_tags tags seen st = (r, st') -> st' = st.
Proof.
  revert seen. induction tags as [|t tags IH]; intros seen; cbn.
  - intros [= _ <-]. reflexivity.
  - destruct (bool_decide (t ∈ seen)); [|apply IH].
    intros [= _ <-]. reflexivity.
Qed.

Lemma clear_port_cleared k st :
  cleared (get_port k (snd (clear_port k st))).
Proof. destruct k; repeat split. Qed.

Lemma clear_port_other j k st :
  j <> k -> get_port j (snd (clear_port k st)) = get_port j st.
Proof. destruct j, k; intros H; try congruence; reflexivity. Qed.

(** Whatever the overwrite flag holds, a completed [_initialize] leaves the
    four ports without data and without attributes. *)
Lemma initialize_clears (m : self) st st' (k : port_id) :
  _initialize m st = (Ok tt, st') -> cleared (get_port k st').
Proof.
  unfold _initialize. intros H.
  apply bind_ok in H as ([] & st1 & H1 & H).
  apply check_tags_state in H1 as ->.
  destruct (negb (Py.eqb (m_scheme m) (VStr "ABBA"))
            && negb (Py.eqb (m_scheme m) (VStr "ABAB"))); [discriminate|].
  destruct (negb (Py.is_bool (m_check m))); [discriminate|].
  destruct (negb (Py.is_bool (m_overwrite m))); [discriminate|].
  cbn in H. injection H as <-. destruct k; repeat split.
Qed.

(** C7 (the code departs from the claim): built with [overwrite=False],
    the module still clears a port that holds a frame, a static attribute
    and an index from an earlier run; [_initialize] only checks that the flag
    is a boolean. *)
Theorem C7_overwrite_false_still_clears :
  m_overwrite (Sample.near (VStr "ABBA") (VBool true) (VBool false) None)
  = VBool false
  /\ Port.data (m_image_out_port_1 Sample.used) = Some [[[1%Z; 2%Z]]]
  /\ Port.static (m_image_out_port_1 Sample.used) !! "INSTRUMENT"
     = Some (VStr "NACO")
  /\ exists st',
       _initialize (Sample.near (VStr "ABBA") (VBool true) (VBool false) None)
         Sample.used = (Ok tt, st')
       /\ Port.data (m_image_out_port_1 st') = None
       /\ Port.static (m_image_out_port_1 st') !! "INSTRUMENT" = None
       /\ Port.series (m_image_out_port_1 st') "INDEX" = [].
Proof.
  split; [reflexivity|]. split; [reflexivity|]. split; [reflexivity|].
  eexists. split; [vm_compute; reflexivity|].
  repeat split.
Qed.

(** C9: a module whose tags are not pairwise different, whose scheme is
    neither 'ABBA' nor 'ABAB', or whose check or overwrite flag is not a
    boolean makes [run] raise [ValueError] in the very state it started
    from: no file was opened and no port was touched. A run that finds no
    name ending in [.fits] raises before the loop, having opened no file. *)
Theorem C9_faults_abort_before_reading (m : self) (dir : directory) st :
  ((exists j k, j <> k /\ tag_of m j = tag_of m k)
   \/ (m_scheme m <> VStr "ABBA" /\ m_scheme m <> VStr "ABAB")
   \/ Py.is_bool (m_check m) = false
   \/ Py.is_bool (m_overwrite m) = false ->
   exists msg, run m dir st = (Raise (ValueError msg), st))
  /\ (fits_files dir = [] ->
      exists e st', run m dir st = (Raise e, st')
                    /\ opened st' = opened st
                    /\ header_ports st' = header_ports st
                    /\ (forall st1, _initialize m st = (Ok tt, st1) ->
                        e = AssertionError "No FITS files found")).
Proof.
  split.
  - intros H. destruct (initialize_fault m st H) as [msg E].
    exists msg. unfold run. apply bind_raise. exact E.
  - intros Hnone. unfold run. rewrite Hnone.
    pose proof (initialize_keeps_opened m st) as Ho.
    assert (keeps header_ports (_initialize m)) as Hh.
    { unfold _initialize, clear_port.
      assert (forall tags seen, keeps header_ports (check_tags tags seen)) as Ht.
      { induction tags as [|t tags IH]; intros seen; cbn; keeps_auto; apply IH. }
      keeps_auto; apply Ht. }
    specialize (Hh st). cbn beta in Ho, Hh.
    destruct (_initialize m st) as [[[]|e] st1] eqn:E; cbn [snd] in Ho, Hh.
    + exists (AssertionError "No FITS files found"), (add_message Running st1).
      rewrite (bind_eq _ _ _ _ _ E).
      split; [reflexivity|]. split; [exact Ho|]. split; [exact Hh|].
      intros; reflexivity.
    + exists e, st1. rewrite (bind_raise _ _ _ _ _ E).
      split; [reflexivity|]. split; [exact Ho|]. split; [exact Hh|].
      intros st2 [=].
Qed.

Lemma C9_faults_abort_witness :
  (exists msg,
     run Sample.same_tags [("a.fits", [])] fresh
     = (Raise (ValueError msg), fresh))
  /\ (exists e st',
        run Sample.default_near [("notes.txt", [])] fresh = (Raise e, st')
        /\ opened st' = opened fresh
        /\ header_ports st' = header_ports fresh
        /\ (forall st1, _initialize Sample.default_near fresh = (Ok tt, st1) ->
            e = AssertionError "No FITS files found")).
Proof.
  split.
  - apply (proj1 (C9_faults_abort_before_reading Sample.same_tags
                    [("a.fits", [])] fresh)).
    left. exists P1, P2. split; [discriminate | reflexivity].
  - apply (proj2 (C9_faults_abort_before_reading Sample.default_near
                    [("notes.txt", [])] fresh)).
    reflexivity.
Defined.

(** ** The check flag (C6) *)

Lemma static_loop_lenient (m : self) fits_file header iteration end_ items l st :
  Py.truthy (m_check m) = false ->
  static_loop m fits_file header iteration end_ items l st = (Ok tt, st).
Proof.
  intros H. revert l. induction items as [|item items IH]; intros l; cbn.
  - reflexivity.
  - unfold static_item. rewrite H. cbn. apply IH.
Qed.

Lemma non_static_lenient (m : self) header items st :
  Py.truthy (m_check m) = false ->
  for_each items (non_static_item m header) st = (Ok tt, st).
Proof.
  intros H. induction items as [|item items IH]; cbn.
  - reflexivity.
  - unfold non_static_item at 1. rewrite H. cbn. apply IH.
Qed.

(** With the check flag set to [False] both collectors return at once for
    every configured attribute: no keyword is looked up, no port is written,
    nothing is reported. The flag switches the walk over the configured
    lists on or off as a whole. *)
Lemma check_false_skips_every_attribute (m : self) fits_file header
    iteration end_ st :
  m_check m = VBool false ->
  _static_attributes m fits_file header iteration end_ st = (Ok tt, st)
  /\ _non_static_attributes m header st = (Ok tt, st).
Proof.
  intros H. split.
  - apply static_loop_lenient. rewrite H. reflexivity.
  - apply non_static_lenient. rewrite H. reflexivity.
Qed.

(** C6 (the code departs from the claim): the header holds the keyword of
    the static attribute INSTRUMENT and that of the non-static attribute
    DITHER_X, and the nod-A ports hold data. The module made with
    [check=True] records both attributes. The module made with
    [check=False] records neither: it does not keep to the attributes that
    are always required, it ignores every attribute, and both collectors
    leave the state as it was. *)
Theorem C6_lenient_module_ignores_every_attribute :
  m_static (Sample.near (VStr "ABBA") (VBool false) (VBool true) None)
  = ["INSTRUMENT"]
  /\ m_non_static (Sample.near (VStr "ABBA") (VBool false) (VBool true) None)
     = ["DITHER_X"; "INDEX"; "FILES"]
  /\ Port.static
       (m_image_out_port_1
          (snd (_static_attributes Sample.default_near "a.fits"
                  Sample.full_header 0 0 Sample.loaded))) !! "INSTRUMENT"
     = Some (VStr "VISIR")
  /\ Port.series
       (m_image_out_port_1
          (snd (_non_static_attributes Sample.default_near
                  Sample.full_header Sample.loaded))) "DITHER_X"
     = [VInt 3]
  /\ _static_attributes
       (Sample.near (VStr "ABBA") (VBool false) (VBool true) None)
       "a.fits" Sample.full_header 0 0 Sample.loaded
     = (Ok tt, Sample.loaded)
  /\ _non_static_attributes
       (Sample.near (VStr "ABBA") (VBool false) (VBool true) None)
       Sample.full_header Sample.loaded
     = (Ok tt, Sample.loaded)
  /\ Port.static (m_image_out_port_1 Sample.loaded) !! "INSTRUMENT" = None
  /\ Port.series (m_image_out_port_1 Sample.loaded) "DITHER_X" = [].
Proof. vm_compute. repeat split. Qed.

(** ** open_fit (C3, C4) *)

Lemma warned_of_add_other P w st :
  P w = false -> warned_of P (add_warning w st) = warned_of P st.
Proof.
  intros H. unfold warned_of. cbn. rewrite List.filter_app. cbn.
  rewrite H. apply app_nil_r.
Qed.

Lemma warned_of_add P w st :
  warned_of P (add_warning w st)
  = warned_of P st ++ (if P w then [w] else []).
Proof.
  unfold warned_of. cbn. rewrite List.filter_app. cbn.
  destruct (P w); reflexivity.
Qed.

Section OpenFitKeeps.
Context {X : Type} (f : state -> X).
Context (f_opened : forall path st, f (add_opened path st) = f st).
Context (f_header_port :
           forall tag lines st, f (add_header_port tag lines st) = f st).
Context (f_warning :
           forall w st, reading_warning w = true ->
                        f (add_warning w st) = f st).

Lemma check_header_keeps head : keeps f (check_header head).
Proof.
  unfold check_header. keeps_auto; apply f_warning; reflexivity.
Qed.

Lemma read_images_keeps hdul slot first count :
  keeps f (read_images hdul slot first count).
Proof.
  revert first. induction count as [|count IH]; intros first; cbn.
  - keeps_auto.
  - keeps_auto; apply IH.
Qed.

Lemma classify_frame_keeps hdul images i bufs :
  keeps f (classify_frame hdul images i bufs).
Proof.
  unfold classify_frame. keeps_auto. apply f_warning; reflexivity.
Qed.

Lemma classify_keeps hdul images first count bufs :
  keeps f (classify hdul images first count bufs).
Proof.
  revert first bufs. induction count as [|count IH]; intros first bufs; cbn.
  - keeps_auto.
  - keeps_auto; first [apply classify_frame_keeps | apply IH].
Qed.

Lemma trim_keeps slot buf : keeps f (trim slot buf).
Proof. unfold trim. keeps_auto. Qed.
End OpenFitKeeps.

Lemma modify_ok f st (u : unit) st' :
  modify f st = (Ok u, st') -> st' = f st.
Proof. unfold modify. intros H. inversion H. reflexivity. Qed.

(** One step of the inversion of [bind m k st = (Ok _, _)]. *)
Ltac bind_inv H :=
  let x := fresh "x" in
  let st := fresh "st" in
  let E := fresh "E" in
  apply bind_ok in H as (x & st & E & H).







(** The scenario of four files without the nod keyword under 'ABBA': the
    first and the last file go to the nod-A ports, the two in the middle to
    the nod-B ports, and the missing keyword is reported once. *)
Example four_files_abba :
  let st := snd (run Sample.default_near Sample.four_files fresh) in
  fst (run Sample.default_near Sample.four_files fresh) = Ok tt
  /\ Port.series (m_image_out_port_1 st) "FILES"
     = [VStr "im_in/a.fits"; VStr "im_in/d.fits"]
  /\ Port.series (m_image_out_port_2 st) "FILES"
     = [VStr "im_in/a.fits"; VStr "im_in/d.fits"]
  /\ Port.series (m_image_out_port_3 st) "FILES"
     = [VStr "im_in/b.fits"; VStr "im_in/c.fits"]
  /\ Port.series (m_image_out_port_4 st) "FILES"
     = [VStr "im_in/b.fits"; VStr "im_in/c.fits"]
  /\ warned_of is_nodpos_missing st = [NodposMissing (VStr "ABBA")].
Proof. vm_compute. repeat split. Qed.

(** [open_fit] leaves alone whatever is untouched by the record of opened
    files, by warnings and by the header dump: the four ports, the frame
    counter and the standard output among others. *)
Lemma open_fit_keeps {X} (f : state -> X) (m : self) location image_file
    hdul number :
  (forall path st, f (add_opened path st) = f st) ->
  (forall tag lines st, f (add_header_port tag lines st) = f st) ->
  (forall w st, reading_warning w = true -> f (add_warning w st) = f st) ->
  (forall scheme st, f (add_warning (NodposMissing scheme) st) = f st) ->
  keeps f (open_fit m location image_file hdul number).
Proof.
  intros Ho Hh Hw Hn. unfold open_fit, nod_of.
  keeps_auto;
    first [ apply check_header_keeps | apply read_images_keeps
          | apply classify_keeps | apply trim_keeps
          | apply Ho | apply Hh | apply Hn | apply Hw ];
    auto.
Qed.

Lemma open_fit_shape (m : self) location image_file hdul number st
    chopa chopb nod header shape st' :
  open_fit m location image_file hdul number st
  = (Ok (chopa, chopb, nod, header, shape), st') ->
  exists h w, shape = [frame_count hdul; h; w].
Proof.
  unfold open_fit. intros H. do 16 bind_inv H.
  destruct x7; [|discriminate]. injection H as <- <- <- <- <- <-.
  eexists _, _. reflexivity.
Qed.

(** ** The collectors leave the rest of the state alone *)

Section CollectorsKeep.
Context {X : Type} (f : state -> X).
Context (f_message : forall msg st, f (add_message msg st) = f st).
Context (f_warning :
           forall w st, static_warning w = true ->
                        f (add_warning w st) = f st).

Lemma static_keeps (m : self) fits_file header iteration end_ :
  (forall k item v st,
      f (set_port k (fst (Port.add_attribute item v (get_port k st))) st)
      = f st) ->
  keeps f (_static_attributes m fits_file header iteration end_).
Proof.
  intros Hattr. unfold _static_attributes.
  generalize (Locals None 0 0 0 0) as l.
  induction (m_static m) as [|item items IH]; intros l; cbn.
  - keeps_auto.
  - unfold static_item, try_check, add_attribute_quiet.
    keeps_auto; first [apply IH | apply Hattr | apply f_message
                      | apply f_warning; reflexivity].
Qed.

Lemma non_static_keeps (m : self) header :
  (forall k item v st,
      f (set_port k (Port.append_attribute_data item v (get_port k st)) st)
      = f st) ->
  keeps f (_non_static_attributes m header).
Proof.
  intros Happ. unfold _non_static_attributes, non_static_item, append_all.
  keeps_auto; apply Happ.
Qed.
End CollectorsKeep.

(** ** The frame counter (C1) *)

Lemma extra_attributes_count (m : self) fits_file location shape nod st st'
    nimages :
  nimages_of shape = Some nimages ->
  _extra_attributes m fits_file location shape nod st = (Ok tt, st') ->
  m_count st' = m_count st + nimages.
Proof.
  unfold _extra_attributes. intros -> H.
  do 4 bind_inv H.
  apply modify_ok in H as ->. cbn.
  injection E as <- <-. injection E2 as <- <-.
  apply (keeps_elim m_count) in E0;
    [|unfold index_item; keeps_auto].
  apply (keeps_elim m_count) in E1; [|unfold add_attribute; keeps_auto].
  congruence.
Qed.

Lemma collect_count (m : self) location end_ i im chopa chopb nod header
    nimages h w st st' :
  collect m location end_ i im (chopa, chopb, nod, header, [nimages; h; w]) st
  = (Ok tt, st') ->
  m_count st' = m_count st + nimages.
Proof.
  unfold collect. intros H. do 6 bind_inv H.
  apply (keeps_elim m_count) in E; [|keeps_auto].
  apply (keeps_elim m_count) in E0; [|keeps_auto].
  apply (keeps_elim m_count) in E1;
    [|apply static_keeps; intros; try destruct k; reflexivity].
  apply (keeps_elim m_count) in E2;
    [|apply non_static_keeps; intros; try destruct k; reflexivity].
  destruct x3.
  apply (extra_attributes_count _ _ _ _ _ _ _ nimages) in E3; [|reflexivity].
  apply (keeps_elim m_count) in E4; [|keeps_auto].
  apply (keeps_elim m_count) in H; [|keeps_auto].
  congruence.
Qed.

Lemma process_file_count (m : self) dir location end_ i im st st' :
  process_file m dir location end_ i im st = (Ok tt, st') ->
  m_count st' = m_count st + frame_count (content im dir).
Proof.
  unfold process_file. intros H. bind_inv H.
  destruct x as [[[[chopa chopb] nod] header] shape].
  destruct (open_fit_shape _ _ _ _ _ _ _ _ _ _ _ _ E) as (h & w & ->).
  apply (keeps_elim m_count) in E;
    [|apply open_fit_keeps; reflexivity].
  apply collect_count in H. congruence.
Qed.

Lemma process_files_app (m : self) dir location end_ i pre post st :
  process_files m dir location end_ i (pre ++ post) st
  = bind (process_files m dir location end_ i pre)
      (fun _ => process_files m dir location end_ (i + length pre) post) st.
Proof.
  revert i st. induction pre as [|im pre IH]; intros i st; cbn.
  - rewrite Nat.add_0_r. reflexivity.
  - rewrite bind_assoc. apply bind_ext. intros [] st1.
    rewrite IH. replace (S i + length pre) with (i + S (length pre)) by lia.
    reflexivity.
Qed.

Lemma process_files_count (m : self) dir location end_ i files st st' :
  process_files m dir location end_ i files st = (Ok tt, st') ->
  m_count st' = m_count st + total_frames dir files.
Proof.
  revert i st. induction files as [|im files IH]; intros i st; cbn.
  - intros [= <-]. unfold total_frames. cbn. lia.
  - intros H. bind_inv H. destruct x.
    apply process_file_count in E. apply IH in H.
    unfold total_frames in *. cbn. lia.
Qed.

(** C1 (as the code has it): while the files are processed the frame
    counter never decreases, and once the files up to some position are
    done it has advanced by the number of frame sections of these files,
    [len(hdulist) - 2] for each, whatever the chop tags of the frames. It
    grows strictly over files that hold a frame. *)
Theorem C1_counter_counts_frame_sections (m : self) dir location end_ i
    pre post st st' :
  process_files m dir location end_ i (pre ++ post) st = (Ok tt, st') ->
  exists st_i,
    process_files m dir location end_ i pre st = (Ok tt, st_i)
    /\ m_count st_i = m_count st + total_frames dir pre
    /\ m_count st' = m_count st_i + total_frames dir post
    /\ m_count st_i <= m_count st'
    /\ (0 < total_frames dir post -> m_count st_i < m_count st').
Proof.
  rewrite process_files_app. intros H. bind_inv H. destruct x.
  exists st0. split; [exact E|].
  apply process_files_count in E, H. repeat split; lia.
Qed.

Lemma C1_counter_witness :
  exists st_i,
    process_files Sample.default_near Sample.four_files "im_in/" 3 0
      ["a.fits"; "b.fits"] fresh = (Ok tt, st_i)
    /\ m_count st_i = m_count fresh
                      + total_frames Sample.four_files ["a.fits"; "b.fits"]
    /\ m_count
         (snd (process_files Sample.default_near Sample.four_files "im_in/"
                 3 0 (["a.fits"; "b.fits"] ++ ["c.fits"; "d.fits"]) fresh))
       = m_count st_i + total_frames Sample.four_files ["c.fits"; "d.fits"]
    /\ m_count st_i
       <= m_count
            (snd (process_files Sample.default_near Sample.four_files
                    "im_in/" 3 0 (["a.fits"; "b.fits"] ++ ["c.fits"; "d.fits"])
                    fresh))
    /\ (0 < total_frames Sample.four_files ["c.fits"; "d.fits"] ->
        m_count st_i
        < m_count
            (snd (process_files Sample.default_near Sample.four_files
                    "im_in/" 3 0 (["a.fits"; "b.fits"] ++ ["c.fits"; "d.fits"])
                    fresh))).
Proof.
  apply (C1_counter_counts_frame_sections Sample.default_near
           Sample.four_files "im_in/" 3 0 ["a.fits"; "b.fits"]
           ["c.fits"; "d.fits"] fresh).
  vm_compute. reflexivity.
Defined.

(** C1, the claim as written fails: a file with one chop-A frame and one
    frame of unknown chop tag puts one frame into the ports, and the run
    ends with the counter at two. *)
Lemma C1_unknown_chop_tag_advances_counter :
  fst (run Sample.default_near Sample.odd_tag fresh) = Ok tt
  /\ total_classified Sample.odd_tag (fits_files Sample.odd_tag) = 1
  /\ stored_frames (snd (run Sample.default_near Sample.odd_tag fresh)) = 1
  /\ m_count (snd (run Sample.default_near Sample.odd_tag fresh)) = 2
  /\ m_count (snd (run Sample.default_near Sample.odd_tag fresh))
     <> total_classified Sample.odd_tag (fits_files Sample.odd_tag).
Proof. vm_compute. repeat split. discriminate. Qed.

(** ** Non-static attributes (C2) *)

Lemma series_append p item v name :
  Port.series (Port.append_attribute_data item v p) name
  = Port.series p name ++ (if String.eqb item name then [v] else []).
Proof.
  unfold Port.series, Port.append_attribute_data. cbn.
  destruct (String.eqb item name) eqn:E.
  - apply String.eqb_eq in E as ->. rewrite lookup_insert_eq. reflexivity.
  - apply String.eqb_neq in E. rewrite lookup_insert_ne by assumption.
    symmetry. apply app_nil_r.
Qed.

Lemma append_all_ok item v st :
  exists st',
    append_all item v st = (Ok tt, st')
    /\ forall k,
         get_port k st' = Port.append_attribute_data item v (get_port k st).
Proof.
  eexists. split; [reflexivity|]. intros k. destruct k; reflexivity.
Qed.

Lemma attribute_of_listed item P (table : list (string * attribute)) :
  item ∈ map fst (List.filter P table) -> attribute_of item table <> None.
Proof.
  induction table as [|[k a] table IH]; cbn.
  - intros H. inversion H.
  - destruct (String.eqb item k) eqn:E; [discriminate|].
    apply String.eqb_neq in E.
    destruct (P (k, a)); cbn; [|exact IH].
    intros H. apply elem_of_cons in H as [->|H]; [contradiction | auto].
Qed.

Lemma non_static_item_ok (m : self) header item st :
  attribute_of item (m_attributes m) <> None ->
  exists st',
    non_static_item m header item st = (Ok tt, st')
    /\ forall k,
         Port.data (get_port k st') = Port.data (get_port k st)
         /\ forall name,
              Port.series (get_port k st') name
              = Port.series (get_port k st) name
                ++ (if String.eqb item name
                    then option_list (non_static_value m header item)
                    else []).
Proof.
  intros Hin. unfold non_static_item, non_static_value.
  assert (forall v,
             exists st',
               append_all item v st = (Ok tt, st')
               /\ forall k,
                    Port.data (get_port k st') = Port.data (get_port k st)
                    /\ forall name,
                         Port.series (get_port k st') name
                         = Port.series (get_port k st) name
                           ++ (if String.eqb item name
                               then option_list (Some v) else [])) as Happ.
  { intros v. destruct (append_all_ok item v st) as (st' & E & Hk).
    exists st'. split; [exact E|]. intros k. rewrite Hk.
    split; [reflexivity|]. intros name. apply series_append. }
  assert (exists st',
             @ret unit tt st = (Ok tt, st')
             /\ forall k,
                  Port.data (get_port k st') = Port.data (get_port k st)
                  /\ forall name,
                       Port.series (get_port k st') name
                       = Port.series (get_port k st) name
                         ++ (if String.eqb item name
                             then option_list None else [])) as Hret.
  { exists st. split; [reflexivity|]. intros k. split; [reflexivity|].
    intros name. destruct (String.eqb item name); symmetry; apply app_nil_r. }
  destruct (Py.truthy (m_check m)); [|exact Hret].
  destruct (Fits.lookup item header) as [v|]; [apply Happ|].
  destruct (attribute_of item (m_attributes m)) as [entry|]; [|contradiction].
  destruct (String.eqb (config entry) "header"); cbn; [|exact Hret].
  destruct (negb (String.eqb (get_attribute m item) "None")); cbn;
    [|exact Hret].
  destruct (Fits.lookup (get_attribute m item) header) as [v|];
    [apply Happ | exact Hret].
Qed.

Lemma non_static_loop_ok (m : self) header items st :
  (forall item, item ∈ items -> attribute_of item (m_attributes m) <> None) ->
  exists st',
    for_each items (non_static_item m header) st = (Ok tt, st')
    /\ forall k,
         Port.data (get_port k st') = Port.data (get_port k st)
         /\ forall name,
              Port.series (get_port k st') name
              = Port.series (get_port k st) name
                ++ flat_map
                     (fun item =>
                        if String.eqb item name
                        then option_list (non_static_value m header item)
                        else [])
                     items.
Proof.
  revert st. induction items as [|item items IH]; intros st Hin; cbn.
  - exists st. split; [reflexivity|]. intros k. split; [reflexivity|].
    intros name. symmetry. apply app_nil_r.
  - destruct (non_static_item_ok m header item st) as (st1 & E1 & H1).
    { apply Hin. left. }
    destruct (IH st1) as (st2 & E2 & H2).
    { intros x Hx. apply Hin. right. exact Hx. }
    exists st2. split.
    + rewrite (bind_eq _ _ _ _ _ E1). exact E2.
    + intros k. destruct (H1 k) as [D1 S1]. destruct (H2 k) as [D2 S2].
      split; [congruence|]. intros name.
      rewrite S2, S1, <- app_assoc. reflexivity.
Qed.

Lemma flat_map_pick {A} (g : string -> list A) (l : list string) name :
  NoDup l ->
  flat_map (fun item => if String.eqb item name then g item else []) l
  = if bool_decide (name ∈ l) then g name else [].
Proof.
  induction l as [|x l IH]; intros Hnd; cbn.
  - reflexivity.
  - apply NoDup_cons in Hnd as [Hx Hnd]. rewrite (IH Hnd).
    destruct (String.eqb x name) eqn:E.
    + apply String.eqb_eq in E as ->.
      rewrite (bool_decide_eq_false_2 _ Hx), app_nil_r.
      rewrite bool_decide_eq_true_2 by left. reflexivity.
    + apply String.eqb_neq in E. cbn.
      destruct (bool_decide (name ∈ l)) eqn:El.
      * apply bool_decide_eq_true in El.
        rewrite bool_decide_eq_true_2 by (right; exact El). reflexivity.
      * apply bool_decide_eq_false in El.
        rewrite bool_decide_eq_false_2; [reflexivity|].
        intros H. apply elem_of_cons in H as [->|H]; contradiction.
Qed.

Lemma keys_filter_NoDup {A} (P : string * A -> bool)
    (table : list (string * A)) :
  NoDup (map fst table) -> NoDup (map fst (List.filter P table)).
Proof.
  induction table as [|[k a] table IH]; cbn; intros Hnd.
  - constructor.
  - apply NoDup_cons in Hnd as [Hk Hnd]. specialize (IH Hnd).
    destruct (P (k, a)); cbn; [|exact IH].
    apply NoDup_cons. split; [|exact IH].
    intros Hin. apply Hk. clear -Hin.
    induction table as [|[k' a'] table IH]; cbn in *.
    + inversion Hin.
    + destruct (P (k', a')); cbn in Hin.
      * apply elem_of_cons in Hin as [->|Hin]; [left | right; auto].
      * right. auto.
Qed.

(** One call of the non-static collector: it returns, the frame stacks
    stay, and each series of each port gains the values of [appended]. *)
Lemma non_static_effect (m : self) header st :
  exists st',
    _non_static_attributes m header st = (Ok tt, st')
    /\ forall k,
         Port.data (get_port k st') = Port.data (get_port k st)
         /\ forall name,
              Port.series (get_port k st') name
              = Port.series (get_port k st) name ++ appended m header name.
Proof.
  apply non_static_loop_ok. intros item. apply attribute_of_listed.
Qed.

(** C2, the claim as written fails: a nod-A file gives two frames to the
    first port and one to the second, yet each of the four ports, the two
    nod-B ports that hold no frame included, receives exactly one value of
    DITHER_X. *)
Lemma C2_one_value_per_file_on_every_port :
  fst (run Sample.default_near Sample.dithered fresh) = Ok tt
  /\ length (Port.frames
               (m_image_out_port_1
                  (snd (run Sample.default_near Sample.dithered fresh)))) = 2
  /\ Port.series
       (m_image_out_port_1
          (snd (run Sample.default_near Sample.dithered fresh))) "DITHER_X"
     = [VInt 3]
  /\ Port.frames
       (m_image_out_port_3
          (snd (run Sample.default_near Sample.dithered fresh))) = []
  /\ Port.series
       (m_image_out_port_3
          (snd (run Sample.default_near Sample.dithered fresh))) "DITHER_X"
     = [VInt 3]
  /\ Port.series
       (m_image_out_port_4
          (snd (run Sample.default_near Sample.dithered fresh))) "DITHER_X"
     = [VInt 3].
Proof. vm_compute. repeat split. Qed.

(** ** A nod that is neither 'A' nor 'B' (C10) *)

Lemma for_each_skip {A} (l : list A) (body : A -> M unit) st :
  (forall x st1, body x st1 = (Ok tt, st1)) ->
  for_each l body st = (Ok tt, st).
Proof.
  intros H. induction l as [|x l IH]; cbn.
  - reflexivity.
  - rewrite (bind_eq _ _ _ _ _ (H x st)). exact IH.
Qed.

Lemma extra_attributes_unrouted (m : self) fits_file location shape nod st
    nimages :
  nod <> VStr "A" -> nod <> VStr "B" ->
  nimages_of shape = Some nimages ->
  _extra_attributes m fits_file location shape nod st
  = (Ok tt, set_count (m_count st + nimages) (add_warning NodNotAB st)).
Proof.
  intros HA HB Hn. unfold _extra_attributes. rewrite Hn.
  apply py_eqb_str_false in HA, HB.
  rewrite (bind_eq (gets m_count) _ st (m_count st) st eq_refl).
  rewrite (bind_eq (for_each _ _) _ st tt st).
  2:{ apply for_each_skip. intros x st1. unfold index_item.
      rewrite HA, HB. reflexivity. }
  rewrite HA, HB. reflexivity.
Qed.

Lemma get_set_port j k p st :
  get_port j (set_port k p st) = if decide (j = k) then p else get_port j st.
Proof. destruct j, k; reflexivity. Qed.

(** Observations of one port. *)
Section PortObservation.
Context {Y : Type} (g : Port.port -> Y) (k : port_id).

Lemma open_fit_keeps_port (m : self) location image_file hdul number :
  keeps (fun s => g (get_port k s))
    (open_fit m location image_file hdul number).
Proof. apply open_fit_keeps; intros; destruct k; reflexivity. Qed.

Lemma static_keeps_port (m : self) fits_file header iteration end_ :
  (forall item v p, g (fst (Port.add_attribute item v p)) = g p) ->
  keeps (fun s => g (get_port k s))
    (_static_attributes m fits_file header iteration end_).
Proof.
  intros Hg. apply static_keeps; try (intros; destruct k; reflexivity).
  intros j item v s. rewrite get_set_port.
  destruct (decide (k = j)) as [->|]; [apply Hg | reflexivity].
Qed.

Lemma non_static_keeps_port (m : self) header :
  (forall item v p, g (Port.append_attribute_data item v p) = g p) ->
  keeps (fun s => g (get_port k s)) (_non_static_attributes m header).
Proof.
  intros Hg. apply non_static_keeps.
  intros j item v s. rewrite get_set_port.
  destruct (decide (k = j)) as [->|]; [apply Hg | reflexivity].
Qed.
End PortObservation.

Lemma add_attribute_data item v p :
  Port.data (fst (Port.add_attribute item v p)) = Port.data p.
Proof. destruct p as [[d|] ? ? ? ? ?]; reflexivity. Qed.

Lemma add_attribute_flushed item v p :
  Port.flushed (fst (Port.add_attribute item v p)) = Port.flushed p.
Proof. destruct p as [[d|] ? ? ? ? ?]; reflexivity. Qed.

Lemma add_attribute_series name item v p :
  Port.series (fst (Port.add_attribute item v p)) name = Port.series p name.
Proof. destruct p as [[d|] ? ? ? ? ?]; reflexivity. Qed.

(** The warnings that a step cannot make stay as they were. *)
Section WarningsKept.
Context (P : warning -> bool).

Lemma non_static_keeps_warned (m : self) header :
  keeps (warned_of P) (_non_static_attributes m header).
Proof. apply non_static_keeps. intros [] item v s; reflexivity. Qed.

Lemma static_keeps_warned (m : self) fits_file header iteration end_ :
  (forall w, static_warning w = true -> P w = false) ->
  keeps (warned_of P)
    (_static_attributes m fits_file header iteration end_).
Proof.
  intros HP. apply static_keeps.
  - reflexivity.
  - intros w s Hw. apply warned_of_add_other, HP, Hw.
  - intros [] item v s; reflexivity.
Qed.

Lemma open_fit_keeps_warned (m : self) location image_file hdul number :
  (forall w, reading_warning w = true -> P w = false) ->
  (forall scheme, P (NodposMissing scheme) = false) ->
  keeps (warned_of P) (open_fit m location image_file hdul number).
Proof.
  intros HP Hn. apply open_fit_keeps.
  - reflexivity.
  - reflexivity.
  - intros w s Hw. apply warned_of_add_other, HP, Hw.
  - intros scheme s. apply warned_of_add_other, Hn.
Qed.
End WarningsKept.

(** C10 (as the code has it): when [open_fit] returned a nod that is
    neither 'A' nor 'B' and the round of the loop completes, the file gave no
    frame to any port and no port was flushed; each series of each port, the
    INDEX and FILES series included, gained only what the non-static
    collector takes from the header; the warning about the nod was made once
    and the counter advanced by the number of frame sections of the file. *)
Theorem C10_stray_nod_file (m : self) dir location end_ i im st
    chopa chopb nod header shape st1 st' :
  open_fit m location im (content im dir) i st
  = (Ok (chopa, chopb, nod, header, shape), st1) ->
  nod <> VStr "A" -> nod <> VStr "B" ->
  process_file m dir location end_ i im st = (Ok tt, st') ->
  (forall k,
      Port.data (get_port k st') = Port.data (get_port k st)
      /\ Port.flushed (get_port k st') = Port.flushed (get_port k st)
      /\ forall name,
           Port.series (get_port k st') name
           = Port.series (get_port k st) name ++ appended m header name)
  /\ warned_of is_nod_not_ab st' = warned_of is_nod_not_ab st ++ [NodNotAB]
  /\ m_count st' = m_count st + frame_count (content im dir).
Proof.
  intros Hopen HA HB H.
  pose proof (process_file_count _ _ _ _ _ _ _ _ H) as Hcount.
  unfold process_file in H.
  rewrite (bind_eq _ _ _ _ _ Hopen) in H.
  destruct (open_fit_shape _ _ _ _ _ _ _ _ _ _ _ _ Hopen) as (h & w & ->).
  unfold collect in H.
  pose proof HA as HA'. pose proof HB as HB'.
  apply py_eqb_str_false in HA', HB'. rewrite HA', HB' in H.
  cbn [bind ret] in H.
  apply bind_ok in H as ([] & st2 & Estatic & H).
  apply bind_ok in H as ([] & st3 & Enon & H).
  apply bind_ok in H as ([] & st4 & Eextra & H).
  rewrite (extra_attributes_unrouted m im location
             [frame_count (content im dir); h; w] nod st3
             (frame_count (content im dir)) HA HB eq_refl) in Eextra.
  injection Eextra as <-.
  cbn [bind ret] in H. injection H as <-.
  destruct (non_static_effect m header st2) as (st3' & Enon' & Hns).
  rewrite Enon in Enon'. injection Enon' as <-.
  split; [|split; [|exact Hcount]].
  - intros k. destruct (Hns k) as [Hd Hseries].
    split; [|split].
    + rewrite <- (keeps_elim _ _ _ _ _
                    (open_fit_keeps_port Port.data k _ _ _ _ _) Hopen).
      rewrite <- (keeps_elim _ _ _ _ _
                    (static_keeps_port Port.data k _ _ _ _ _
                       add_attribute_data) Estatic).
      rewrite <- Hd. destruct k; reflexivity.
    + rewrite <- (keeps_elim _ _ _ _ _
                    (open_fit_keeps_port Port.flushed k _ _ _ _ _) Hopen).
      rewrite <- (keeps_elim _ _ _ _ _
                    (static_keeps_port Port.flushed k _ _ _ _ _
                       add_attribute_flushed) Estatic).
      rewrite <- (keeps_elim _ _ _ _ _
                    (non_static_keeps_port Port.flushed k _ _
                       ltac:(reflexivity)) Enon).
      destruct k; reflexivity.
    + intros name. pose proof (Hseries name) as Hs.
      rewrite <- (keeps_elim _ _ _ _ _
                    (open_fit_keeps_port (fun p => Port.series p name) k
                       _ _ _ _ _) Hopen).
      rewrite <- (keeps_elim _ _ _ _ _
                    (static_keeps_port (fun p => Port.series p name) k
                       _ _ _ _ _ (add_attribute_series name)) Estatic).
      rewrite <- Hs. destruct k; reflexivity.
  - change (warned_of is_nod_not_ab
              (set_count (m_count st3 + frame_count (content im dir))
                 (add_warning NodNotAB st3)))
      with (warned_of is_nod_not_ab (add_warning NodNotAB st3)).
    rewrite warned_of_add. cbn [is_nod_not_ab]. f_equal.
    rewrite (keeps_elim _ _ _ _ _
               (non_static_keeps_warned is_nod_not_ab m header) Enon).
    rewrite (keeps_elim _ _ _ _ _
               (static_keeps_warned is_nod_not_ab m im header i end_
                  ltac:(intros []; try discriminate; reflexivity)) Estatic).
    apply (keeps_elim _ _ _ _ _
             (open_fit_keeps_warned is_nod_not_ab m location im
                (content im dir) i
                ltac:(intros []; try discriminate; reflexivity)
                ltac:(reflexivity)) Hopen).
Qed.

Lemma C10_stray_nod_witness :
  let st :=
    snd (process_files Sample.default_near Sample.stray_nod "im_in/" 1 0
           ["a.fits"] fresh) in
  let st' :=
    snd (process_file Sample.default_near Sample.stray_nod "im_in/" 1 1
           "b.fits" st) in
  warned_of is_nod_not_ab st' = warned_of is_nod_not_ab st ++ [NodNotAB]
  /\ m_count st'
     = m_count st + frame_count (content "b.fits" Sample.stray_nod).
Proof.
  intros st st'.
  refine (proj2 (C10_stray_nod_file Sample.default_near Sample.stray_nod
                   "im_in/" 1 1 "b.fits" st _ _ (VStr "C") _ _ _ st'
                   _ _ _ _)).
  - vm_compute. reflexivity.
  - discriminate.
  - discriminate.
  - vm_compute. reflexivity.
Defined.

(** C10, the claim as written fails: the second file holds nod 'C' and the
    instrument keyword. With the value of the first file the run completes
    and the two nod-B ports end without the static attribute; with another
    value the change is reported and no port holds the value of the file. *)
Lemma C10_static_value_not_on_every_port :
  fst (run Sample.default_near Sample.stray_nod fresh) = Ok tt
  /\ Port.static
       (m_image_out_port_3
          (snd (run Sample.default_near Sample.stray_nod fresh)))
     !! "INSTRUMENT" = None
  /\ Port.static
       (m_image_out_port_4
          (snd (run Sample.default_near Sample.stray_nod fresh)))
     !! "INSTRUMENT" = None
  /\ fst (run Sample.near_with_output Sample.stray_nod_changed fresh) = Ok tt
  /\ (forall k,
        Port.static
          (get_port k
             (snd (run Sample.near_with_output Sample.stray_nod_changed
                     fresh))) !! "INSTRUMENT" <> Some (VStr "NACO")).
Proof.
  vm_compute. repeat split; try reflexivity.
  intros k. destruct k; vm_compute; discriminate.
Qed.

(** ** Static attributes: what is reported, and when (C8) *)

Lemma due_same (m : self) st st1 l l1 k :
  Port.data (get_port k st1) = Port.data (get_port k st) ->
  reported k l1 = reported k l ->
  due m st1 l1 k = due m st l k.
Proof. unfold due. intros -> ->. reflexivity. Qed.

Lemma reported_set_status s l k : reported k (set_status s l) = reported k l.
Proof. destruct k; reflexivity. Qed.

Lemma reported_set_reported j k l :
  reported j (set_reported k l) = if decide (j = k) then 1 else reported j l.
Proof. destruct j, k; reflexivity. Qed.

(** One guarded check: the ports keep their data, no warning is made, the
    flags of the other ports stay, and the message of the port is written
    when it is due and the file is the last one. *)
Lemma try_check_effect (m : self) k item v iteration end_ l st l1 st1 :
  try_check m k item v iteration end_ l st = (Ok l1, st1) ->
  (forall j, get_port j st1 = get_port j st)
  /\ warned st1 = warned st
  /\ (forall j, j <> k -> reported j l1 = reported j l)
  /\ (if (iteration =? end_)%nat
      then stdout st1 = stdout st ++ due m st l k /\ due m st1 l1 k = []
      else stdout st1 = stdout st /\ reported k l1 = reported k l).
Proof.
  unfold try_check, due, Port.check_static_attribute.
  rewrite (bind_eq (gets (get_port k)) _ st (get_port k st) st eq_refl).
  destruct (Port.data (get_port k st)) as [frames|] eqn:Hdata.
  - intros H.
    assert (st1 = st /\ exists s, l1 = set_status s l) as [-> [s ->]].
    { destruct (Port.static (get_port k st) !! item) as [old|];
        [destruct (Py.eqb old v)|]; injection H as <- <-; eauto. }
    rewrite Hdata. repeat split; auto using reported_set_status.
    destruct (iteration =? end_)%nat;
      split; auto using app_nil_r, reported_set_status.
  - destruct (iteration =? end_)%nat; cbn [andb].
    + destruct (reported k l =? 0)%nat eqn:Hrep; intros H.
      * injection H as <- <-. cbn.
        assert (forall j, get_port j (add_message
                                        (EmptyTag (tag_of m k) (position_of k))
                                        st) = get_port j st) as Hp
            by (intros []; reflexivity).
        repeat split; auto.
        -- intros j Hj. rewrite reported_set_reported.
           destruct (decide (j = k)); [contradiction | reflexivity].
        -- rewrite Hp, Hdata, reported_set_reported.
           destruct (decide (k = k)); [reflexivity | contradiction].
      * injection H as <- <-. rewrite Hdata, Hrep.
        repeat split; auto. symmetry. apply app_nil_r.
    + intros H. injection H as <- <-. repeat split; auto.
Qed.

(** The four checks of one attribute in a row. *)
Lemma four_checks_effect (m : self) item v iteration end_ l st l4 st4 :
  (let* l := try_check m P1 item v iteration end_ l in
   let* l := try_check m P2 item v iteration end_ l in
   let* l := try_check m P3 item v iteration end_ l in
   try_check m P4 item v iteration end_ l) st = (Ok l4, st4) ->
  (forall j, get_port j st4 = get_port j st)
  /\ warned st4 = warned st
  /\ (if (iteration =? end_)%nat
      then stdout st4 = stdout st ++ flat_map (due m st l) [P1; P2; P3; P4]
           /\ flat_map (due m st4 l4) [P1; P2; P3; P4] = []
      else stdout st4 = stdout st /\ forall k, reported k l4 = reported k l).
Proof.
  intros H.
  apply bind_ok in H as (l1 & st1 & E1 & H).
  apply bind_ok in H as (l2 & st2 & E2 & H).
  apply bind_ok in H as (l3 & st3 & E3 & E4).
  apply try_check_effect in E1 as (Hp1 & Hw1 & Ho1 & Hm1).
  apply try_check_effect in E2 as (Hp2 & Hw2 & Ho2 & Hm2).
  apply try_check_effect in E3 as (Hp3 & Hw3 & Ho3 & Hm3).
  apply try_check_effect in E4 as (Hp4 & Hw4 & Ho4 & Hm4).
  split; [intros j; rewrite Hp4, Hp3, Hp2, Hp1; reflexivity|].
  split; [congruence|].
  destruct (iteration =? end_)%nat.
  - destruct Hm1 as [Hs1 Hd1], Hm2 as [Hs2 Hd2], Hm3 as [Hs3 Hd3],
      Hm4 as [Hs4 Hd4].
    assert (forall j sa la sb lb,
               get_port j sb = get_port j sa -> reported j lb = reported j la ->
               due m sb lb j = due m sa la j) as Hsame.
    { intros j sa la sb lb Hp Hr. apply due_same; [rewrite Hp|]; auto. }
    split.
    + rewrite Hs4, Hs3, Hs2, Hs1. cbn [flat_map].
      rewrite (Hsame P2 st l st1 l1) by (auto; apply Ho1; discriminate).
      rewrite (Hsame P3 st l st2 l2)
        by (rewrite ?Hp2, ?Hp1, ?Ho2, ?Ho1; auto; discriminate).
      rewrite (Hsame P4 st l st3 l3)
        by (rewrite ?Hp3, ?Hp2, ?Hp1, ?Ho3, ?Ho2, ?Ho1; auto; discriminate).
      rewrite app_nil_r, <- !app_assoc. reflexivity.
    + cbn [flat_map].
      rewrite (Hsame P1 st1 l1 st4 l4)
        by (rewrite ?Hp4, ?Hp3, ?Hp2, ?Ho4, ?Ho3, ?Ho2; auto; discriminate).
      rewrite (Hsame P2 st2 l2 st4 l4)
        by (rewrite ?Hp4, ?Hp3, ?Ho4, ?Ho3; auto; discriminate).
      rewrite (Hsame P3 st3 l3 st4 l4)
        by (rewrite ?Hp4, ?Ho4; auto; discriminate).
      rewrite Hd1, Hd2, Hd3, Hd4. reflexivity.
  - destruct Hm1 as [Hs1 Hd1], Hm2 as [Hs2 Hd2], Hm3 as [Hs3 Hd3],
      Hm4 as [Hs4 Hd4].
    split; [congruence|].
    intros k.
    destruct k.
    + rewrite Ho4, Ho3, Ho2 by discriminate. exact Hd1.
    + rewrite Ho4, Ho3 by discriminate. rewrite Hd2. apply Ho1. discriminate.
    + rewrite Ho4 by discriminate. rewrite Hd3, Ho2, Ho1 by discriminate.
      reflexivity.
    + rewrite Hd4, Ho3, Ho2, Ho1 by discriminate. reflexivity.
Qed.

(** What follows the four checks: the attribute is added where the status
    is 1 and a change is reported where it is -1. *)
Lemma after_checks_keeps {X} (f : state -> X) (m : self) fits_file fitskey
    item v (s : Z) :
  (forall k p st, Port.data p = Port.data (get_port k st) ->
                  Port.nonstatic p = Port.nonstatic (get_port k st) ->
                  Port.flushed p = Port.flushed (get_port k st) ->
                  f (set_port k p st) = f st) ->
  (forall w st, static_warning w = true -> f (add_warning w st) = f st) ->
  keeps f
    ((if (s =? 1)%Z
      then add_attribute_quiet P1 item v ;;;
           add_attribute_quiet P2 item v ;;;
           add_attribute_quiet P3 item v ;;;
           add_attribute_quiet P4 item v
      else ret tt) ;;;
     (if (s =? -1)%Z
      then match output_tag m with
           | Some tag => warn (StaticChanged fitskey fits_file tag)
           | None => raise (AttributeError "output")
           end
      else ret tt)).
Proof.
  intros Hp Hw. unfold add_attribute_quiet.
  keeps_auto;
    first [ apply Hw; reflexivity
          | apply Hp; [apply add_attribute_data
                      | destruct (get_port _ _) as [[d|] ? ? ? ? ?]; reflexivity
                      | apply add_attribute_flushed] ].
Qed.

Lemma static_item_effect (m : self) fits_file header iteration end_ item l st
    l1 st1 :
  static_item m fits_file header iteration end_ item l st = (Ok l1, st1) ->
  (forall k, Port.data (get_port k st1) = Port.data (get_port k st))
  /\ warned_of is_static_not_found st1
     = warned_of is_static_not_found st
       ++ (if Py.truthy (m_check m)
              && negb (String.eqb (get_attribute m item) "None")
              && negb (Fits.mem (get_attribute m item) header)
           then [StaticNotFound item (get_attribute m item)] else [])
  /\ (if present m header item && (iteration =? end_)%nat
      then stdout st1 = stdout st ++ flat_map (due m st l) [P1; P2; P3; P4]
           /\ flat_map (due m st1 l1) [P1; P2; P3; P4] = []
      else stdout st1 = stdout st /\ forall k, reported k l1 = reported k l).
Proof.
  unfold static_item, present, Fits.mem.
  destruct (Py.truthy (m_check m)); cbn [andb].
  2:{ intros [= <- <-]. repeat split; auto. symmetry. apply app_nil_r. }
  destruct (negb (String.eqb (get_attribute m item) "None")); cbn [andb].
  2:{ intros [= <- <-]. repeat split; auto. symmetry. apply app_nil_r. }
  destruct (Fits.lookup (get_attribute m item) header) as [v|]; cbn [negb andb].
  2:{ intros H. apply bind_ok in H as ([] & st2 & E & H).
      injection H as <- <-. apply modify_ok in E as ->.
      split; [intros []; reflexivity|].
      split; [apply warned_of_add|].
      split; [reflexivity | auto]. }
  intros H.
  apply bind_ok in H as (la & sa & E1 & H).
  apply bind_ok in H as (lb & sb & E2 & H).
  apply bind_ok in H as (lc & sc & E3 & H).
  apply bind_ok in H as (l4 & st4 & E4 & H).
  assert ((let* l := try_check m P1 item v iteration end_ l in
           let* l := try_check m P2 item v iteration end_ l in
           let* l := try_check m P3 item v iteration end_ l in
           try_check m P4 item v iteration end_ l) st = (Ok l4, st4)) as E.
  { rewrite (bind_eq _ _ _ _ _ E1), (bind_eq _ _ _ _ _ E2),
      (bind_eq _ _ _ _ _ E3). exact E4. }
  clear E1 E2 E3 E4 la sa lb sb lc sc.
  apply four_checks_effect in E as (Hports & Hwarned & Hout).
  destruct (status l4) as [s|]; [|discriminate].
  rewrite <- bind_assoc in H.
  apply bind_ok in H as ([] & st5 & E & H). injection H as <- <-.
  assert (forall k, Port.data (get_port k st5) = Port.data (get_port k st))
    as Hdata.
  { intros k. rewrite <- Hports.
    eapply (keeps_elim (fun s => Port.data (get_port k s))); [|exact E].
    apply after_checks_keeps.
    - intros j p s0 Hd _ _. rewrite get_set_port.
      destruct (decide (k = j)) as [->|]; [exact Hd | reflexivity].
    - intros w s0 _. destruct k; reflexivity. }
  split; [exact Hdata|]. split.
  - rewrite app_nil_r.
    transitivity (warned_of is_static_not_found st4);
      [|unfold warned_of; rewrite Hwarned; reflexivity].
    eapply (keeps_elim (warned_of is_static_not_found)); [|exact E].
    unfold add_attribute_quiet.
    keeps_auto; try (intros; destruct k; reflexivity).
    apply warned_of_add_other. reflexivity.
  - assert (stdout st5 = stdout st4) as Hstdout.
    { eapply (keeps_elim stdout); [|exact E].
      apply after_checks_keeps.
      - intros [] p s0 _ _ _; reflexivity.
      - reflexivity. }
    destruct (iteration =? end_)%nat.
    + destruct Hout as [Hout Hdue]. rewrite Hstdout. split; [exact Hout|].
      rewrite <- Hdue. cbn [flat_map].
      rewrite !(due_same m st4 st5 l4 l4)
        by (rewrite ?Hdata, ?Hports; reflexivity).
      reflexivity.
    + destruct Hout as [Hout Hrep]. split; [congruence | exact Hrep].
Qed.

Lemma static_loop_effect (m : self) fits_file header iteration end_ items l st
    st' :
  static_loop m fits_file header iteration end_ items l st = (Ok tt, st') ->
  warned_of is_static_not_found st'
  = warned_of is_static_not_found st
    ++ flat_map
         (fun item =>
            if Py.truthy (m_check m)
               && negb (String.eqb (get_attribute m item) "None")
               && negb (Fits.mem (get_attribute m item) header)
            then [StaticNotFound item (get_attribute m item)] else [])
         items
  /\ stdout st'
     = stdout st
       ++ (if (iteration =? end_)%nat && existsb (present m header) items
           then flat_map (due m st l) [P1; P2; P3; P4] else []).
Proof.
  revert l st. induction items as [|item items IH]; intros l st; cbn.
  - intros [= <-]. rewrite andb_false_r, !app_nil_r. split; reflexivity.
  - intros H. apply bind_ok in H as (l1 & st1 & E & H).
    apply static_item_effect in E as (Hdata & Hwarned & Hout).
    apply IH in H as [IHw IHo].
    split; [rewrite IHw, Hwarned, <- app_assoc; reflexivity|].
    rewrite IHo.
    destruct (present m header item); cbn [andb orb] in *.
    + destruct (iteration =? end_)%nat; cbn [andb] in *.
      * destruct Hout as [-> ->].
        destruct (existsb (present m header) items);
          rewrite app_nil_r; reflexivity.
      * destruct Hout as [-> _]. reflexivity.
    + destruct Hout as [-> Hrep].
      destruct ((iteration =? end_)%nat && existsb (present m header) items);
        [|reflexivity].
      cbn [flat_map].
      rewrite !(due_same m st st1 l l1) by auto. reflexivity.
Qed.

(** C8 (as the code has it): a static attribute whose configured keyword is
    not in the composite header of a file is reported by a warning for that
    very file, whatever the position of the file in the run. What is written
    for the last file only, and once per port, is the message that an output
    tag is empty: it goes to every port without data as soon as one
    configured keyword is in the header of the last file. *)
Theorem C8_missing_keyword_reported_for_each_file (m : self) fits_file header
    iteration end_ st st' :
  _static_attributes m fits_file header iteration end_ st = (Ok tt, st') ->
  warned_of is_static_not_found st'
  = warned_of is_static_not_found st ++ not_found m header
  /\ stdout st'
     = stdout st
       ++ (if (iteration =? end_)%nat
              && existsb (present m header) (m_static m)
           then empty_tags m st else []).
Proof. apply static_loop_effect. Qed.

Lemma C8_missing_keyword_witness :
  let header := Sample.general ++ Sample.nodpos "A" in
  let st' :=
    snd (_static_attributes Sample.default_near "a.fits" header 0 1
           Sample.loaded) in
  warned_of is_static_not_found st'
  = warned_of is_static_not_found Sample.loaded
    ++ not_found Sample.default_near header
  /\ stdout st'
     = stdout Sample.loaded
       ++ (if (0 =? 1)%nat
              && existsb (present Sample.default_near header)
                   (m_static Sample.default_near)
           then empty_tags Sample.default_near Sample.loaded else []).
Proof.
  intros header st'.
  apply (C8_missing_keyword_reported_for_each_file Sample.default_near
           "a.fits" header 0 1 Sample.loaded st').
  vm_compute. reflexivity.
Defined.

(** C8, the claim as written fails: of two files without the instrument
    keyword the first, which is not the last of the run, is already reported,
    and the run ends with one such warning per file. *)
Lemma C8_missing_keyword_warned_before_last_file :
  fits_files (firstn 2 Sample.four_files) = ["a.fits"; "b.fits"]
  /\ warned_of is_static_not_found
       (snd (process_files Sample.default_near (firstn 2 Sample.four_files)
               "im_in/" 1 0 ["a.fits"] fresh))
     = [StaticNotFound "INSTRUMENT" "INSTRUME"]
  /\ fst (run Sample.default_near (firstn 2 Sample.four_files) fresh) = Ok tt
  /\ warned_of is_static_not_found
       (snd (run Sample.default_near (firstn 2 Sample.four_files) fresh))
     = [StaticNotFound "INSTRUMENT" "INSTRUME";
        StaticNotFound "INSTRUMENT" "INSTRUME"].
Proof. vm_compute. repeat split. Qed.

(** ** Static attributes: a changed value (C5) *)

Lemma try_check_total (m : self) k item v iteration end_ l st :
  exists l1 st1, try_check m k item v iteration end_ l st = (Ok l1, st1).
Proof.
  unfold try_check, Port.check_static_attribute.
  rewrite (bind_eq (gets (get_port k)) _ st (get_port k st) st eq_refl).
  destruct (Port.data (get_port k st)).
  - destruct (Port.static (get_port k st) !! item) as [old|];
      [destruct (Py.eqb old v)|]; eauto.
  - destruct ((iteration =? end_)%nat && (reported k l =? 0)%nat); eauto.
Qed.

(** A value that differs from the one recorded is never stored: when the
    last port holds data and records another value for the attribute, the
    round of the loop for that attribute leaves the four ports exactly as
    they were, whether it ends in the warning or in the exception. *)
Lemma static_item_keeps_old_value (m : self) fits_file header iteration end_
    item l st v old frames :
  Py.truthy (m_check m) = true ->
  String.eqb (get_attribute m item) "None" = false ->
  Fits.lookup (get_attribute m item) header = Some v ->
  Port.data (get_port P4 st) = Some frames ->
  Port.static (get_port P4 st) !! item = Some old ->
  Py.eqb old v = false ->
  forall k,
    get_port k
      (snd (static_item m fits_file header iteration end_ item l st))
    = get_port k st.
Proof.
  intros Hcheck Hkey Hv Hdata Hold Hne k.
  unfold static_item. rewrite Hcheck, Hkey, Hv. cbn [negb].
  destruct (try_check_total m P1 item v iteration end_ l st)
    as (l1 & st1 & E1).
  destruct (try_check_total m P2 item v iteration end_ l1 st1)
    as (l2 & st2 & E2).
  destruct (try_check_total m P3 item v iteration end_ l2 st2)
    as (l3 & st3 & E3).
  rewrite (bind_eq _ _ _ _ _ E1), (bind_eq _ _ _ _ _ E2),
    (bind_eq _ _ _ _ _ E3).
  apply try_check_effect in E1 as (Hp1 & _).
  apply try_check_effect in E2 as (Hp2 & _).
  apply try_check_effect in E3 as (Hp3 & _).
  assert (forall j, get_port j st3 = get_port j st) as Hp
      by (intros j; rewrite Hp3, Hp2, Hp1; reflexivity).
  assert (try_check m P4 item v iteration end_ l3 st3
          = (Ok (set_status (-1) l3), st3)) as E4.
  { unfold try_check, Port.check_static_attribute.
    rewrite (bind_eq (gets (get_port P4)) _ st3 (get_port P4 st3) st3 eq_refl).
    rewrite Hp, Hdata, Hold, Hne. reflexivity. }
  rewrite (bind_eq _ _ _ _ _ E4). cbn.
  destruct (output_tag m); cbn; rewrite <- Hp; destruct k; reflexivity.
Qed.

(** C5 (the code departs from the claim): two nod-A files name different
    instruments. Where [self.output.tag] is defined the change is reported
    once, with a text that ends in "Attribute value is updated", and the
    first port still holds the value of the first file; where it is not,
    formatting the warning raises and the run stops, the first value still
    in place. And when a nod-B file came first, a nod-A file of the same
    instrument leaves the nod-A ports without the attribute: the status that
    decides is the one of the last port that answered. *)
Theorem C5_changed_value_is_not_retained :
  (fst (run Sample.near_with_output Sample.changed fresh) = Ok tt
   /\ warned_of is_static_changed
        (snd (run Sample.near_with_output Sample.changed fresh))
      = [StaticChanged "INSTRUME" "b.fits" "noda_chopa"]
   /\ Port.static
        (m_image_out_port_1
           (snd (run Sample.near_with_output Sample.changed fresh)))
      !! "INSTRUMENT" = Some (VStr "VISIR"))
  /\ (fst (run Sample.default_near Sample.changed fresh)
      = Raise (AttributeError "output")
      /\ Port.static
           (m_image_out_port_1
              (snd (run Sample.default_near Sample.changed fresh)))
         !! "INSTRUMENT" = Some (VStr "VISIR"))
  /\ (fst (run Sample.default_near Sample.nod_b_first fresh) = Ok tt
      /\ Port.frames
           (m_image_out_port_1
              (snd (run Sample.default_near Sample.nod_b_first fresh)))
         = [[[5%Z; 6%Z]]]
      /\ Port.static
           (m_image_out_port_1
              (snd (run Sample.default_near Sample.nod_b_first fresh)))
         !! "INSTRUMENT" = None
      /\ Port.static
           (m_image_out_port_3
              (snd (run Sample.default_near Sample.nod_b_first fresh)))
         !! "INSTRUMENT" = Some (VStr "VISIR")).
Proof. vm_compute. repeat split. Qed.

(** ** Trimming the chop buffers (C3) *)

Lemma read_images_ok hdul slot first count st images st' :
  read_images hdul slot first count st = (Ok images, st') ->
  length (take count (drop first hdul)) = count
  /\ Forall2 (fun h d => read slot h = Some d)
       (take count (drop first hdul)) images.
Proof.
  revert first st images. induction count as [|count IH];
    intros first st images; cbn.
  - intros [= <- <-]. rewrite take_0. split; [reflexivity | constructor].
  - intros H. apply bind_ok in H as (h & st1 & E1 & H).
    apply bind_ok in H as (d & st2 & E2 & H).
    destruct (Fits.broadcast slot d) as [wide|] eqn:Hwide; [|discriminate].
    apply bind_ok in H as (rest & st3 & E3 & H). injection H as <- <-.
    unfold hdu_at in E1. destruct (hdul !! first) as [h'|] eqn:Hh;
      [|discriminate]. injection E1 as -> <-.
    unfold data_of in E2. destruct (hdu_data h) as [d'|] eqn:Hd;
      [|discriminate]. injection E2 as -> <-.
    apply IH in E3 as [Hlen Hall].
    rewrite (drop_S _ _ _ Hh). cbn. split; [congruence|].
    constructor; [|assumption].
    unfold read. rewrite Hd. cbn. rewrite Hwide. reflexivity.
Qed.

Lemma insert_next {A} (done : list A) (x zero : A) r :
  <[length done := x]> (done ++ replicate (S r) zero)
  = (done ++ [x]) ++ replicate r zero.
Proof.
  rewrite insert_app_r_alt by lia. rewrite Nat.sub_diag. cbn.
  rewrite <- app_assoc. reflexivity.
Qed.

Lemma has_cycle_of h v cycle :
  Fits.lookup "HIERARCH ESO DET FRAM TYPE" (hdu_header h) = Some v ->
  has_cycle cycle h = Py.eqb v (VStr cycle).
Proof. unfold has_cycle. intros ->. reflexivity. Qed.

Lemma pick_cons cycle h sections d planes :
  pick cycle (h :: sections) (d :: planes)
  = (if has_cycle cycle h then [d] else []) ++ pick cycle sections planes.
Proof. unfold pick. cbn. destruct (has_cycle cycle h); reflexivity. Qed.

(** The classification loop fills each buffer from its write position on
    with the planes of its chop tag, in the order of the frames, and leaves
    the slots behind them as they were. *)
Lemma classify_ok hdul images (zero : image) first count bufs st bufs' st'
    A B ra rb :
  classify hdul images first count bufs st = (Ok bufs', st') ->
  chopa bufs = A ++ replicate ra zero -> count_im_1 bufs = length A ->
  chopb bufs = B ++ replicate rb zero -> count_im_2 bufs = length B ->
  count <= ra -> count <= rb ->
  chopa bufs'
  = (A ++ pick "HCYCLE1" (take count (drop (first + 1) hdul))
            (map (Fits.cast Fits.float32) (take count (drop first images))))
    ++ replicate
         (ra - length (pick "HCYCLE1" (take count (drop (first + 1) hdul))
                         (map (Fits.cast Fits.float32)
                            (take count (drop first images))))) zero
  /\ chopb bufs'
     = (B ++ pick "HCYCLE2" (take count (drop (first + 1) hdul))
               (map (Fits.cast Fits.float32)
                  (take count (drop first images))))
       ++ replicate
            (rb - length (pick "HCYCLE2" (take count (drop (first + 1) hdul))
                            (map (Fits.cast Fits.float32)
                               (take count (drop first images))))) zero.
Proof.
  revert first bufs st A B ra rb.
  induction count as [|count IH]; intros first bufs st A B ra rb; cbn.
  - intros [= <- <-] HA _ HB _ _ _. rewrite !take_0. cbn.
    rewrite !app_nil_r, !Nat.sub_0_r. split; assumption.
  - intros H HA HcA HB HcB Hra Hrb.
    apply bind_ok in H as (bufs1 & st1 & E & H).
    unfold classify_frame in E.
    apply bind_ok in E as (h & st2 & Eh & E).
    apply bind_ok in E as (cycle & st3 & Ec & E).
    apply bind_ok in E as (plane & st4 & Ep & E).
    unfold hdu_at in Eh. destruct (hdul !! (first + 1)) as [h'|] eqn:Hh;
      [|discriminate]. injection Eh as -> <-.
    apply getitem_ok in Ec as [Hc ->].
    destruct (images !! first) as [plane'|] eqn:Hp; [|discriminate].
    injection Ep as <- <-.
    rewrite (drop_S _ _ _ Hh), (drop_S _ _ _ Hp). cbn [take map].
    rewrite !pick_cons, !(has_cycle_of h cycle) by exact Hc.
    destruct ra as [|ra]; [lia|]. destruct rb as [|rb]; [lia|].
    destruct (Py.eqb cycle (VStr "HCYCLE1")) eqn:E1.
    + apply py_eqb_str in E1 as ->. cbn [Py.eqb String.eqb Ascii.eqb Bool.eqb].
      cbn in E. injection E as <- <-.
      specialize (IH (S first) _ _ (A ++ [Fits.cast Fits.float32 plane'])
                    B ra (S rb) H).
      cbn [chopa chopb count_im_1 count_im_2] in IH.
      rewrite HA, HcA, insert_next in IH.
      destruct IH as [IHa IHb]; auto; try lia.
      { rewrite length_app. cbn. lia. }
      split.
      * rewrite IHa, <- !app_assoc. cbn. reflexivity.
      * exact IHb.
    + destruct (Py.eqb cycle (VStr "HCYCLE2")) eqn:E2.
      * cbn in E. injection E as <- <-.
        specialize (IH (S first) _ _ A
                      (B ++ [Fits.cast Fits.float32 plane']) (S ra) rb H).
        cbn [chopa chopb count_im_1 count_im_2] in IH.
        rewrite HB, HcB, insert_next in IH.
        destruct IH as [IHa IHb]; auto; try lia.
        { rewrite length_app. cbn. lia. }
        split.
        -- exact IHa.
        -- rewrite IHb, <- !app_assoc. cbn. reflexivity.
      * apply bind_ok in E as ([] & st5 & _ & E). injection E as <- <-.
        apply (IH (S first) _ _ A B (S ra) (S rb) H); auto; lia.
Qed.

Lemma pick_tagged (g : hdu -> option image) cycle sections planes :
  Forall2 (fun h d => g h = Some d) sections planes ->
  pick cycle sections planes
  = omap (fun h => if has_cycle cycle h then g h else None) sections.
Proof.
  induction 1 as [|h d sections planes Hd _ IH].
  - reflexivity.
  - rewrite pick_cons, IH. cbn. rewrite Hd.
    destruct (has_cycle cycle h); reflexivity.
Qed.

Lemma trim_ok slot buf st kept st' :
  trim slot buf st = (Ok kept, st') ->
  fst slot <> 0 /\ snd slot <> 0 /\ kept = List.filter lit buf.
Proof.
  unfold trim.
  destruct (fst slot) as [|h]; [discriminate|].
  destruct (snd slot) as [|w]; [discriminate|].
  cbn. intros [= <- <-]. repeat split; discriminate.
Qed.

Lemma filter_lit_zeros h w r :
  h <> 0 -> w <> 0 -> List.filter lit (replicate r (Fits.zeros h w)) = [].
Proof.
  intros Hh Hw. destruct h as [|h]; [contradiction|].
  destruct w as [|w]; [contradiction|].
  induction r as [|r IH]; [reflexivity | exact IH].
Qed.

Lemma held_of_read slot sections images :
  Forall2 (fun h d => read slot h = Some d) sections images ->
  Forall2 (fun h d => held slot h = Some d) sections
    (map (Fits.cast Fits.float32) images).
Proof.
  induction 1 as [|h d sections images Hd _ IH]; cbn; constructor;
    [|exact IH].
  unfold held. rewrite Hd. reflexivity.
Qed.

Lemma round_to_small prec x :
  (0 < prec)%Z -> (Z.abs x < 2 ^ prec)%Z -> Fits.round_to prec x = x.
Proof.
  intros Hprec Hx. unfold Fits.round_to.
  assert (Z.log2 (Z.abs x) + 1 - prec <= 0)%Z as Hdrop.
  { destruct (Z.eq_dec (Z.abs x) 0%Z) as [->|Hne]; [cbn; lia|].
    assert (Z.log2 (Z.abs x) < prec)%Z; [|lia].
    apply Z.log2_lt_pow2; lia. }
  apply Z.leb_le in Hdrop. rewrite Hdrop. reflexivity.
Qed.

Lemma stretch_same {A} (l : list A) : Fits.stretch (length l) l = Some l.
Proof. unfold Fits.stretch. rewrite Nat.eqb_refl. reflexivity. Qed.

Lemma stretch_rows w (d : image) :
  Forall (fun row => length row = w) d -> mapM (Fits.stretch w) d = Some d.
Proof.
  intros H. apply mapM_Some_2.
  induction H as [|row d Hrow _ IH]; constructor; [|exact IH].
  rewrite <- Hrow. apply stretch_same.
Qed.

Lemma cast_small (d : image) :
  Forall (Forall (fun x => (Z.abs x < 2 ^ 24)%Z)) d ->
  Fits.cast Fits.float32 (Fits.cast Fits.float64 d) = d.
Proof.
  unfold Fits.cast. induction 1 as [|row d Hrow _ IH]; [reflexivity|].
  cbn. f_equal; [|exact IH].
  induction Hrow as [|x row Hx _ IHrow]; [reflexivity|].
  cbn. f_equal; [|exact IHrow].
  unfold Fits.float32, Fits.float64.
  rewrite (round_to_small 53 x); [apply round_to_small; lia | lia |].
  eapply Z.lt_trans; [exact Hx|]. apply Z.pow_lt_mono_r; lia.
Qed.

(** A plane of the shape of the slot whose pixel values are below 2^24 in
    magnitude is held by a chop buffer as the file has it. *)
Lemma held_plain slot h d :
  hdu_data h = Some d ->
  length d = fst slot ->
  Forall (fun row => length row = snd slot) d ->
  Forall (Forall (fun x => (Z.abs x < 2 ^ 24)%Z)) d ->
  held slot h = Some d.
Proof.
  intros Hd Hrows Hcols Hsmall. unfold held, read. rewrite Hd. cbn.
  unfold Fits.broadcast. rewrite (stretch_rows _ _ Hcols). cbn.
  rewrite <- Hrows, stretch_same. cbn.
  rewrite (cast_small _ Hsmall). reflexivity.
Qed.

(** What [open_fit] returns as chop A and chop B: the planes tagged HCYCLE1
    and the planes tagged HCYCLE2 as the buffers hold them, in the order of
    the file, less those whose first pixel is zero. The planes are trimmed
    by their content, not by the number of planes written. *)
Lemma open_fit_buffers (m : self) location image_file hdul number st
    chopa chopb nod header shape st' :
  open_fit m location image_file hdul number st
  = (Ok (chopa, chopb, nod, header, shape), st') ->
  chopa = List.filter lit (stored "HCYCLE1" hdul)
  /\ chopb = List.filter lit (stored "HCYCLE2" hdul).
Proof.
  unfold open_fit. intros H. bind_inv H.
  apply bind_ok in H as (hdu1 & st_1 & Ehdu1 & H).
  apply bind_ok in H as (image & st_2 & Eimage & H).
  do 7 bind_inv H.
  assert (slot_of hdul = Fits.shape image) as Hslot.
  { unfold slot_of. unfold hdu_at in Ehdu1. unfold data_of in Eimage.
    destruct (hdul !! 1) as [h1|]; [|discriminate].
    injection Ehdu1 as <- <-. cbn.
    destruct (hdu_data h1); [|discriminate].
    injection Eimage as <- <-. reflexivity. }
  set (slot := Fits.shape image) in *.
  apply bind_ok in H as (images & st_r & Eread & H).
  apply bind_ok in H as (bufs & st_c & Eclass & H).
  apply bind_ok in H as (kept_a & st_a & Etrim_a & H).
  apply bind_ok in H as (kept_b & st_b & Etrim_b & H).
  do 2 bind_inv H.
  destruct x5; [|discriminate]. injection H as <- <- _ _ _ _.
  apply read_images_ok in Eread as [Hlen Hall].
  pose proof (Forall2_length _ _ _ Hall) as Hlen'. rewrite Hlen in Hlen'.
  apply (classify_ok _ _ (Fits.zeros (fst slot) (snd slot)) _ _ _ _ _ _
           [] [] (length hdul - 2) (length hdul - 2)) in Eclass;
    try reflexivity; try lia.
  destruct Eclass as [Ha Hb].
  rewrite drop_0, (take_ge images) in Ha, Hb by lia.
  change (0 + 1) with 1 in Ha, Hb.
  apply held_of_read in Hall.
  rewrite (pick_tagged (held slot) "HCYCLE1" _ _ Hall) in Ha.
  rewrite (pick_tagged (held slot) "HCYCLE2" _ _ Hall) in Hb.
  cbn [app] in Ha, Hb.
  apply trim_ok in Etrim_a as (Hh & Hw & ->).
  apply trim_ok in Etrim_b as (_ & _ & ->).
  rewrite Ha, Hb, !List.filter_app, !filter_lit_zeros, !app_nil_r by assumption.
  unfold stored, frame_sections, frame_count. rewrite Hslot.
  split; reflexivity.
Qed.

(** When no stored plane of a file has a zero first pixel, the two buffers
    hold exactly the planes of their chop tag. *)
Lemma open_fit_buffers_lit (m : self) location image_file hdul number st
    chopa chopb nod header shape st' :
  open_fit m location image_file hdul number st
  = (Ok (chopa, chopb, nod, header, shape), st') ->
  Forall (fun d => lit d = true) (stored "HCYCLE1" hdul) ->
  Forall (fun d => lit d = true) (stored "HCYCLE2" hdul) ->
  chopa = stored "HCYCLE1" hdul /\ chopb = stored "HCYCLE2" hdul.
Proof.
  intros H Ha Hb. apply open_fit_buffers in H as [-> ->].
  assert (forall l, Forall (fun d => lit d = true) l -> List.filter lit l = l)
    as Hall.
  { induction 1 as [|d l Hd _ IH]; cbn; [reflexivity|].
    rewrite Hd, IH. reflexivity. }
  rewrite !Hall by assumption. split; reflexivity.
Qed.

(** C3 (the code departs from the claim): the chop-A frame of the file
    holds the pixels 0 and 7. It is written into the chop-A buffer, and the
    trimming, which looks at the first pixel of each plane, removes it with
    the planes that were never written: chop A comes back empty, and the two
    chop positions are reported as unequal. *)
Theorem C3_written_frame_with_zero_corner_is_trimmed :
  hdu_data <$> Sample.dark_corner !! 1 = Some (Some [[0%Z; 7%Z]])
  /\ has_cycle "HCYCLE1" <$> Sample.dark_corner !! 1 = Some true
  /\ exists header st',
       open_fit Sample.default_near "im_in/" "a.fits" Sample.dark_corner 0
         fresh
       = (Ok ([], [[[3%Z; 4%Z]]], VStr "A", header, [2; 1; 2]), st')
       /\ warned st' = [ChopUnequal].
Proof.
  split; [reflexivity|]. split; [reflexivity|].
  eexists _, _. split; vm_compute; reflexivity.
Qed.

(** ** Decompression in batches *)

Import Uncompress.

Lemma ceil_div_above (n c i : Z) :
  (0 < c)%Z -> (i < ceil_div n c)%Z <-> (c * i < n)%Z.
Proof.
  intros Hc. unfold ceil_div.
  pose proof (Z.mod_pos_bound (- n) c Hc) as Hr.
  pose proof (Z.div_mod (- n) c ltac:(lia)) as Hd.
  split; intros H; nia.
Qed.

Lemma range_spec (k i : Z) : i ∈ range k <-> (0 <= i < k)%Z.
Proof.
  unfold range. rewrite list_elem_of_fmap. split.
  - intros (j & -> & Hj). apply list_elem_of_In, in_seq in Hj. lia.
  - intros H. exists (Z.to_nat i). split; [lia|].
    apply list_elem_of_In, in_seq. lia.
Qed.

(** A batch is a run of at most [cpu] files that starts at position
    [cpu * i]; it is shorter than that when [no_files + 1 - 2 * cpu * i] is. *)
Lemma chunk_take_drop (cpu : Z) (files : list string) (i : Z) :
  (0 < cpu)%Z -> (0 <= i)%Z ->
  exists len,
    chunk cpu files i = take len (drop (Z.to_nat (cpu * i)) files)
    /\ len <= Z.to_nat cpu
    /\ (Z.of_nat len
        <= Z.max 0 (Z.of_nat (length files) + 1 - 2 * (cpu * i)))%Z.
Proof.
  intros Hc Hi. unfold chunk, slice, last_file.
  set (n := Z.of_nat (length files)).
  assert (0 <= cpu * i)%Z as Hci by nia.
  set (ci := (cpu * i)%Z) in *.
  replace (cpu * (i + 1))%Z with (ci + cpu)%Z by (unfold ci; ring).
  destruct (Z.ltb_spec ci 0) as [?|_]; [lia|].
  destruct (Z.le_gt_cases n ci) as [Hout|Hin].
  - exists 0. rewrite take_0.
    replace (Z.min ci n) with n by lia.
    rewrite (drop_ge files (Z.to_nat n)) by (unfold n; lia).
    rewrite take_nil. split; [reflexivity|]. lia.
  - set (stop := Z.min (ci + cpu) (Z.min (n + 1 - ci) n)).
    destruct (Z.ltb_spec stop 0) as [?|_]; [unfold stop in *; lia|].
    exists (Z.to_nat (Z.min stop n - Z.min ci n)).
    replace (Z.min ci n) with ci by lia.
    split; [reflexivity|]. unfold stop. lia.
Qed.

Lemma batches_of_events (f : Z -> list string) (total : Z) (l : list Z) :
  batches_of (flat_map (fun i => [Progress i total; Batch (f i)]) l)
  = map f l.
Proof.
  unfold batches_of. induction l as [|i l IH]; cbn; [reflexivity|].
  f_equal. exact IH.
Qed.

(** The batches of a listing with compressed files, for a number of workers
    other than zero. *)
Lemma batches_eq (cpu : Z) im_dir listing :
  cpu <> 0%Z ->
  batches cpu im_dir listing
  = let files := files_compressed (join_empty im_dir) listing in
    match files with
    | [] => []
    | _ => map (chunk cpu files)
             (range (ceil_div (Z.of_nat (length files)) cpu))
    end.
Proof.
  intros Hc. unfold batches, uncompress. cbn zeta.
  destruct (files_compressed (join_empty im_dir) listing) as [|f files] eqn:E;
    [reflexivity|].
  destruct (Z.eqb_spec cpu 0) as [?|_]; [contradiction|].
  cbn [batches_of omap list_omap].
  apply (batches_of_events (chunk cpu (f :: files))).
Qed.

(** X1. No batch holds more files than there are workers. *)
Theorem uncompress_batch_size (cpu : Z) im_dir listing :
  (0 < cpu)%Z ->
  Forall (fun batch => length batch <= Z.to_nat cpu)
    (batches cpu im_dir listing).
Proof.
  intros Hc. rewrite batches_eq by lia. cbn zeta.
  destruct (files_compressed (join_empty im_dir) listing) as [|f files];
    [constructor|].
  apply Forall_forall. intros batch Hin.
  apply list_elem_of_fmap in Hin as (i & -> & Hi).
  apply range_spec in Hi.
  destruct (chunk_take_drop cpu (f :: files) i Hc ltac:(lia))
    as (len & -> & Hlen & _).
  rewrite length_take. lia.
Qed.

Lemma uncompress_batch_size_witness :
  Forall (fun batch => length batch <= Z.to_nat 2)
    (batches 2 "im_in" Sample2.listing).
Proof. apply uncompress_batch_size. reflexivity. Defined.

(** X2. When the compressed files are no more than the workers, they all go
    into one batch, in the order of the listing. *)
Theorem uncompress_single_batch (cpu : Z) im_dir listing :
  files_compressed (join_empty im_dir) listing <> [] ->
  (Z.of_nat (length (files_compressed (join_empty im_dir) listing)) <= cpu)%Z ->
  batches cpu im_dir listing
  = [files_compressed (join_empty im_dir) listing].
Proof.
  intros Hne Hle.
  set (files := files_compressed (join_empty im_dir) listing) in *.
  assert (0 < Z.of_nat (length files))%Z as Hn
      by (destruct files; [contradiction | cbn; lia]).
  rewrite batches_eq by lia. cbn zeta. fold files.
  destruct files as [|f rest] eqn:E; [contradiction|]. rewrite <- E in *.
  set (n := Z.of_nat (length files)) in *.
  assert (ceil_div n cpu = 1%Z) as ->.
  { pose proof (ceil_div_above n cpu 0 ltac:(lia)).
    pose proof (ceil_div_above n cpu 1 ltac:(lia)). lia. }
  change (range 1) with [0%Z]. cbn [map]. f_equal.
  unfold chunk, slice, last_file. fold n. rewrite Z.mul_0_r.
  cbn [Z.ltb Z.compare].
  replace (Z.min (cpu * (0 + 1)) (Z.min (n + 1 - 0) n)) with n by lia.
  destruct (Z.ltb_spec n 0) as [?|_]; [lia|].
  replace (Z.to_nat (Z.min n n - Z.min 0 n)) with (length files)
    by (unfold n; lia).
  replace (Z.to_nat (Z.min 0 n)) with 0 by lia.
  rewrite drop_0. apply take_ge. lia.
Qed.

Lemma uncompress_single_batch_witness :
  batches 3 "im_in" Sample2.listing
  = [files_compressed (join_empty "im_in") Sample2.listing].
Proof.
  apply uncompress_single_batch.
  - vm_compute. discriminate.
  - vm_compute. discriminate.
Defined.

(** Runs that start [c] apart and are at most [c] long, put one after the
    other, pick elements of the list in their order. *)
Lemma runs_sublist {A} (g : list A) (c : nat) (f : nat -> list A) k a :
  (forall i, a <= i < a + k ->
             exists len, len <= c /\ f i = take len (drop (c * i) g)) ->
  concat (map f (seq a k)) `sublist_of` drop (c * a) g.
Proof.
  revert a. induction k as [|k IH]; intros a H; cbn.
  - apply sublist_nil_l.
  - rewrite <- (take_drop c (drop (c * a) g)). apply sublist_app.
    + destruct (H a ltac:(lia)) as (len & Hlen & ->).
      rewrite <- (Nat.min_l len c Hlen), <- take_take. apply sublist_take.
    + rewrite drop_drop. replace (c * a + c) with (c * S a) by lia.
      apply IH. intros i Hi. apply H. lia.
Qed.

Lemma runs_sublist_all {A} (g : list A) (c : nat) (f : nat -> list A) k :
  (forall i, i < k ->
             exists len, len <= c /\ f i = take len (drop (c * i) g)) ->
  concat (map f (seq 0 k)) `sublist_of` g.
Proof.
  intros H. pose proof (runs_sublist g c f k 0) as Hs.
  rewrite Nat.mul_0_r, drop_0 in Hs. apply Hs.
  intros i Hi. apply H. lia.
Qed.

Lemma range_map {A} (f : Z -> A) (k : Z) :
  map f (range k) = map (fun i : nat => f (Z.of_nat i)) (seq 0 (Z.to_nat k)).
Proof. unfold range. apply map_map. Qed.

(** X3. The batches take the compressed files in the order of the listing
    and from positions that do not overlap: what is handed to the workers is
    a sublist of the compressed files, so no file is handed out twice. *)
Theorem uncompress_batches_in_order (cpu : Z) im_dir listing :
  (0 < cpu)%Z ->
  concat (batches cpu im_dir listing)
    `sublist_of` files_compressed (join_empty im_dir) listing
  /\ (NoDup (files_compressed (join_empty im_dir) listing) ->
      NoDup (concat (batches cpu im_dir listing))).
Proof.
  intros Hc.
  assert (concat (batches cpu im_dir listing)
            `sublist_of` files_compressed (join_empty im_dir) listing) as Hsub.
  { rewrite batches_eq by lia. cbn zeta.
    set (files := files_compressed (join_empty im_dir) listing).
    destruct files as [|f rest] eqn:E; [apply sublist_nil_l|].
    rewrite <- E. rewrite range_map.
    apply (runs_sublist_all files (Z.to_nat cpu)). intros i Hi.
    destruct (chunk_take_drop cpu files (Z.of_nat i) Hc ltac:(lia))
      as (len & Hchunk & Hlen & _).
    exists len. split; [exact Hlen|]. rewrite Hchunk. do 2 f_equal. lia. }
  split; [exact Hsub|]. intros Hnd. exact (sublist_NoDup _ _ Hnd Hsub).
Qed.

Lemma uncompress_batches_in_order_witness :
  concat (batches 2 "im_in" Sample2.listing)
    `sublist_of` files_compressed (join_empty "im_in") Sample2.listing
  /\ (NoDup (files_compressed (join_empty "im_in") Sample2.listing) ->
      NoDup (concat (batches 2 "im_in" Sample2.listing))).
Proof. apply uncompress_batches_in_order. reflexivity. Defined.

(** X4. When the compressed files outnumber the workers, the batches leave
    files out: fewer files are handed to the workers than the listing holds
    (one worker and two files apart). The bound [no_files + 1 - cpu * i] cuts
    every batch after the first short. *)
Theorem uncompress_leaves_files_out (cpu : Z) im_dir listing :
  (0 < cpu)%Z ->
  (cpu < Z.of_nat (length (files_compressed (join_empty im_dir) listing)))%Z ->
  (2 <= cpu)%Z
  \/ 3 <= length (files_compressed (join_empty im_dir) listing) ->
  length (concat (batches cpu im_dir listing))
  < length (files_compressed (join_empty im_dir) listing).
Proof.
  intros Hc Hlt Hbig. rewrite batches_eq by lia. cbn zeta.
  set (files := files_compressed (join_empty im_dir) listing) in *.
  destruct files as [|f rest] eqn:E; [cbn in Hlt; lia|]. rewrite <- E in *.
  set (n := length files) in *.
  assert (concat (map (chunk cpu files) (range (ceil_div (Z.of_nat n) cpu)))
            `sublist_of` take (n - 1) files) as Hsub.
  { rewrite range_map.
    apply (runs_sublist_all (take (n - 1) files) (Z.to_nat cpu)). intros i Hi.
    assert (Z.of_nat i < ceil_div (Z.of_nat n) cpu)%Z as Hrange by lia.
    apply ceil_div_above in Hrange; [|exact Hc].
    destruct (chunk_take_drop cpu files (Z.of_nat i) Hc ltac:(lia))
      as (len & Hchunk & Hlen & Hshort). fold n in Hshort.
    exists len. split; [exact Hlen|]. rewrite Hchunk.
    replace (Z.to_nat (cpu * Z.of_nat i)) with (Z.to_nat cpu * i) by nia.
    rewrite !take_drop_commute, take_take. do 2 f_equal.
    assert (Z.to_nat cpu * i + len <= n - 1); [|lia].
    destruct (Nat.eq_dec i 0) as [->|Hi0]; [lia|].
    assert (Z.of_nat (Z.to_nat cpu * i) = cpu * Z.of_nat i)%Z as Hci by nia.
    assert (cpu <= cpu * Z.of_nat i)%Z by nia.
    destruct Hbig as [Hbig|Hbig]; [lia|].
    destruct (Z.eq_dec cpu 1%Z) as [->|]; lia. }
  apply sublist_length in Hsub. rewrite length_take in Hsub.
  assert (0 < n) by (unfold n; rewrite E; cbn; lia). lia.
Qed.

Lemma uncompress_leaves_files_out_witness :
  length (concat (batches 2 "im_in" Sample2.listing))
  < length (files_compressed (join_empty "im_in") Sample2.listing).
Proof.
  apply uncompress_leaves_files_out.
  - reflexivity.
  - vm_compute. reflexivity.
  - left. discriminate.
Defined.

(** ** Initialisation: which configurations pass *)

Lemma not_distinct_same_tag (m : self) :
  ~ NoDup [tag_1 m; tag_2 m; tag_3 m; tag_4 m] ->
  exists j k, j <> k /\ tag_of m j = tag_of m k.
Proof.
  intros Hnd.
  destruct (decide (tag_1 m = tag_2 m)) as [E|N12];
    [exists P1, P2; split; [discriminate | exact E]|].
  destruct (decide (tag_1 m = tag_3 m)) as [E|N13];
    [exists P1, P3; split; [discriminate | exact E]|].
  destruct (decide (tag_1 m = tag_4 m)) as [E|N14];
    [exists P1, P4; split; [discriminate | exact E]|].
  destruct (decide (tag_2 m = tag_3 m)) as [E|N23];
    [exists P2, P3; split; [discriminate | exact E]|].
  destruct (decide (tag_2 m = tag_4 m)) as [E|N24];
    [exists P2, P4; split; [discriminate | exact E]|].
  destruct (decide (tag_3 m = tag_4 m)) as [E|N34];
    [exists P3, P4; split; [discriminate | exact E]|].
  exfalso. apply Hnd.
  repeat (apply NoDup_cons; split;
          [rewrite ?elem_of_cons, elem_of_nil; tauto|]).
  constructor.
Qed.

(** X5. [_initialize] passes exactly the configurations with four
    different tags, a scheme 'ABBA' or 'ABAB' and boolean flags. For these it
    deletes the data and the attributes of the four ports and changes
    nothing else; for all others it raises [ValueError] and changes
    nothing. *)
Theorem initialize_accepts_exactly_well_configured (m : self) st :
  (well_configured m -> _initialize m st = (Ok tt, initialized st))
  /\ (~ well_configured m ->
      exists msg, _initialize m st = (Raise (ValueError msg), st)).
Proof.
  split.
  - intros (Hnd & Hs & Hc & Ho). unfold _initialize.
    rewrite (bind_eq _ _ _ _ _ (check_tags_ok _ ∅ st Hnd ltac:(set_solver))).
    assert (negb (Py.eqb (m_scheme m) (VStr "ABBA"))
            && negb (Py.eqb (m_scheme m) (VStr "ABAB")) = false) as ->.
    { destruct Hs as [-> | ->]; reflexivity. }
    rewrite Hc, Ho. reflexivity.
  - intros Hbad. apply initialize_fault.
    destruct (decide (NoDup [tag_1 m; tag_2 m; tag_3 m; tag_4 m]))
      as [Hnd|Hnd]; [|left; apply not_distinct_same_tag, Hnd].
    right.
    destruct (decide (m_scheme m = VStr "ABBA")) as [Ha|Ha].
    2:{ destruct (decide (m_scheme m = VStr "ABAB")) as [Hb|Hb];
          [|left; split; assumption].
        destruct (Py.is_bool (m_check m)) eqn:Hc; [|right; left; reflexivity].
        destruct (Py.is_bool (m_overwrite m)) eqn:Ho;
          [|right; right; reflexivity].
        exfalso. apply Hbad. repeat split; auto. }
    destruct (Py.is_bool (m_check m)) eqn:Hc; [|right; left; reflexivity].
    destruct (Py.is_bool (m_overwrite m)) eqn:Ho;
      [|right; right; reflexivity].
    exfalso. apply Hbad. repeat split; auto.
Qed.

Lemma initialize_accepts_witness :
  _initialize Sample.default_near Sample.used
  = (Ok tt, initialized Sample.used)
  /\ exists msg,
       _initialize Sample.same_tags Sample.used
       = (Raise (ValueError msg), Sample.used).
Proof.
  split.
  - apply (proj1 (initialize_accepts_exactly_well_configured
                    Sample.default_near Sample.used)).
    repeat split; try reflexivity; [|left; reflexivity].
    apply (bool_decide_unpack _). vm_compute. exact I.
  - apply (proj2 (initialize_accepts_exactly_well_configured
                    Sample.same_tags Sample.used)).
    intros (Hnd & _). apply NoDup_cons in Hnd as [Hin _].
    apply Hin. left.
Defined.

(** ** check_header *)

Lemma check_header_ok (head : Fits.header) st st' :
  check_header head st = (Ok tt, st') ->
  exists chop_st cycskip cycsum skipped,
    Fits.lookup "ESO DET CHOP ST" head = Some chop_st
    /\ Fits.lookup "ESO DET CHOP CYCSKIP" head = Some cycskip
    /\ Py.int cycskip = inr skipped
    /\ Fits.lookup "ESO DET CHOP CYCSUM" head = Some cycsum
    /\ st' = warn_all (header_warnings chop_st cycsum skipped) st.
Proof.
  unfold check_header. intros H.
  apply bind_ok in H as (v1 & s1 & E1 & H).
  apply getitem_ok in E1 as [L1 ->].
  apply bind_ok in H as ([] & s2 & W1 & H).
  apply bind_ok in H as (v2 & s3 & E2 & H).
  apply getitem_ok in E2 as [L2 ->].
  apply bind_ok in H as (k & s4 & E3 & H).
  apply lift_ok in E3 as [I2 ->].
  apply bind_ok in H as ([] & s5 & W2 & H).
  apply bind_ok in H as (v3 & s6 & E4 & W3).
  apply getitem_ok in E4 as [L3 ->].
  exists v1, v2, v3, k. repeat (split; [assumption|]).
  unfold header_warnings, warn_all.
  destruct (String.eqb (Py.str v1) "F");
    destruct (negb (k =? 0)%Z);
    destruct (String.eqb (Py.str v3) "T");
    unfold warn, modify, ret in W1, W2, W3; cbn in *; congruence.
Qed.

(** X6. [check_header] returns only for a header that holds the three chop
    keywords, the skipped-cycles value being a number; it then makes, in
    this order, the warning for chopping disabled ('F'), for skipped cycles
    (a number other than 0) and for averaged frames ('T'), and changes
    nothing else. A header without one of the keywords makes it raise. *)
Theorem check_header_reads_three_keywords (head : Fits.header) st :
  (forall st',
      check_header head st = (Ok tt, st') ->
      exists chop_st cycskip cycsum skipped,
        Fits.lookup "ESO DET CHOP ST" head = Some chop_st
        /\ Fits.lookup "ESO DET CHOP CYCSKIP" head = Some cycskip
        /\ Py.int cycskip = inr skipped
        /\ Fits.lookup "ESO DET CHOP CYCSUM" head = Some cycsum
        /\ st' = warn_all (header_warnings chop_st cycsum skipped) st)
  /\ (forall key,
        key ∈ chop_keywords -> Fits.lookup key head = None ->
        exists e st', check_header head st = (Raise e, st')).
Proof.
  split; [intros st'; apply check_header_ok|].
  intros key Hkey Hnone.
  destruct (check_header head st) as [[[]|e] st'] eqn:E; [|eauto].
  exfalso.
  destruct (check_header_ok _ _ _ E) as (v1 & v2 & v3 & k & L1 & L2 & _ & L3 & _).
  unfold chop_keywords in Hkey.
  repeat (apply elem_of_cons in Hkey as [->|Hkey]; [congruence|]).
  inversion Hkey.
Qed.

Lemma check_header_witness :
  (exists chop_st cycskip cycsum skipped,
      Fits.lookup "ESO DET CHOP ST" Sample.general = Some chop_st
      /\ Fits.lookup "ESO DET CHOP CYCSKIP" Sample.general = Some cycskip
      /\ Py.int cycskip = inr skipped
      /\ Fits.lookup "ESO DET CHOP CYCSUM" Sample.general = Some cycsum
      /\ fresh = warn_all (header_warnings chop_st cycsum skipped) fresh)
  /\ exists e st', check_header [] fresh = (Raise e, st').
Proof.
  split.
  - apply (proj1 (check_header_reads_three_keywords Sample.general fresh)).
    reflexivity.
  - apply (proj2 (check_header_reads_three_keywords [] fresh)
             "ESO DET CHOP CYCSUM").
    + vm_compute. do 2 right. left.
    + reflexivity.
Defined.

(** ** open_fit: what a file must hold, and what is reported *)

Lemma read_images_shapes hdul slot first count st images st' :
  read_images hdul slot first count st = (Ok images, st') ->
  Forall (fun h => exists d,
              hdu_data h = Some d /\ is_Some (Fits.broadcast slot d))
    (take count (drop first hdul)).
Proof.
  revert first st images st'. induction count as [|count IH];
    intros first st images st'; cbn.
  - intros _. rewrite take_0. constructor.
  - intros H. apply bind_ok in H as (h & st1 & E1 & H).
    apply bind_ok in H as (d & st2 & E2 & H).
    destruct (Fits.broadcast slot d) as [wide|] eqn:Hwide; [|discriminate].
    apply bind_ok in H as (rest & st3 & E3 & H).
    unfold hdu_at in E1. destruct (hdul !! first) as [h'|] eqn:Hh;
      [|discriminate]. injection E1 as -> <-.
    unfold data_of in E2. destruct (hdu_data h) as [d'|] eqn:Hd;
      [|discriminate]. injection E2 as -> <-.
    rewrite (drop_S _ _ _ Hh). cbn. constructor.
    + exists d. rewrite Hwide. split; [exact Hd | eexists; reflexivity].
    + eapply IH. exact E3.
Qed.

Lemma stretch_length {A} n (l l' : list A) :
  Fits.stretch n l = Some l' -> length l = n \/ length l = 1.
Proof.
  unfold Fits.stretch. destruct (length l =? n)%nat eqn:E.
  - apply Nat.eqb_eq in E. auto.
  - destruct l as [|x [|y l]]; try discriminate. auto.
Qed.

(** A plane that can be stored in a slot with at least one row has, along
    each axis, the length of the slot or length 1. *)
Lemma broadcast_shape h w d :
  h <> 0 -> is_Some (Fits.broadcast (h, w) d) ->
  (fst (Fits.shape d) = h \/ fst (Fits.shape d) = 1)
  /\ (snd (Fits.shape d) = w \/ snd (Fits.shape d) = 1).
Proof.
  intros Hh [wide Hwide]. unfold Fits.broadcast in Hwide. cbn in Hwide.
  destruct (mapM (Fits.stretch w) d) as [rows|] eqn:Hrows; [|discriminate].
  cbn in Hwide. pose proof (length_mapM _ _ _ Hrows) as Hlen.
  apply stretch_length in Hwide. rewrite <- Hlen in Hwide.
  split; [exact Hwide|].
  destruct d as [|row d]; [cbn in Hwide; lia|].
  cbn in Hrows. destruct (Fits.stretch w row) as [row'|] eqn:Hrow;
    [|discriminate].
  apply stretch_length in Hrow. exact Hrow.
Qed.

Lemma has_cycle_mem cycle h :
  has_cycle cycle h = true ->
  Fits.mem "HIERARCH ESO DET FRAM TYPE" (hdu_header h) = true.
Proof.
  unfold has_cycle, Fits.mem.
  destruct (Fits.lookup _ (hdu_header h)); [reflexivity | discriminate].
Qed.

(** The classification loop returns only if every section it visits holds
    the chop keyword, and it warns of the sections whose tag is neither of
    the two half cycles, naming their position. *)
Lemma classify_reports hdul images first count bufs st bufs' st' :
  classify hdul images first count bufs st = (Ok bufs', st') ->
  length (take count (drop (first + 1) hdul)) = count
  /\ Forall (fun h => Fits.mem "HIERARCH ESO DET FRAM TYPE" (hdu_header h)
                      = true)
       (take count (drop (first + 1) hdul))
  /\ warned st'
     = warned st
       ++ map ChopUnknown
            (positions_where other_tag first
               (take count (drop (first + 1) hdul))).
Proof.
  revert first bufs st. induction count as [|count IH];
    intros first bufs st; cbn.
  - intros [= <- <-]. rewrite take_0. cbn. rewrite app_nil_r.
    repeat split. constructor.
  - intros H. apply bind_ok in H as (bufs1 & st1 & E & H).
    unfold classify_frame in E.
    apply bind_ok in E as (h & st2 & Eh & E).
    apply bind_ok in E as (cycle & st3 & Ec & E).
    apply bind_ok in E as (plane & st4 & Ep & E).
    unfold hdu_at in Eh. destruct (hdul !! (first + 1)) as [h'|] eqn:Hh;
      [|discriminate]. injection Eh as -> <-.
    apply getitem_ok in Ec as [Hc ->].
    destruct (images !! first) as [plane'|]; [|discriminate].
    injection Ep as <- <-.
    apply (IH (S first)) in H as (Hlen & Hkeys & Hwarn).
    change (S first + 1) with (S (first + 1)) in Hlen, Hkeys, Hwarn.
    rewrite (drop_S _ _ _ Hh). cbn [take length positions_where].
    assert (Fits.mem "HIERARCH ESO DET FRAM TYPE" (hdu_header h) = true)
      as Hmem by (unfold Fits.mem; rewrite Hc; reflexivity).
    split; [cbn; congruence|]. split; [constructor; assumption|].
    rewrite Hwarn. unfold other_tag.
    rewrite !(has_cycle_of h cycle) by exact Hc.
    destruct (Py.eqb cycle (VStr "HCYCLE1")) eqn:E1.
    + injection E as <- <-. reflexivity.
    + destruct (Py.eqb cycle (VStr "HCYCLE2")) eqn:E2.
      * injection E as <- <-. reflexivity.
      * apply bind_ok in E as ([] & st5 & Ew & E). injection E as <- <-.
        apply modify_ok in Ew as ->.
        cbn. rewrite <- app_assoc. reflexivity.
Qed.

(** What a call of [open_fit] that returns tells about the file. *)
Lemma open_fit_requires (m : self) location image_file hdul number st
    chopa chopb nod header shape st' :
  open_fit m location image_file hdul number st
  = (Ok (chopa, chopb, nod, header, shape), st') ->
  2 <= length hdul
  /\ exists h w,
       shape = [frame_count hdul; h; w] /\ h <> 0 /\ w <> 0
       /\ slot_of hdul = (h, w)
       /\ Forall
            (fun section =>
               Fits.mem "HIERARCH ESO DET FRAM TYPE" (hdu_header section)
               = true
               /\ exists d,
                    hdu_data section = Some d
                    /\ is_Some (Fits.broadcast (h, w) d))
            (frame_sections hdul).
Proof.
  unfold open_fit. intros H. bind_inv H.
  apply bind_ok in H as (hdu1 & st_1 & Ehdu1 & H).
  apply bind_ok in H as (image & st_2 & Eimage & H).
  do 5 bind_inv H.
  apply bind_ok in H as (nod_found & st_n & Enod & H).
  bind_inv H.
  assert (slot_of hdul = Fits.shape image) as Hslot.
  { unfold slot_of. unfold hdu_at in Ehdu1. unfold data_of in Eimage.
    destruct (hdul !! 1) as [h1|]; [|discriminate].
    injection Ehdu1 as <- <-. cbn.
    destruct (hdu_data h1); [|discriminate].
    injection Eimage as <- <-. reflexivity. }
  set (slot := Fits.shape image) in *.
  apply bind_ok in H as (images & st_r & Eread & H).
  apply bind_ok in H as (bufs & st_c & Eclass & H).
  apply bind_ok in H as (kept_a & st_a & Etrim_a & H).
  do 3 bind_inv H.
  destruct nod_found; [|discriminate]. injection H as _ _ _ _ <-.
  split.
  { unfold hdu_at in Ehdu1. destruct (hdul !! 1) eqn:Hsecond; [|discriminate].
    apply lookup_lt_Some in Hsecond. lia. }
  exists (fst slot), (snd slot). split; [reflexivity|].
  apply trim_ok in Etrim_a as (Hh & Hw & _).
  split; [exact Hh|]. split; [exact Hw|].
  split; [rewrite Hslot; destruct slot; reflexivity|].
  apply read_images_shapes in Eread.
  apply classify_reports in Eclass as (_ & Hkeys & _).
  change (0 + 1) with 1 in Hkeys. unfold frame_sections, frame_count.
  rewrite Forall_forall in *. intros section Hin. split; [auto|].
  destruct (Eread section Hin) as (d & Hd & Hs). exists d.
  split; [exact Hd | destruct slot; exact Hs].
Qed.

(** X7. [open_fit] returns only for a file with at least two sections whose
    first frame has neither zero rows nor zero columns and whose frame
    sections all hold the chop keyword and a plane that can be stored in a
    slot of the shape of the first frame: along each axis it is as long as
    the first frame or has length 1. The shape that is returned is the
    number of frame sections followed by the shape of the first frame. *)
Theorem open_fit_input_contract (m : self) location image_file hdul number st
    chopa chopb nod header shape st' :
  open_fit m location image_file hdul number st
  = (Ok (chopa, chopb, nod, header, shape), st') ->
  2 <= length hdul
  /\ exists h w,
       shape = [frame_count hdul; h; w] /\ h <> 0 /\ w <> 0
       /\ slot_of hdul = (h, w)
       /\ Forall
            (fun section =>
               Fits.mem "HIERARCH ESO DET FRAM TYPE" (hdu_header section)
               = true
               /\ exists d,
                    hdu_data section = Some d
                    /\ (fst (Fits.shape d) = h \/ fst (Fits.shape d) = 1)
                    /\ (snd (Fits.shape d) = w \/ snd (Fits.shape d) = 1))
            (frame_sections hdul).
Proof.
  intros H. apply open_fit_requires in H as (Hlen & h & w & Hs & Hh & Hw
                                             & Hslot & Hall).
  split; [exact Hlen|]. exists h, w. repeat (split; [assumption|]).
  eapply Forall_impl; [exact Hall|].
  intros section (Hkey & d & Hd & Hfits).
  split; [exact Hkey|]. exists d. split; [exact Hd|].
  apply broadcast_shape; assumption.
Qed.

Lemma open_fit_input_contract_witness :
  2 <= length Sample2.stretched
  /\ exists h w,
       [2; 1; 2] = [frame_count Sample2.stretched; h; w] /\ h <> 0 /\ w <> 0
       /\ slot_of Sample2.stretched = (h, w)
       /\ Forall
            (fun section =>
               Fits.mem "HIERARCH ESO DET FRAM TYPE" (hdu_header section)
               = true
               /\ exists d,
                    hdu_data section = Some d
                    /\ (fst (Fits.shape d) = h \/ fst (Fits.shape d) = 1)
                    /\ (snd (Fits.shape d) = w \/ snd (Fits.shape d) = 1))
            (frame_sections Sample2.stretched).
Proof.
  eapply (open_fit_input_contract Sample.default_near "im_in/" "s.fits"
            Sample2.stretched 0 fresh).
  vm_compute. reflexivity.
Defined.

Lemma warned_warn_all ws st : warned (warn_all ws st) = warned st ++ ws.
Proof.
  unfold warn_all. revert st. induction ws as [|w ws IH]; intros st; cbn.
  - symmetry. apply app_nil_r.
  - rewrite IH. cbn. rewrite <- app_assoc. reflexivity.
Qed.

(** X8. The warnings of a call of [open_fit] that returns, all of them and
    in their order: the missing nod keyword (for the first file only), the
    three of [check_header], one for every frame section whose chop tag is
    neither half cycle, with its position, and one when the two trimmed
    buffers differ in length. *)
Theorem open_fit_warnings (m : self) location image_file hdul number st
    chopa chopb nod header shape st' :
  open_fit m location image_file hdul number st
  = (Ok (chopa, chopb, nod, header, shape), st') ->
  exists chop_st cycskip cycsum skipped,
    Fits.lookup "ESO DET CHOP ST" header = Some chop_st
    /\ Fits.lookup "ESO DET CHOP CYCSKIP" header = Some cycskip
    /\ Py.int cycskip = inr skipped
    /\ Fits.lookup "ESO DET CHOP CYCSUM" header = Some cycsum
    /\ warned st'
       = warned st
         ++ match Fits.lookup "ESO SEQ NODPOS" header with
            | Some _ => []
            | None => if (number =? 0)%nat
                      then [NodposMissing (m_scheme m)] else []
            end
         ++ header_warnings chop_st cycsum skipped
         ++ map ChopUnknown
              (positions_where other_tag 0 (frame_sections hdul))
         ++ (if (length chopa =? length chopb)%nat then []
             else [ChopUnequal]).
Proof.
  unfold open_fit. intros H.
  apply bind_ok in H as ([] & s1 & E1 & H). apply modify_ok in E1 as ->.
  apply bind_ok in H as (hdu1 & s2 & E2 & H).
  apply (keeps_elim warned) in E2 as W2; [|keeps_auto].
  apply bind_ok in H as (image & s3 & E3 & H).
  apply (keeps_elim warned) in E3 as W3; [|keeps_auto].
  apply bind_ok in H as (hdu0 & s4 & E4 & H).
  apply (keeps_elim warned) in E4 as W4; [|keeps_auto].
  apply bind_ok in H as (v1 & s5 & E5 & H).
  apply (keeps_elim warned) in E5 as W5; [|keeps_auto].
  apply bind_ok in H as (n1 & s6 & E6 & H).
  apply (keeps_elim warned) in E6 as W6; [|keeps_auto].
  apply bind_ok in H as (v2 & s7 & E7 & H).
  apply (keeps_elim warned) in E7 as W7; [|keeps_auto].
  apply bind_ok in H as (n2 & s8 & E8 & H).
  apply (keeps_elim warned) in E8 as W8; [|keeps_auto].
  apply bind_ok in H as (nod_found & s9 & Enod & H).
  apply bind_ok in H as ([] & s10 & Echeck & H).
  apply bind_ok in H as (images & s11 & Eread & H).
  apply (keeps_elim warned) in Eread as W11; [|apply read_images_keeps].
  apply bind_ok in H as (bufs & s12 & Eclass & H).
  apply bind_ok in H as (kept_a & s13 & Ea & H).
  apply (keeps_elim warned) in Ea as W13; [|apply trim_keeps].
  apply bind_ok in H as (kept_b & s14 & Eb & H).
  apply (keeps_elim warned) in Eb as W14; [|apply trim_keeps].
  apply bind_ok in H as ([] & s15 & Eunequal & H).
  apply bind_ok in H as ([] & s16 & Edump & H). apply modify_ok in Edump as ->.
  destruct nod_found; [|discriminate]. injection H as <- <- _ <- _ <-.
  apply check_header_ok in Echeck
    as (chop_st & cycskip & cycsum & skipped & L1 & L2 & I2 & L3 & ->).
  exists chop_st, cycskip, cycsum, skipped.
  repeat (split; [assumption|]).
  apply classify_reports in Eclass as (_ & _ & Wclass).
  change (0 + 1) with 1 in Wclass.
  fold (frame_count hdul) in Wclass. fold (frame_sections hdul) in Wclass.
  assert (warned s15
          = warned s14 ++ (if (length kept_a =? length kept_b)%nat then []
                           else [ChopUnequal])) as W15.
  { destruct (length kept_a =? length kept_b)%nat; cbn in Eunequal.
    - injection Eunequal as <-. symmetry. apply app_nil_r.
    - apply modify_ok in Eunequal as ->. reflexivity. }
  assert (warned s9
          = warned s8
            ++ match Fits.lookup "ESO SEQ NODPOS"
                       (Fits.insert 5 "NAXIS3"
                          (VInt (Z.of_nat (length hdul - 2)))
                          (Fits.insert 4 "NAXIS2" (VInt n2)
                             (Fits.insert 4 "NAXIS1" (VInt n1)
                                (Fits.insert 3 "NAXIS" (VInt 3)
                                   (Fits.update (hdu_header hdu0)
                                      (hdu_header hdu1))))))
               with
               | Some _ => []
               | None => if (number =? 0)%nat
                         then [NodposMissing (m_scheme m)] else []
               end) as W9.
  { unfold nod_of in Enod.
    destruct (Fits.lookup "ESO SEQ NODPOS" _).
    - injection Enod as _ <-. symmetry. apply app_nil_r.
    - destruct (number =? 0)%nat; cbn in Enod; injection Enod as _ <-.
      + reflexivity.
      + symmetry. apply app_nil_r. }
  change (warned (add_header_port
                    (String.append "fits_header/" image_file) _ s15))
    with (warned s15).
  rewrite W15, W14, W13, Wclass, W11, warned_warn_all, W9, W8, W7, W6, W5,
    W4, W3, W2.
  cbn [warned add_opened]. rewrite <- !app_assoc. reflexivity.
Qed.

Lemma open_fit_warnings_witness :
  exists chop_st cycskip cycsum skipped,
    Fits.lookup "ESO DET CHOP ST" Sample2.mixed_header = Some chop_st
    /\ Fits.lookup "ESO DET CHOP CYCSKIP" Sample2.mixed_header = Some cycskip
    /\ Py.int cycskip = inr skipped
    /\ Fits.lookup "ESO DET CHOP CYCSUM" Sample2.mixed_header = Some cycsum
    /\ warned Sample2.mixed_read
       = warned fresh
         ++ match Fits.lookup "ESO SEQ NODPOS" Sample2.mixed_header with
            | Some _ => []
            | None => if (0 =? 0)%nat
                      then [NodposMissing (m_scheme Sample.default_near)]
                      else []
            end
         ++ header_warnings chop_st cycsum skipped
         ++ map ChopUnknown
              (positions_where other_tag 0 (frame_sections Sample2.mixed))
         ++ (if (length [[[1%Z; 2%Z]]] =? length [[[3%Z; 4%Z]]])%nat then []
             else [ChopUnequal]).
Proof.
  apply (open_fit_warnings Sample.default_near "im_in/" "m.fits"
           Sample2.mixed 0 fresh [[[1%Z; 2%Z]]] [[[3%Z; 4%Z]]] (VStr "B")
           Sample2.mixed_header [3; 1; 2] Sample2.mixed_read).
  vm_compute. reflexivity.
Defined.

Lemma has_cycle_exclusive h :
  has_cycle "HCYCLE1" h = true -> has_cycle "HCYCLE2" h = false.
Proof.
  unfold has_cycle.
  destruct (Fits.lookup _ (hdu_header h)) as [v|]; [|discriminate].
  intros H. apply py_eqb_str in H as ->. reflexivity.
Qed.

Lemma sections_partition (sections : list hdu) i :
  Forall (fun h => exists d, hdu_data h = Some d) sections ->
  length sections
  = length (omap (fun h => if has_cycle "HCYCLE1" h then hdu_data h else None)
              sections)
    + length (omap (fun h => if has_cycle "HCYCLE2" h then hdu_data h
                             else None) sections)
    + length (positions_where other_tag i sections).
Proof.
  intros H. revert i. induction H as [|h sections [d Hd] _ IH]; intros i.
  - reflexivity.
  - cbn. rewrite length_app, (IH (S i)). unfold other_tag.
    destruct (has_cycle "HCYCLE1" h) eqn:E1.
    + rewrite (has_cycle_exclusive h E1), Hd. cbn. lia.
    + destruct (has_cycle "HCYCLE2" h); rewrite ?Hd; cbn; lia.
Qed.

(** In a file whose planes can all be stored, a buffer holds as many planes
    of a chop tag as the file has sections of that tag. *)
Lemma stored_length cycle hdul :
  Forall (fun h => exists d,
              hdu_data h = Some d
              /\ is_Some (Fits.broadcast (slot_of hdul) d))
    (frame_sections hdul) ->
  length (stored cycle hdul) = length (tagged cycle hdul).
Proof.
  unfold stored, tagged. generalize (slot_of hdul) as slot.
  intros slot H. induction H as [|h sections (d & Hd & [wide Hwide]) _ IH];
    [reflexivity|].
  cbn [omap list_omap]. destruct (has_cycle cycle h); [|exact IH].
  unfold held at 1. unfold read. rewrite Hd. cbn [mbind option_bind].
  rewrite Hwide. cbn [fmap option_fmap option_map length].
  rewrite IH. reflexivity.
Qed.

(** X9. Every frame section of a file that [open_fit] read is accounted for:
    it carries the first chop tag, or the second, or it is one of those
    reported for an unknown tag; and a trimmed buffer never holds more
    planes than there are frames of its tag. *)
Theorem open_fit_accounts_for_frames (m : self) location image_file hdul
    number st chopa chopb nod header shape st' :
  open_fit m location image_file hdul number st
  = (Ok (chopa, chopb, nod, header, shape), st') ->
  frame_count hdul
  = length (tagged "HCYCLE1" hdul) + length (tagged "HCYCLE2" hdul)
    + length (positions_where other_tag 0 (frame_sections hdul))
  /\ length chopa <= length (tagged "HCYCLE1" hdul)
  /\ length chopb <= length (tagged "HCYCLE2" hdul).
Proof.
  intros H.
  destruct (open_fit_requires _ _ _ _ _ _ _ _ _ _ _ _ H)
    as (Hlen & h & w & _ & _ & _ & Hslot & Hall).
  apply open_fit_buffers in H as [-> ->].
  assert (forall cycle, length (stored cycle hdul)
                        = length (tagged cycle hdul)) as Hstored.
  { intros cycle. apply stored_length. rewrite Hslot.
    eapply Forall_impl; [exact Hall|]. cbn. intros s (_ & Hd). exact Hd. }
  split; [|split; rewrite <- Hstored; apply List.filter_length_le].
  unfold tagged. rewrite <- sections_partition.
  - unfold frame_sections, frame_count. rewrite length_take, length_drop. lia.
  - eapply Forall_impl; [exact Hall|]. cbn. intros s (_ & d & Hd & _). eauto.
Qed.

Lemma open_fit_accounts_witness :
  frame_count Sample2.mixed
  = length (tagged "HCYCLE1" Sample2.mixed)
    + length (tagged "HCYCLE2" Sample2.mixed)
    + length (positions_where other_tag 0 (frame_sections Sample2.mixed))
  /\ length [[[1%Z; 2%Z]]] <= length (tagged "HCYCLE1" Sample2.mixed)
  /\ length [[[3%Z; 4%Z]]] <= length (tagged "HCYCLE2" Sample2.mixed).
Proof.
  apply (open_fit_accounts_for_frames Sample.default_near "im_in/" "m.fits"
           Sample2.mixed 0 fresh [[[1%Z; 2%Z]]] [[[3%Z; 4%Z]]] (VStr "B")
           Sample2.mixed_header [3; 1; 2] Sample2.mixed_read).
  vm_compute. reflexivity.
Defined.

Lemma open_fit_opened (m : self) location image_file hdul number st :
  opened (snd (open_fit m location image_file hdul number st))
  = opened st ++ [String.append location image_file].
Proof.
  unfold open_fit.
  set (rest := bind (hdu_at hdul 1) _).
  assert (keeps opened rest) as Hrest.
  { unfold rest, nod_of. keeps_auto;
      first [ apply check_header_keeps | apply read_images_keeps
            | apply classify_keeps | apply trim_keeps ]; reflexivity. }
  unfold bind at 1. unfold modify.
  specialize (Hrest (add_opened (String.append location image_file) st)).
  cbn beta in Hrest.
  destruct (rest _) as [[r|e] s1]; exact Hrest.
Qed.

(** X10. Whether it returns or raises, [open_fit] leaves the four ports,
    the frame counter and the standard output as they were, and records the
    path of the file as opened. *)
Theorem open_fit_touches_no_port (m : self) location image_file hdul number
    st :
  (forall k,
      get_port k (snd (open_fit m location image_file hdul number st))
      = get_port k st)
  /\ m_count (snd (open_fit m location image_file hdul number st))
     = m_count st
  /\ stdout (snd (open_fit m location image_file hdul number st)) = stdout st
  /\ opened (snd (open_fit m location image_file hdul number st))
     = opened st ++ [String.append location image_file].
Proof.
  split; [|split; [|split]].
  - intros k. apply (open_fit_keeps_port (fun p => p) k).
  - apply (open_fit_keeps m_count); reflexivity.
  - apply (open_fit_keeps stdout); reflexivity.
  - apply open_fit_opened.
Qed.

(** ** _extra_attributes for a routed file *)

Lemma routes_cases nod ka kb :
  routes nod = Some (ka, kb) ->
  (nod = VStr "A" /\ ka = P1 /\ kb = P2)
  \/ (nod = VStr "B" /\ ka = P3 /\ kb = P4).
Proof.
  unfold routes.
  destruct (Py.eqb nod (VStr "A")) eqn:EA.
  - apply py_eqb_str in EA. intros [= <- <-]. auto.
  - destruct (Py.eqb nod (VStr "B")) eqn:EB; [|discriminate].
    apply py_eqb_str in EB. intros [= <- <-]. auto.
Qed.

Lemma indexed_series l p name :
  Port.series (indexed l p) name
  = Port.series p name
    ++ (if String.eqb "INDEX" name
        then map (fun i => VInt (Z.of_nat i)) l else []).
Proof.
  unfold indexed. revert p.
  induction l as [|i l IH]; intros p; cbn [fold_left map].
  - destruct (String.eqb "INDEX" name); symmetry; apply app_nil_r.
  - rewrite IH, series_append.
    destruct (String.eqb "INDEX" name); rewrite <- app_assoc; reflexivity.
Qed.

Lemma indexed_data l p : Port.data (indexed l p) = Port.data p.
Proof.
  unfold indexed. revert p. induction l as [|i l IH]; intros p; cbn;
    [reflexivity | rewrite IH; reflexivity].
Qed.

Lemma indexed_static l p : Port.static (indexed l p) = Port.static p.
Proof.
  unfold indexed. revert p. induction l as [|i l IH]; intros p; cbn;
    [reflexivity | rewrite IH; reflexivity].
Qed.

(** The loop over the index values: each routed port gets every value, the
    rest of the state stays. *)
Lemma index_loop_effect nod ka kb l st :
  routes nod = Some (ka, kb) ->
  exists st',
    for_each l (index_item nod) st = (Ok tt, st')
    /\ (forall k,
          get_port k st'
          = if is_routed nod k then indexed l (get_port k st)
            else get_port k st)
    /\ m_count st' = m_count st
    /\ warned st' = warned st.
Proof.
  intros Hr. revert st. induction l as [|i l IH]; intros st; cbn.
  - exists st. split; [reflexivity|]. split; [|split; reflexivity].
    intros k. destruct (is_routed nod k); reflexivity.
  - destruct (routes_cases _ _ _ Hr) as [(-> & -> & ->)|(-> & -> & ->)].
    + destruct (IH (snd (index_item (VStr "A") i st)))
        as (st' & E & Hp & Hc & Hw).
      exists st'. split; [exact E|]. split; [|split; assumption].
      intros k. rewrite Hp. destruct k; reflexivity.
    + destruct (IH (snd (index_item (VStr "B") i st)))
        as (st' & E & Hp & Hc & Hw).
      exists st'. split; [exact E|]. split; [|split; assumption].
      intros k. rewrite Hp. destruct k; reflexivity.
Qed.

Lemma add_attribute_static name v p :
  Port.data p <> None ->
  Port.static (fst (Port.add_attribute name v p)) !! name = Some v.
Proof.
  destruct p as [[d|] s n f h c]; cbn; [|contradiction].
  intros _. apply lookup_insert_eq.
Qed.

Lemma add_attribute_run k name v st :
  exists st',
    add_attribute k name v st = (Ok tt, st')
    /\ (forall j,
          get_port j st'
          = if decide (j = k)
            then fst (Port.add_attribute name v (get_port k st))
            else get_port j st)
    /\ m_count st' = m_count st.
Proof.
  unfold add_attribute.
  rewrite (bind_eq (gets (get_port k)) _ st (get_port k st) st eq_refl).
  rewrite (bind_eq (modify _) _ st tt _ eq_refl).
  destruct (snd (Port.add_attribute name v (get_port k st)));
    (eexists; split; [reflexivity|]; split;
     [intros j; destruct j, k; reflexivity | destruct k; reflexivity]).
Qed.

(** The path and the pixel scale, given to the two routed ports. *)
Lemma files_block (ka kb : port_id) path v st :
  ka <> kb ->
  exists st',
    (on_port ka (Port.append_attribute_data "FILES" path) ;;;
     on_port kb (Port.append_attribute_data "FILES" path) ;;;
     add_attribute ka "PIXSCALE" v ;;;
     add_attribute kb "PIXSCALE" v) st = (Ok tt, st')
    /\ (forall k,
          get_port k st'
          = if decide (k = ka \/ k = kb)
            then fst (Port.add_attribute "PIXSCALE" v
                        (Port.append_attribute_data "FILES" path
                           (get_port k st)))
            else get_port k st)
    /\ m_count st' = m_count st.
Proof.
  intros Hne.
  set (s1 := set_port ka (Port.append_attribute_data "FILES" path
                            (get_port ka st)) st).
  set (s2 := set_port kb (Port.append_attribute_data "FILES" path
                            (get_port kb s1)) s1).
  destruct (add_attribute_run ka "PIXSCALE" v s2) as (s3 & E3 & P3' & C3).
  destruct (add_attribute_run kb "PIXSCALE" v s3) as (s4 & E4 & P4' & C4).
  exists s4. split.
  - rewrite (bind_eq (on_port ka _) _ st tt s1 eq_refl).
    rewrite (bind_eq (on_port kb _) _ s1 tt s2 eq_refl).
    rewrite (bind_eq _ _ _ _ _ E3). exact E4.
  - split.
    + intros k. rewrite P4', !P3'. unfold s2, s1. rewrite !get_set_port.
      destruct (decide (k = kb)) as [->|Hkb].
      * destruct (decide (kb = ka)); [congruence|].
        destruct (decide (kb = kb)); [|congruence].
        destruct (decide (kb = ka \/ kb = kb)); [reflexivity | tauto].
      * destruct (decide (k = ka)) as [->|Hka].
        -- destruct (decide (ka = ka)); [|congruence].
           destruct (decide (ka = kb)); [congruence|].
           destruct (decide (ka = ka \/ ka = kb)); [reflexivity | tauto].
        -- destruct (decide (k = ka \/ k = kb)); [tauto | reflexivity].
    + rewrite C4, C3. unfold s2, s1. destruct ka, kb; reflexivity.
Qed.

(** X11. For a file of nod 'A' or 'B', [_extra_attributes] returns; it
    gives the two ports of that nod the index values from the counter on,
    one per frame section and the same on both ports, the path of the file
    and, where the port holds data, the pixel scale; it leaves their frames
    and the other two ports as they were and advances the counter by the
    number of frame sections. *)
Theorem extra_attributes_routed (m : self) fits_file location nod n h w st
    ka kb :
  routes nod = Some (ka, kb) ->
  exists st',
    _extra_attributes m fits_file location [n; h; w] nod st = (Ok tt, st')
    /\ m_count st' = m_count st + n
    /\ (forall k,
          k = ka \/ k = kb ->
          Port.series (get_port k st') "INDEX"
          = Port.series (get_port k st) "INDEX"
            ++ map (fun i => VInt (Z.of_nat i)) (seq (m_count st) n)
          /\ Port.series (get_port k st') "FILES"
             = Port.series (get_port k st) "FILES"
               ++ [VStr (String.append location fits_file)]
          /\ Port.data (get_port k st') = Port.data (get_port k st)
          /\ (Port.data (get_port k st) <> None ->
              Port.static (get_port k st') !! "PIXSCALE" = Some (pixscale m)))
    /\ (forall k, k <> ka -> k <> kb -> get_port k st' = get_port k st).
Proof.
  intros Hr.
  destruct (index_loop_effect nod ka kb (seq (m_count st) n) st Hr)
    as (st1 & Eloop & Hports & Hcount & _).
  set (path := VStr (String.append location fits_file)).
  assert (ka <> kb) as Hne
      by (destruct (routes_cases _ _ _ Hr) as [(_ & -> & ->)|(_ & -> & ->)];
          discriminate).
  destruct (files_block ka kb path (pixscale m) st1 Hne)
    as (st2 & Eblock & Hports2 & Hcount2).
  exists (set_count (m_count st2 + n) st2). split.
  { unfold _extra_attributes. cbn [nimages_of length Nat.eqb head].
    rewrite (bind_eq (gets m_count) _ st (m_count st) st eq_refl).
    rewrite (bind_eq _ _ _ _ _ Eloop).
    fold path.
    destruct (routes_cases _ _ _ Hr) as [(-> & -> & ->)|(-> & -> & ->)];
      cbn [Py.eqb String.eqb Ascii.eqb Bool.eqb];
      rewrite (bind_eq _ _ _ _ _ Eblock); reflexivity. }
  split; [cbn; lia|].
  assert (forall k, is_routed nod k = bool_decide (k = ka \/ k = kb)) as Hrk.
  { intros k. unfold is_routed. rewrite Hr.
    destruct (decide (k = ka)) as [Ha|Ha];
      destruct (decide (k = kb)) as [Hb|Hb];
      rewrite ?(bool_decide_eq_true_2 _ Ha), ?(bool_decide_eq_true_2 _ Hb),
        ?(bool_decide_eq_false_2 _ Ha), ?(bool_decide_eq_false_2 _ Hb);
      [rewrite bool_decide_eq_true_2 by tauto
      |rewrite bool_decide_eq_true_2 by tauto
      |rewrite bool_decide_eq_true_2 by tauto
      |rewrite bool_decide_eq_false_2 by tauto]; reflexivity. }
  split.
  - intros k Hk.
    assert (get_port k (set_count (m_count st2 + n) st2)
            = fst (Port.add_attribute "PIXSCALE" (pixscale m)
                     (Port.append_attribute_data "FILES" path
                        (indexed (seq (m_count st) n) (get_port k st)))))
      as ->.
    { transitivity (get_port k st2); [destruct k; reflexivity|].
      rewrite Hports2, Hports, Hrk.
      destruct (decide (k = ka \/ k = kb)); [|contradiction].
      rewrite bool_decide_eq_true_2 by assumption. reflexivity. }
    rewrite !add_attribute_series, !series_append, !indexed_series,
      add_attribute_data.
    cbn [String.eqb Ascii.eqb Bool.eqb Port.data Port.append_attribute_data].
    rewrite !app_nil_r, indexed_data. repeat split.
    intros Hd. apply add_attribute_static. cbn. rewrite indexed_data.
    exact Hd.
  - intros k Ha Hb.
    transitivity (get_port k st2); [destruct k; reflexivity|].
    rewrite Hports2, Hports, Hrk.
    destruct (decide (k = ka \/ k = kb)); [tauto|].
    rewrite bool_decide_eq_false_2 by assumption. reflexivity.
Qed.

Lemma extra_attributes_routed_witness :
  exists st',
    _extra_attributes Sample.default_near "a.fits" "im_in/" [2; 1; 2]
      (VStr "B") Sample2.all_loaded = (Ok tt, st')
    /\ m_count st' = m_count Sample2.all_loaded + 2
    /\ (forall k,
          k = P3 \/ k = P4 ->
          Port.series (get_port k st') "INDEX"
          = Port.series (get_port k Sample2.all_loaded) "INDEX"
            ++ map (fun i => VInt (Z.of_nat i))
                 (seq (m_count Sample2.all_loaded) 2)
          /\ Port.series (get_port k st') "FILES"
             = Port.series (get_port k Sample2.all_loaded) "FILES"
               ++ [VStr (String.append "im_in/" "a.fits")]
          /\ Port.data (get_port k st')
             = Port.data (get_port k Sample2.all_loaded)
          /\ (Port.data (get_port k Sample2.all_loaded) <> None ->
              Port.static (get_port k st') !! "PIXSCALE"
              = Some (pixscale Sample.default_near)))
    /\ (forall k, k <> P3 -> k <> P4 ->
                  get_port k st' = get_port k Sample2.all_loaded).
Proof.
  apply (extra_attributes_routed Sample.default_near "a.fits" "im_in/"
           (VStr "B") 2 1 2 Sample2.all_loaded P3 P4).
  reflexivity.
Defined.

(** ** _static_attributes: first values and empty ports *)

Lemma status_set_reported k l : status (set_reported k l) = status l.
Proof. destruct k; reflexivity. Qed.

(** A check against a port without data leaves [status] as it was. *)
Lemma try_check_empty (m : self) k item v iteration end_ l st :
  Port.data (get_port k st) = None ->
  exists l1 st1,
    try_check m k item v iteration end_ l st = (Ok l1, st1)
    /\ status l1 = status l
    /\ (forall j, get_port j st1 = get_port j st)
    /\ warned st1 = warned st.
Proof.
  intros Hd. unfold try_check, Port.check_static_attribute.
  rewrite (bind_eq (gets (get_port k)) _ st (get_port k st) st eq_refl).
  rewrite Hd.
  destruct ((iteration =? end_)%nat && (reported k l =? 0)%nat).
  - eexists _, _. split; [reflexivity|].
    split; [apply status_set_reported|].
    split; [intros []; reflexivity | reflexivity].
  - eexists _, _. split; [reflexivity|]. auto.
Qed.

Lemma static_item_not_present (m : self) fits_file header iteration end_ item
    l st :
  present m header item = false ->
  exists st1,
    static_item m fits_file header iteration end_ item l st = (Ok l, st1)
    /\ forall j, get_port j st1 = get_port j st.
Proof.
  unfold present, static_item, Fits.mem.
  destruct (Py.truthy (m_check m)); cbn [andb]; [|eauto].
  destruct (negb (String.eqb (get_attribute m item) "None")); cbn [andb];
    [|eauto].
  destruct (Fits.lookup (get_attribute m item) header); [discriminate|].
  intros _. eexists. split; [reflexivity|]. intros []; reflexivity.
Qed.

Lemma static_item_all_empty (m : self) fits_file header iteration end_ item
    l st :
  present m header item = true ->
  status l = None ->
  (forall k, Port.data (get_port k st) = None) ->
  fst (static_item m fits_file header iteration end_ item l st)
  = Raise (UnboundLocalError "status").
Proof.
  unfold present, static_item, Fits.mem. intros Hp Hs Hempty.
  destruct (Py.truthy (m_check m)); [|discriminate].
  destruct (negb (String.eqb (get_attribute m item) "None"));
    [|discriminate].
  destruct (Fits.lookup (get_attribute m item) header) as [v|];
    [|discriminate].
  destruct (try_check_empty m P1 item v iteration end_ l st (Hempty P1))
    as (l1 & s1 & E1 & S1 & G1 & _).
  destruct (try_check_empty m P2 item v iteration end_ l1 s1)
    as (l2 & s2 & E2 & S2 & G2 & _); [rewrite G1; apply Hempty|].
  destruct (try_check_empty m P3 item v iteration end_ l2 s2)
    as (l3 & s3 & E3 & S3 & G3 & _); [rewrite G2, G1; apply Hempty|].
  destruct (try_check_empty m P4 item v iteration end_ l3 s3)
    as (l4 & s4 & E4 & S4 & G4 & _); [rewrite G3, G2, G1; apply Hempty|].
  rewrite (bind_eq _ _ _ _ _ E1), (bind_eq _ _ _ _ _ E2),
    (bind_eq _ _ _ _ _ E3), (bind_eq _ _ _ _ _ E4).
  assert (status l4 = None) as -> by congruence. reflexivity.
Qed.

(** X12. While none of the four ports holds data, the static collector
    cannot get past the first attribute whose keyword is in the header: the
    four checks all fail, [status] was never bound, and reading it raises
    [UnboundLocalError]. This is what a first file with a nod other than 'A'
    and 'B' runs into. *)
Theorem static_attributes_need_a_port_with_data (m : self) fits_file header
    iteration end_ st :
  (forall k, Port.data (get_port k st) = None) ->
  existsb (present m header) (m_static m) = true ->
  fst (_static_attributes m fits_file header iteration end_ st)
  = Raise (UnboundLocalError "status").
Proof.
  unfold _static_attributes.
  assert (status (Locals None 0 0 0 0) = None) as Hs by reflexivity.
  revert Hs. generalize (Locals None 0 0 0 0) as l. revert st.
  induction (m_static m) as [|item items IH]; intros st l Hs Hempty Hex;
    cbn in Hex; [discriminate|].
  cbn [static_loop].
  destruct (present m header item) eqn:Hp.
  - pose proof (static_item_all_empty m fits_file header iteration end_ item
                  l st Hp Hs Hempty) as Hraise.
    unfold bind.
    destruct (static_item m fits_file header iteration end_ item l st)
      as [[l1|e] s1]; cbn in Hraise; [discriminate|].
    cbn. congruence.
  - destruct (static_item_not_present m fits_file header iteration end_ item
                l st Hp) as (s1 & E & G).
    rewrite (bind_eq _ _ _ _ _ E).
    apply IH; [exact Hs | intros k; rewrite G; apply Hempty | exact Hex].
Qed.

Lemma static_attributes_need_a_port_witness :
  fst (_static_attributes Sample.default_near "a.fits" Sample.full_header
         0 0 fresh)
  = Raise (UnboundLocalError "status").
Proof.
  apply static_attributes_need_a_port_with_data.
  - intros []; reflexivity.
  - reflexivity.
Defined.

(** X13. A first value is stored on every port that can take it: when the
    last port holds data and does not record the attribute, the round of the
    loop for an attribute whose keyword is in the header returns, every port
    that holds data then records the value of the header, and a port without
    data is left as it was. *)
Theorem static_item_stores_first_value (m : self) fits_file header iteration
    end_ item l st v :
  Py.truthy (m_check m) = true ->
  String.eqb (get_attribute m item) "None" = false ->
  Fits.lookup (get_attribute m item) header = Some v ->
  Port.data (get_port P4 st) <> None ->
  Port.static (get_port P4 st) !! item = None ->
  exists l1 st1,
    static_item m fits_file header iteration end_ item l st = (Ok l1, st1)
    /\ forall k,
         (Port.data (get_port k st) <> None ->
          Port.static (get_port k st1) !! item = Some v)
         /\ (Port.data (get_port k st) = None ->
             get_port k st1 = get_port k st).
Proof.
  intros Hcheck Hkey Hv Hdata Hnew.
  unfold static_item. rewrite Hcheck, Hkey, Hv. cbn [negb].
  destruct (try_check_total m P1 item v iteration end_ l st)
    as (l1 & s1 & E1).
  destruct (try_check_total m P2 item v iteration end_ l1 s1)
    as (l2 & s2 & E2).
  destruct (try_check_total m P3 item v iteration end_ l2 s2)
    as (l3 & s3 & E3).
  rewrite (bind_eq _ _ _ _ _ E1), (bind_eq _ _ _ _ _ E2),
    (bind_eq _ _ _ _ _ E3).
  apply try_check_effect in E1 as (Hp1 & _).
  apply try_check_effect in E2 as (Hp2 & _).
  apply try_check_effect in E3 as (Hp3 & _).
  assert (forall j, get_port j s3 = get_port j st) as Hp
      by (intros j; rewrite Hp3, Hp2, Hp1; reflexivity).
  destruct (Port.data (get_port P4 st)) as [frames|] eqn:Hd; [|contradiction].
  assert (try_check m P4 item v iteration end_ l3 s3
          = (Ok (set_status 1 l3), s3)) as E4.
  { unfold try_check, Port.check_static_attribute.
    rewrite (bind_eq (gets (get_port P4)) _ s3 (get_port P4 s3) s3 eq_refl).
    rewrite Hp, Hd, Hnew. reflexivity. }
  rewrite (bind_eq _ _ _ _ _ E4). cbn.
  eexists _, _. split; [reflexivity|].
  intros k. split.
  - intros Hk.
    destruct k; cbn; apply add_attribute_static;
      [ change (m_image_out_port_1 s3) with (get_port P1 s3)
      | change (m_image_out_port_2 s3) with (get_port P2 s3)
      | change (m_image_out_port_3 s3) with (get_port P3 s3)
      | change (m_image_out_port_4 s3) with (get_port P4 s3) ];
      rewrite Hp; exact Hk.
  - intros Hk.
    destruct k; cbn;
      [ change (m_image_out_port_1 s3) with (get_port P1 s3)
      | change (m_image_out_port_2 s3) with (get_port P2 s3)
      | change (m_image_out_port_3 s3) with (get_port P3 s3)
      | change (m_image_out_port_4 s3) with (get_port P4 s3) ];
      rewrite Hp; unfold Port.add_attribute; rewrite Hk; reflexivity.
Qed.

Lemma static_item_stores_first_value_witness :
  exists l1 st1,
    static_item Sample.default_near "a.fits" Sample.full_header 0 0
      "INSTRUMENT" (Locals None 0 0 0 0) Sample2.all_loaded = (Ok l1, st1)
    /\ forall k,
         (Port.data (get_port k Sample2.all_loaded) <> None ->
          Port.static (get_port k st1) !! "INSTRUMENT" = Some (VStr "VISIR"))
         /\ (Port.data (get_port k Sample2.all_loaded) = None ->
             get_port k st1 = get_port k Sample2.all_loaded).
Proof.
  apply (static_item_stores_first_value Sample.default_near "a.fits"
           Sample.full_header 0 0 "INSTRUMENT" (Locals None 0 0 0 0)
           Sample2.all_loaded (VStr "VISIR"));
    try reflexivity.
  discriminate.
Defined.

(** X14. Whether it returns or raises, the static collector leaves the
    frames, the series, the flush counts, the histories and the closed flags
    of the four ports alone, and with them the frame counter, the opened
    files and the header dumps: it writes static attributes, warnings and
    the empty-tag messages, nothing else. *)
Theorem static_attributes_touch_only_static (m : self) fits_file header
    iteration end_ st :
  (forall k,
      Port.data
        (get_port k
           (snd (_static_attributes m fits_file header iteration end_ st)))
      = Port.data (get_port k st)
      /\ Port.nonstatic
           (get_port k
              (snd (_static_attributes m fits_file header iteration end_ st)))
         = Port.nonstatic (get_port k st)
      /\ Port.flushed
           (get_port k
              (snd (_static_attributes m fits_file header iteration end_ st)))
         = Port.flushed (get_port k st)
      /\ Port.history
           (get_port k
              (snd (_static_attributes m fits_file header iteration end_ st)))
         = Port.history (get_port k st)
      /\ Port.closed
           (get_port k
              (snd (_static_attributes m fits_file header iteration end_ st)))
         = Port.closed (get_port k st))
  /\ m_count (snd (_static_attributes m fits_file header iteration end_ st))
     = m_count st
  /\ opened (snd (_static_attributes m fits_file header iteration end_ st))
     = opened st
  /\ header_ports
       (snd (_static_attributes m fits_file header iteration end_ st))
     = header_ports st.
Proof.
  assert (forall item v p,
             Port.nonstatic (fst (Port.add_attribute item v p))
             = Port.nonstatic p
             /\ Port.history (fst (Port.add_attribute item v p))
                = Port.history p
             /\ Port.closed (fst (Port.add_attribute item v p))
                = Port.closed p) as Hattr.
  { intros item v [[d|] ? ? ? ? ?]; repeat split. }
  split; [|split; [|split]].
  - intros k. repeat split.
    + apply (static_keeps_port Port.data k), add_attribute_data.
    + apply (static_keeps_port Port.nonstatic k). intros. apply Hattr.
    + apply (static_keeps_port Port.flushed k), add_attribute_flushed.
    + apply (static_keeps_port Port.history k). intros. apply Hattr.
    + apply (static_keeps_port Port.closed k). intros. apply Hattr.
  - apply (static_keeps m_count); try reflexivity.
    intros [] item v s; reflexivity.
  - apply (static_keeps opened); try reflexivity.
    intros [] item v s; reflexivity.
  - apply (static_keeps header_ports); try reflexivity.
    intros [] item v s; reflexivity.
Qed.

(** ** One round of the loop of run *)

Lemma add_attribute_keeps_port {Y} (g : Port.port -> Y) (k j : port_id)
    name v :
  (forall item w p, g (fst (Port.add_attribute item w p)) = g p) ->
  keeps (fun s => g (get_port k s)) (add_attribute j name v).
Proof.
  intros Hattr st.
  destruct (add_attribute_run j name v st) as (st' & E & Hp & _).
  rewrite E. cbn. rewrite Hp.
  destruct (decide (k = j)) as [->|]; [apply Hattr | reflexivity].
Qed.

Lemma on_port_keeps_port {Y} (g : Port.port -> Y) (k j : port_id) op :
  (forall p, g (op p) = g p) ->
  keeps (fun s => g (get_port k s)) (on_port j op).
Proof.
  intros Hop st. cbn. rewrite get_set_port.
  destruct (decide (k = j)) as [->|]; [apply Hop | reflexivity].
Qed.

Lemma on_port_other {Y} (g : Port.port -> Y) (k j : port_id) op :
  k <> j -> keeps (fun s => g (get_port k s)) (on_port j op).
Proof.
  intros Hne st. cbn. rewrite get_set_port.
  destruct (decide (k = j)); [contradiction | reflexivity].
Qed.

Ltac kept_side := cbn; intros; congruence.

Lemma extra_keeps_port {Y} (g : Port.port -> Y) (k : port_id) (m : self)
    fits_file location shape nod :
  (forall item v p, g (fst (Port.add_attribute item v p)) = g p) ->
  (forall item v p, g (Port.append_attribute_data item v p) = g p) ->
  keeps (fun s => g (get_port k s))
    (_extra_attributes m fits_file location shape nod).
Proof.
  intros Hattr Hseries.
  assert (forall j name v,
             keeps (fun s => g (get_port k s))
               (on_port j (Port.append_attribute_data name v))) as Hon
      by (intros; apply on_port_keeps_port; intros; apply Hseries).
  assert (forall j name v,
             keeps (fun s => g (get_port k s)) (add_attribute j name v)) as Hadd
      by (intros; apply add_attribute_keeps_port; exact Hattr).
  unfold _extra_attributes, index_item.
  destruct (nimages_of shape); [|intros st; reflexivity].
  apply steps_bind; [kept_side | intros st; reflexivity | intros count].
  apply steps_bind; [kept_side | |intros _].
  { apply steps_for_each; [kept_side | kept_side |]. intros i.
    destruct (Py.eqb nod (VStr "A")); [|destruct (Py.eqb nod (VStr "B"))].
    - apply steps_bind; [kept_side | apply Hon | intros _; apply Hon].
    - apply steps_bind; [kept_side | apply Hon | intros _; apply Hon].
    - intros st; reflexivity. }
  apply steps_bind; [kept_side | |intros _].
  { destruct (Py.eqb nod (VStr "A")); [|destruct (Py.eqb nod (VStr "B"))].
    - repeat (apply steps_bind; [kept_side | first [apply Hon | apply Hadd]
                                | intros _]).
      apply Hadd.
    - repeat (apply steps_bind; [kept_side | first [apply Hon | apply Hadd]
                                | intros _]).
      apply Hadd.
    - intros st. destruct k; reflexivity. }
  apply steps_bind; [kept_side | intros st; reflexivity | intros c].
  intros st. destruct k; reflexivity.
Qed.

(** What the collectors between the two writes of a round keep of a port. *)
Lemma attributes_keep_port {Y} (g : Port.port -> Y) (k : port_id) (m : self)
    location end_ i im header shape nod :
  (forall item v p, g (fst (Port.add_attribute item v p)) = g p) ->
  (forall item v p, g (Port.append_attribute_data item v p) = g p) ->
  keeps (fun s => g (get_port k s))
    (_static_attributes m im header i end_ ;;;
     _non_static_attributes m header ;;;
     _extra_attributes m im location shape nod).
Proof.
  intros Hattr Hseries.
  apply steps_bind; [kept_side | apply static_keeps_port, Hattr | intros _].
  apply steps_bind; [kept_side | apply non_static_keeps_port, Hseries
                    | intros _].
  apply extra_keeps_port; assumption.
Qed.

Lemma flush_data p : Port.data (Port.flush p) = Port.data p.
Proof. reflexivity. Qed.

Lemma append_flushed stack p :
  Port.flushed (Port.append stack p) = Port.flushed p.
Proof. reflexivity. Qed.

Lemma series_flushed item v p :
  Port.flushed (Port.append_attribute_data item v p) = Port.flushed p.
Proof. reflexivity. Qed.

Lemma series_data item v p :
  Port.data (Port.append_attribute_data item v p) = Port.data p.
Proof. reflexivity. Qed.

(** The two writes at the head of a round, and the two flushes at its end,
    for a file that is routed to [ka] and [kb]. *)
Lemma collect_routed (m : self) location end_ i im chopa chopb nod header
    shape ka kb st :
  routes nod = Some (ka, kb) ->
  collect m location end_ i im (chopa, chopb, nod, header, shape) st
  = ((on_port ka (Port.append chopa) ;;;
      on_port kb (Port.append chopb) ;;;
      (_static_attributes m im header i end_ ;;;
       _non_static_attributes m header ;;;
       _extra_attributes m im location shape nod) ;;;
      on_port ka Port.flush ;;;
      on_port kb Port.flush) st).
Proof.
  intros Hr. unfold collect.
  destruct (routes_cases _ _ _ Hr) as [(-> & -> & ->)|(-> & -> & ->)].
  - change (Py.eqb (VStr "A") (VStr "A")) with true.
    change (Py.eqb (VStr "A") (VStr "B")) with false.
    cbv iota.
    unfold bind, on_port, modify, ret. cbn beta iota.
    destruct (_static_attributes _ _ _ _ _ _) as [[[]|e] s1]; [|reflexivity].
    destruct (_non_static_attributes _ _ _) as [[[]|e] s2]; [|reflexivity].
    destruct (_extra_attributes _ _ _ _ _ _) as [[[]|e] s3]; reflexivity.
  - change (Py.eqb (VStr "B") (VStr "A")) with false.
    change (Py.eqb (VStr "B") (VStr "B")) with true.
    cbv iota.
    unfold bind, on_port, modify, ret. cbn beta iota.
    destruct (_static_attributes _ _ _ _ _ _) as [[[]|e] s1]; [|reflexivity].
    destruct (_non_static_attributes _ _ _) as [[[]|e] s2]; [|reflexivity].
    destruct (_extra_attributes _ _ _ _ _ _) as [[[]|e] s3]; reflexivity.
Qed.

Lemma routes_distinct nod ka kb : routes nod = Some (ka, kb) -> ka <> kb.
Proof.
  intros Hr.
  destruct (routes_cases _ _ _ Hr) as [(_ & -> & ->)|(_ & -> & ->)];
    discriminate.
Qed.

(** X15. A round of the loop of [run] that returns for a file of nod A or B
    appends to the first port of that nod the chop-A planes of the file as
    the chop buffer holds them (stretched to the shape of the first frame,
    the pixel values as 32-bit floats keep them), less those whose first
    pixel is zero, and to the second port the chop-B planes likewise, in the
    order of the file; it flushes these two ports once. The frames and the
    flush counts of the two ports of the other nod are as they were. *)
Theorem process_file_routes_frames (m : self) dir location end_ i im st st'
    chopa chopb nod header shape st1 ka kb :
  open_fit m location im (content im dir) i st
  = (Ok (chopa, chopb, nod, header, shape), st1) ->
  routes nod = Some (ka, kb) ->
  process_file m dir location end_ i im st = (Ok tt, st') ->
  Port.data (get_port ka st')
  = Some (Port.frames (get_port ka st)
          ++ List.filter lit (stored "HCYCLE1" (content im dir)))
  /\ Port.data (get_port kb st')
     = Some (Port.frames (get_port kb st)
             ++ List.filter lit (stored "HCYCLE2" (content im dir)))
  /\ Port.flushed (get_port ka st') = S (Port.flushed (get_port ka st))
  /\ Port.flushed (get_port kb st') = S (Port.flushed (get_port kb st))
  /\ forall k, k <> ka -> k <> kb ->
       Port.data (get_port k st') = Port.data (get_port k st)
       /\ Port.flushed (get_port k st') = Port.flushed (get_port k st).
Proof.
  intros Hopen Hr H. unfold process_file in H.
  rewrite (bind_eq _ _ _ _ _ Hopen) in H.
  rewrite (collect_routed _ _ _ _ _ _ _ _ _ _ ka kb st1 Hr) in H.
  pose proof (routes_distinct _ _ _ Hr) as Hne.
  pose proof (open_fit_buffers _ _ _ _ _ _ _ _ _ _ _ _ Hopen) as [-> ->].
  assert (forall k, get_port k st1 = get_port k st) as Hports.
  { intros k.
    apply (keeps_elim (fun s => get_port k s)) in Hopen; [exact Hopen|].
    apply (open_fit_keeps_port (fun p => p) k). }
  apply bind_ok in H as ([] & sa & Ea & H).
  apply bind_ok in H as ([] & sb & Eb & H).
  apply bind_ok in H as ([] & sc & Ec & H).
  apply bind_ok in H as ([] & sd & Ed & H).
  assert (forall k, Port.data (get_port k st') = Port.data (get_port k sb))
    as Hdata.
  { intros k.
    apply (keeps_elim (fun s => Port.data (get_port k s))) in Ec;
      [|apply attributes_keep_port;
        [apply add_attribute_data | apply series_data]].
    apply (keeps_elim (fun s => Port.data (get_port k s))) in Ed;
      [|apply on_port_keeps_port, flush_data].
    apply (keeps_elim (fun s => Port.data (get_port k s))) in H;
      [|apply on_port_keeps_port, flush_data].
    congruence. }
  assert (forall k, Port.flushed (get_port k sc) = Port.flushed (get_port k st))
    as Hflushed.
  { intros k.
    apply (keeps_elim (fun s => Port.flushed (get_port k s))) in Ea;
      [|apply on_port_keeps_port, append_flushed].
    apply (keeps_elim (fun s => Port.flushed (get_port k s))) in Eb;
      [|apply on_port_keeps_port, append_flushed].
    apply (keeps_elim (fun s => Port.flushed (get_port k s))) in Ec;
      [|apply attributes_keep_port;
        [apply add_attribute_flushed | apply series_flushed]].
    rewrite <- Hports. congruence. }
  apply modify_ok in Ea as ->. apply modify_ok in Eb as ->.
  apply modify_ok in Ed as ->. apply modify_ok in H as ->.
  split; [|split; [|split; [|split]]].
  - rewrite Hdata, !get_set_port.
    destruct (decide (ka = kb)); [contradiction|].
    destruct (decide (ka = ka)); [|contradiction].
    rewrite Hports. reflexivity.
  - rewrite Hdata, !get_set_port.
    destruct (decide (kb = kb)); [|contradiction].
    destruct (decide (kb = ka)); [congruence|].
    rewrite Hports. reflexivity.
  - rewrite !get_set_port.
    destruct (decide (ka = kb)); [contradiction|].
    destruct (decide (ka = ka)); [|contradiction].
    cbn. rewrite Hflushed. reflexivity.
  - rewrite !get_set_port.
    destruct (decide (kb = kb)); [|contradiction].
    destruct (decide (kb = ka)); [congruence|].
    cbn. rewrite Hflushed. reflexivity.
  - intros k Hka Hkb. split.
    + rewrite Hdata, !get_set_port.
      destruct (decide (k = kb)); [contradiction|].
      destruct (decide (k = ka)); [contradiction|].
      rewrite Hports. reflexivity.
    + rewrite !get_set_port.
      destruct (decide (k = kb)); [contradiction|].
      destruct (decide (k = ka)); [contradiction|].
      apply Hflushed.
Qed.

Lemma process_file_routes_frames_witness :
  exists st',
    process_file Sample.default_near Sample2.stretched_dir "im_in/" 0 0
      "s.fits" fresh = (Ok tt, st')
    /\ Port.data (get_port P1 st') = Some [[[16777216%Z; 2%Z]]]
    /\ Port.data (get_port P2 st') = Some [[[7%Z; 7%Z]]]
    /\ Port.flushed (get_port P1 st') = 1
    /\ Port.flushed (get_port P2 st') = 1
    /\ forall k, k <> P1 -> k <> P2 ->
         Port.data (get_port k st') = Port.data (get_port k fresh)
         /\ Port.flushed (get_port k st') = Port.flushed (get_port k fresh).
Proof.
  eexists. split; [vm_compute; reflexivity|].
  eapply (process_file_routes_frames Sample.default_near
            Sample2.stretched_dir "im_in/" 0 0 "s.fits" fresh _ _ _
            (VStr "A") _ _ _ P1 P2);
    vm_compute; reflexivity.
Defined.

(** ** run *)

Lemma bind_raise_inv {A B} (m : M A) (k : A -> M B) st e st' :
  bind m k st = (Raise e, st') ->
  m st = (Raise e, st')
  \/ exists x st1, m st = (Ok x, st1) /\ k x st1 = (Raise e, st').
Proof.
  unfold bind. destruct (m st) as [[x|e1] st1].
  - intros H. right. eauto.
  - intros [= <- <-]. left. reflexivity.
Qed.

Lemma check_tags_keeps {X} (f : state -> X) tags seen :
  keeps f (check_tags tags seen).
Proof.
  intros st. destruct (check_tags tags seen st) as [r st'] eqn:E.
  apply check_tags_state in E as ->. reflexivity.
Qed.

(** Observations of a port that no method called by [run] before its last
    lines changes. *)
Section KeptByTheLoop.
Context {Y : Type} (g : Port.port -> Y) (k : port_id).
Hypothesis g_del_data : forall p, g (Port.del_all_data p) = g p.
Hypothesis g_del_attributes : forall p, g (Port.del_all_attributes p) = g p.
Hypothesis g_append : forall stack p, g (Port.append stack p) = g p.
Hypothesis g_attribute :
  forall item v p, g (fst (Port.add_attribute item v p)) = g p.
Hypothesis g_series :
  forall item v p, g (Port.append_attribute_data item v p) = g p.
Hypothesis g_flush : forall p, g (Port.flush p) = g p.

Lemma initialize_keeps_port (m : self) :
  keeps (fun s => g (get_port k s)) (_initialize m).
Proof.
  unfold _initialize, clear_port.
  keeps_auto;
    first [ apply check_tags_keeps
          | rewrite get_set_port; destruct (decide _) as [->|]; auto ].
Qed.

Lemma collect_keeps_port (m : self) location end_ i im opened :
  keeps (fun s => g (get_port k s)) (collect m location end_ i im opened).
Proof.
  destruct opened as [[[[chopa chopb] nod] header] shape].
  unfold collect.
  keeps_auto;
    first [ apply static_keeps_port; exact g_attribute
          | apply non_static_keeps_port; exact g_series
          | apply extra_keeps_port; [exact g_attribute | exact g_series]
          | rewrite get_set_port; destruct (decide _) as [->|]; auto ].
Qed.

Lemma process_file_keeps_port (m : self) dir location end_ i im :
  keeps (fun s => g (get_port k s)) (process_file m dir location end_ i im).
Proof.
  unfold process_file.
  apply steps_bind; [kept_side | apply open_fit_keeps_port | intros opened].
  apply collect_keeps_port.
Qed.

Lemma process_files_keeps_port (m : self) dir location end_ i files :
  keeps (fun s => g (get_port k s))
    (process_files m dir location end_ i files).
Proof.
  revert i. induction files as [|im files IH]; intros i; cbn.
  - intros st. reflexivity.
  - apply steps_bind; [kept_side | apply process_file_keeps_port | intros _].
    apply IH.
Qed.

Lemma loop_keeps_port (m : self) dir :
  keeps (fun s => g (get_port k s)) (loop m dir).
Proof.
  unfold loop.
  apply steps_bind; [kept_side | apply initialize_keeps_port | intros _].
  apply steps_bind; [kept_side | intros st; destruct k; reflexivity
                    | intros _].
  apply steps_bind; [kept_side | | intros _; apply process_files_keeps_port].
  destruct (fits_files dir); intros st; reflexivity.
Qed.
End KeptByTheLoop.

Lemma finalise_run st :
  exists st',
    finalise st = (Ok tt, st')
    /\ (forall k,
          Port.closed (get_port k st') = true
          /\ Port.data (get_port k st') = Port.data (get_port k st)
          /\ Port.history (get_port k st')
             = Port.history (get_port k st)
               ++ match Port.data (get_port k st) with
                  | Some _ => [("NearInitializationModule", label k)]
                  | None => []
                  end
          /\ (Port.data (get_port k st) = None ->
              CannotStore "History: NearInitializationModule" ∈ warned st'))
    /\ stdout st' = stdout st ++ [Finished].
Proof.
  destruct st as [[[d1|] ? ? ? ? ?] [[d2|] ? ? ? ? ?] [[d3|] ? ? ? ? ?]
                    [[d4|] ? ? ? ? ?] n ws out files dumps];
    (eexists; split; [reflexivity|]; split; [|reflexivity];
     intros []; cbn;
     repeat match goal with |- _ /\ _ => split end; try reflexivity;
     first [ symmetry; apply app_nil_r
           | intros Hnone;
             first [ discriminate Hnone
                   | apply elem_of_app; right;
                     apply elem_of_cons; left; reflexivity ] ]).
Qed.

(** [run] is its loop followed by its last lines. *)
Lemma run_split (m : self) dir st :
  run m dir st = bind (loop m dir) (fun _ => finalise) st.
Proof.
  unfold run, loop, finalise, bind.
  destruct (_initialize m st) as [[[]|e] s1]; [|reflexivity].
  destruct (write Running s1) as [[[]|e] s2]; [|reflexivity].
  destruct (match fits_files dir with
            | [] => raise (AssertionError "No FITS files found")
            | _ => ret tt
            end s2) as [[[]|e] s3]; [|reflexivity].
  destruct (process_files _ _ _ _ _ _ s3) as [[[]|e] s4]; reflexivity.
Qed.

(** X16. When [run] returns, each of the four ports is closed. A port that
    holds data then has the history it had with the entry of this module
    appended, under the label of the port; a port that holds no data has the
    history it had and no entry, and the warning that the entry cannot be
    stored was made for it. The line that reports the end of the run is the
    last one written to the standard output. *)
Theorem run_finalises_every_port (m : self) dir st st' :
  run m dir st = (Ok tt, st') ->
  (forall k,
      Port.closed (get_port k st') = true
      /\ Port.history (get_port k st')
         = Port.history (get_port k st)
           ++ match Port.data (get_port k st') with
              | Some _ => [("NearInitializationModule", label k)]
              | None => []
              end
      /\ (Port.data (get_port k st') = None ->
          CannotStore "History: NearInitializationModule" ∈ warned st'))
  /\ last (stdout st') = Some Finished.
Proof.
  rewrite run_split. intros H.
  apply bind_ok in H as ([] & s1 & Eloop & H).
  destruct (finalise_run s1) as (s2 & E & Hports & Hout).
  rewrite E in H. injection H as <-.
  split.
  - intros k. destruct (Hports k) as (Hc & Hd & Hh & Hw).
    split; [exact Hc|]. rewrite Hd. split; [|exact Hw].
    rewrite Hh. f_equal.
    apply (keeps_elim (fun s => Port.history (get_port k s))) in Eloop;
      [exact Eloop|].
    apply loop_keeps_port; try reflexivity.
    intros item v [[d|] ? ? ? ? ?]; reflexivity.
  - rewrite Hout. apply last_snoc.
Qed.

Lemma run_finalises_every_port_witness :
  exists st',
    run Sample.default_near Sample2.mixed_dir fresh = (Ok tt, st')
    /\ Port.history (get_port P1 st') = []
    /\ Port.history (get_port P3 st')
       = [("NearInitializationModule", "Nod B, Chop A")]
    /\ (forall k,
           Port.closed (get_port k st') = true
           /\ Port.history (get_port k st')
              = Port.history (get_port k fresh)
                ++ match Port.data (get_port k st') with
                   | Some _ => [("NearInitializationModule", label k)]
                   | None => []
                   end
           /\ (Port.data (get_port k st') = None ->
               CannotStore "History: NearInitializationModule"
               ∈ warned st'))
    /\ last (stdout st') = Some Finished.
Proof.
  eexists. split; [vm_compute; reflexivity|].
  split; [reflexivity|]. split; [reflexivity|].
  apply (run_finalises_every_port Sample.default_near Sample2.mixed_dir
           fresh).
  vm_compute. reflexivity.
Defined.

(** X17. When [run] raises, whatever the exception and wherever it came
    from, no port was closed by it and no history entry was written: the
    closed flag and the history of each of the four ports are as they were
    before the call. *)
Theorem run_failure_finalises_nothing (m : self) dir st e st' :
  run m dir st = (Raise e, st') ->
  forall k,
    Port.closed (get_port k st') = Port.closed (get_port k st)
    /\ Port.history (get_port k st') = Port.history (get_port k st).
Proof.
  rewrite run_split. intros H k.
  apply bind_raise_inv in H as [H|(x & s1 & _ & H)].
  - split.
    + apply (keeps_elim (fun s => Port.closed (get_port k s))) in H;
        [exact H|].
      apply loop_keeps_port; try reflexivity.
      intros item v [[d|] ? ? ? ? ?]; reflexivity.
    + apply (keeps_elim (fun s => Port.history (get_port k s))) in H;
        [exact H|].
      apply loop_keeps_port; try reflexivity.
      intros item v [[d|] ? ? ? ? ?]; reflexivity.
  - destruct (finalise_run s1) as (s2 & E & _). congruence.
Qed.

Lemma run_failure_finalises_nothing_witness :
  Port.closed
    (get_port P1 (snd (run Sample.default_near Sample2.stray_first
                         Sample.used)))
  = Port.closed (get_port P1 Sample.used)
  /\ Port.history
       (get_port P1 (snd (run Sample.default_near Sample2.stray_first
                            Sample.used)))
     = Port.history (get_port P1 Sample.used).
Proof.
  apply (fun H =>
           run_failure_finalises_nothing Sample.default_near
             Sample2.stray_first Sample.used (UnboundLocalError "status")
             (snd (run Sample.default_near Sample2.stray_first Sample.used))
             H P1).
  vm_compute. reflexivity.
Defined.

(** ** The files that run opens *)

Lemma insert_sorted_perm x l : Py.insert_sorted x l ≡ₚ x :: l.
Proof.
  induction l as [|y l IH]; cbn; [reflexivity|].
  destruct (String.leb x y); [reflexivity|].
  rewrite IH. apply Permutation_swap.
Qed.

Lemma sort_perm l : Py.sort l ≡ₚ l.
Proof.
  induction l as [|x l IH]; cbn; [reflexivity|].
  rewrite insert_sorted_perm, IH. reflexivity.
Qed.

Lemma ascending_cons x y l :
  ascending (x :: y :: l) = String.leb x y && ascending (y :: l).
Proof. reflexivity. Qed.

Lemma insert_sorted_ascending x l :
  ascending l = true -> ascending (Py.insert_sorted x l) = true.
Proof.
  induction l as [|y l IH]; cbn [Py.insert_sorted]; intros H;
    [reflexivity|].
  destruct (String.leb x y) eqn:E.
  - rewrite ascending_cons, E. exact H.
  - assert (String.leb y x = true) as Hyx.
    { destruct (String.leb_total x y) as [Hle|Hle]; [congruence | exact Hle]. }
    destruct l as [|z l].
    + cbn. rewrite Hyx. reflexivity.
    + rewrite ascending_cons in H. apply andb_prop in H as [Hyz Hrest].
      specialize (IH Hrest). cbn [Py.insert_sorted] in IH |- *.
      destruct (String.leb x z) eqn:Exz.
      * rewrite !ascending_cons, Hyx, Exz. exact Hrest.
      * rewrite ascending_cons, Hyz. exact IH.
Qed.

Lemma sort_ascending l : ascending (Py.sort l) = true.
Proof.
  induction l as [|x l IH]; cbn; [reflexivity|].
  apply insert_sorted_ascending, IH.
Qed.

Lemma collect_keeps_opened (m : self) location end_ i im result :
  keeps opened (collect m location end_ i im result).
Proof.
  destruct result as [[[[chopa chopb] nod] header] shape].
  unfold collect, _extra_attributes, index_item, add_attribute.
  keeps_auto;
    first [ apply (static_keeps opened); try reflexivity;
            intros [] item v s; reflexivity
          | apply (non_static_keeps opened); intros [] item v s; reflexivity ].
Qed.

(** Whether the round returns or raises, it opened its file and no other. *)
Lemma process_file_opened (m : self) dir location end_ i im st :
  opened (snd (process_file m dir location end_ i im st))
  = opened st ++ [String.append location im].
Proof.
  unfold process_file, bind.
  pose proof (open_fit_opened m location im (content im dir) i st) as Ho.
  destruct (open_fit m location im (content im dir) i st) as [[r|e] s1];
    cbn [snd] in Ho |- *; [|exact Ho].
  rewrite <- Ho. apply collect_keeps_opened.
Qed.

Lemma process_files_opened (m : self) dir location end_ i files st st' :
  process_files m dir location end_ i files st = (Ok tt, st') ->
  opened st' = opened st ++ map (String.append location) files.
Proof.
  revert i st. induction files as [|im files IH]; intros i st; cbn.
  - intros [= <-]. rewrite app_nil_r. reflexivity.
  - intros H. apply bind_ok in H as ([] & s1 & E & H).
    apply IH in H. rewrite H.
    pose proof (process_file_opened m dir location end_ i im st) as Ho.
    rewrite E in Ho. cbn [snd] in Ho. rewrite Ho, <- app_assoc.
    reflexivity.
Qed.

(** X18. When [run] returns it has opened, one after the other and once
    each, the files of a list that is not empty, that is sorted, and that
    holds exactly the names of the directory ending in [.fits], each under
    the input directory; it opened nothing else. *)
Theorem run_opens_the_fits_files_in_order (m : self) dir st st' :
  run m dir st = (Ok tt, st') ->
  exists files,
    opened st'
    = opened st ++ map (String.append (join_empty (m_im_dir m))) files
    /\ files <> []
    /\ ascending files = true
    /\ files ≡ₚ List.filter (fun name => Py.endswith name ".fits")
                  (map fst dir).
Proof.
  rewrite run_split. intros H.
  apply bind_ok in H as ([] & s4 & Eloop & H).
  assert (opened st' = opened s4) as ->.
  { apply (keeps_elim opened) in H; [exact H|].
    unfold finalise, add_history. keeps_auto. }
  unfold loop in Eloop.
  apply bind_ok in Eloop as ([] & s1 & Einit & Eloop).
  apply bind_ok in Eloop as ([] & s2 & Ewrite & Eloop).
  apply bind_ok in Eloop as ([] & s3 & Eassert & Eloop).
  exists (fits_files dir).
  apply process_files_opened in Eloop.
  apply (keeps_elim opened) in Einit; [|apply initialize_keeps_opened].
  apply modify_ok in Ewrite as ->.
  split; [|split; [|split]].
  - rewrite Eloop. f_equal.
    destruct (fits_files dir); [discriminate|].
    injection Eassert as <-. exact Einit.
  - destruct (fits_files dir); [discriminate | discriminate].
  - apply sort_ascending.
  - apply sort_perm.
Qed.

Lemma run_opens_the_fits_files_witness :
  exists files,
    opened (snd (run Sample.default_near Sample.stray_nod fresh))
    = opened fresh
      ++ map (String.append (join_empty (m_im_dir Sample.default_near)))
           files
    /\ files <> []
    /\ ascending files = true
    /\ files ≡ₚ List.filter (fun name => Py.endswith name ".fits")
                  (map fst Sample.stray_nod).
Proof.
  apply (run_opens_the_fits_files_in_order Sample.default_near
           Sample.stray_nod fresh
           (snd (run Sample.default_near Sample.stray_nod fresh))).
  vm_compute. reflexivity.
Defined.

(** ** The series of a port after a round (C2) *)

Lemma extra_attributes_ports (m : self) fits_file location nod n h w st
    ka kb :
  routes nod = Some (ka, kb) ->
  exists st',
    _extra_attributes m fits_file location [n; h; w] nod st = (Ok tt, st')
    /\ forall k,
         get_port k st'
         = if is_routed nod k
           then fst (Port.add_attribute "PIXSCALE" (pixscale m)
                       (Port.append_attribute_data "FILES"
                          (VStr (String.append location fits_file))
                          (indexed (seq (m_count st) n) (get_port k st))))
           else get_port k st.
Proof.
  intros Hr.
  destruct (index_loop_effect nod ka kb (seq (m_count st) n) st Hr)
    as (st1 & Eloop & Hports & Hcount & _).
  set (path := VStr (String.append location fits_file)).
  pose proof (routes_distinct _ _ _ Hr) as Hne.
  destruct (files_block ka kb path (pixscale m) st1 Hne)
    as (st2 & Eblock & Hports2 & Hcount2).
  exists (set_count (m_count st2 + n) st2). split.
  { unfold _extra_attributes. cbn [nimages_of length Nat.eqb head].
    rewrite (bind_eq (gets m_count) _ st (m_count st) st eq_refl).
    rewrite (bind_eq _ _ _ _ _ Eloop).
    fold path.
    destruct (routes_cases _ _ _ Hr) as [(-> & -> & ->)|(-> & -> & ->)];
      cbn [Py.eqb String.eqb Ascii.eqb Bool.eqb];
      rewrite (bind_eq _ _ _ _ _ Eblock); reflexivity. }
  intros k.
  transitivity (get_port k st2); [destruct k; reflexivity|].
  rewrite Hports2, Hports. unfold is_routed. rewrite Hr.
  destruct (decide (k = ka)) as [Ha|Ha];
    destruct (decide (k = kb)) as [Hb|Hb];
    rewrite ?(bool_decide_eq_true_2 _ Ha), ?(bool_decide_eq_true_2 _ Hb),
      ?(bool_decide_eq_false_2 _ Ha), ?(bool_decide_eq_false_2 _ Hb);
    cbn [orb];
    destruct (decide (k = ka \/ k = kb)); try tauto; reflexivity.
Qed.

(** What a call of [_extra_attributes] adds to the series of the ports,
    whatever the nod. *)
Lemma extra_attributes_series (m : self) fits_file location nod n h w st :
  exists st',
    _extra_attributes m fits_file location [n; h; w] nod st = (Ok tt, st')
    /\ forall k name,
         Port.series (get_port k st') name
         = Port.series (get_port k st) name
           ++ computed nod (String.append location fits_file) (m_count st) n
                k name.
Proof.
  destruct (routes nod) as [[ka kb]|] eqn:Hr.
  - destruct (extra_attributes_ports m fits_file location nod n h w st ka kb
                Hr) as (st' & E & Hports).
    exists st'. split; [exact E|]. intros k name.
    rewrite Hports. unfold computed.
    destruct (is_routed nod k); [|symmetry; apply app_nil_r].
    rewrite add_attribute_series, series_append, indexed_series.
    rewrite <- app_assoc. reflexivity.
  - assert (nod <> VStr "A" /\ nod <> VStr "B") as [HA HB].
    { unfold routes in Hr.
      destruct (Py.eqb nod (VStr "A")) eqn:EA; [discriminate|].
      destruct (Py.eqb nod (VStr "B")) eqn:EB; [discriminate|].
      split; intros ->; discriminate. }
    eexists. split.
    + apply (extra_attributes_unrouted m fits_file location [n; h; w] nod st
               n HA HB eq_refl).
    + intros k name. unfold computed, is_routed. rewrite Hr, app_nil_r.
      destruct k; reflexivity.
Qed.

Lemma append_series stack p name :
  Port.series (Port.append stack p) name = Port.series p name.
Proof. reflexivity. Qed.

Lemma flush_series p name :
  Port.series (Port.flush p) name = Port.series p name.
Proof. reflexivity. Qed.

(** C2 (as the code has it): after a round of the loop of [run] that
    returns, each series of each port holds what it held, followed by what
    the non-static collector takes from the header, followed by what
    [_extra_attributes] computes. The first part is the same on all four
    ports, whatever the nod of the file and however many frames it gave to a
    port; for an attribute table without repeated names it is one value for
    a configured non-static attribute when the check flag is set and its
    name, or else its configured keyword, is in the header, and nothing
    otherwise. The second part goes to the two ports of the nod only: one
    index value per frame section of the file for INDEX, and the path of the
    file for FILES. *)
Theorem C2_series_after_a_round (m : self) dir location end_ i im st st'
    chopa chopb nod header shape st1 :
  open_fit m location im (content im dir) i st
  = (Ok (chopa, chopb, nod, header, shape), st1) ->
  process_file m dir location end_ i im st = (Ok tt, st') ->
  forall k name,
    Port.series (get_port k st') name
    = Port.series (get_port k st) name
      ++ appended m header name
      ++ computed nod (String.append location im) (m_count st)
           (frame_count (content im dir)) k name
    /\ (NoDup (map fst (m_attributes m)) ->
        appended m header name
        = if bool_decide (name ∈ m_non_static m)
          then option_list (non_static_value m header name) else []).
Proof.
  intros Hopen H k name. split.
  2:{ intros Hnd. unfold appended.
      apply (flat_map_pick
               (fun item => option_list (non_static_value m header item))).
      apply keys_filter_NoDup. exact Hnd. }
  unfold process_file in H. rewrite (bind_eq _ _ _ _ _ Hopen) in H.
  destruct (open_fit_shape _ _ _ _ _ _ _ _ _ _ _ _ Hopen) as (h & w & ->).
  assert (Port.series (get_port k st1) name = Port.series (get_port k st) name
          /\ m_count st1 = m_count st) as [Hs1 Hc1].
  { split.
    - apply (keeps_elim (fun s => Port.series (get_port k s) name)) in Hopen;
        [exact Hopen|].
      apply (open_fit_keeps_port (fun p => Port.series p name) k).
    - apply (keeps_elim m_count) in Hopen; [exact Hopen|].
      apply open_fit_keeps; reflexivity. }
  unfold collect in H.
  apply bind_ok in H as ([] & sa & Ea & H).
  apply bind_ok in H as ([] & sb & Eb & H).
  apply bind_ok in H as ([] & ss & Es & H).
  apply bind_ok in H as ([] & sn & En & H).
  apply bind_ok in H as ([] & se & Ee & H).
  apply bind_ok in H as ([] & sf & Ef & H).
  assert (forall (s s' : state) (r : result unit) (op1 op2 : Port.port -> Port.port)
                 (b : bool) (k1 k2 : port_id),
             (forall p, Port.series (op1 p) name = Port.series p name) ->
             (forall p, Port.series (op2 p) name = Port.series p name) ->
             (if b then on_port k1 op1 ;;; on_port k2 op2 else ret tt) s
             = (r, s') ->
             Port.series (get_port k s') name = Port.series (get_port k s) name
             /\ m_count s' = m_count s) as Hblock.
  { intros s s' r op1 op2 b k1 k2 H1 H2 E. split.
    - apply (keeps_elim (fun s => Port.series (get_port k s) name)) in E;
        [exact E|].
      destruct b; [|intros s0; reflexivity].
      apply steps_bind; [kept_side | | intros _];
        apply (on_port_keeps_port (fun p => Port.series p name));
        assumption.
    - apply (keeps_elim m_count) in E; [exact E|].
      destruct b; keeps_auto;
        first [destruct k1; reflexivity | destruct k2; reflexivity]. }
  apply Hblock in Ea as [Hsa Hca]; [|intros; apply append_series..].
  apply Hblock in Eb as [Hsb Hcb]; [|intros; apply append_series..].
  apply Hblock in Ef as [Hsf _]; [|intros; apply flush_series..].
  apply Hblock in H as [Hsg _]; [|intros; apply flush_series..].
  assert (Port.series (get_port k ss) name = Port.series (get_port k sb) name
          /\ m_count ss = m_count sb) as [Hss Hcs].
  { split.
    - apply (keeps_elim (fun s => Port.series (get_port k s) name)) in Es;
        [exact Es|].
      apply (static_keeps_port (fun p => Port.series p name) k).
      intros item v p. apply add_attribute_series.
    - apply (keeps_elim m_count) in Es; [exact Es|].
      apply static_keeps; intros; try destruct k0; reflexivity. }
  destruct (non_static_effect m header ss) as (sn' & En' & Hns).
  rewrite En in En'. injection En' as <-.
  assert (m_count sn = m_count ss) as Hcn.
  { apply (keeps_elim m_count) in En; [exact En|].
    apply non_static_keeps; intros; try destruct k0; reflexivity. }
  destruct (extra_attributes_series m im location nod
              (frame_count (content im dir)) h w sn) as (se' & Ee' & Hes).
  rewrite Ee in Ee'. injection Ee' as <-.
  rewrite Hsg, Hsf, Hes. destruct (Hns k) as [_ Hnk]. rewrite Hnk.
  rewrite Hss, Hsb, Hsa, Hs1, Hcn, Hcs, Hcb, Hca, Hc1, <- app_assoc.
  reflexivity.
Qed.

Lemma C2_series_after_a_round_witness :
  exists st',
    process_file Sample.default_near Sample.dithered "im_in/" 0 0 "a.fits"
      fresh = (Ok tt, st')
    /\ Port.series (get_port P1 st') "DITHER_X" = [VInt 3]
    /\ Port.series (get_port P3 st') "DITHER_X" = [VInt 3]
    /\ Port.series (get_port P1 st') "INDEX" = [VInt 0; VInt 1; VInt 2]
    /\ Port.series (get_port P3 st') "INDEX" = []
    /\ NoDup (map fst (m_attributes Sample.default_near))
    /\ forall k name,
         Port.series (get_port k st') name
         = Port.series (get_port k fresh) name
           ++ appended Sample.default_near Sample2.dithered_header name
           ++ computed (VStr "A") (String.append "im_in/" "a.fits")
                (m_count fresh)
                (frame_count (content "a.fits" Sample.dithered)) k name
         /\ (NoDup (map fst (m_attributes Sample.default_near)) ->
             appended Sample.default_near Sample2.dithered_header name
             = if bool_decide (name ∈ m_non_static Sample.default_near)
               then option_list
                      (non_static_value Sample.default_near
                         Sample2.dithered_header name)
               else []).
Proof.
  eexists. split; [vm_compute; reflexivity|].
  do 4 (split; [reflexivity|]).
  split; [apply (bool_decide_unpack _); vm_compute; exact I|].
  eapply (C2_series_after_a_round Sample.default_near Sample.dithered
            "im_in/" 0 0 "a.fits" fresh);
    vm_compute; reflexivity.
Defined.
